(** * algotrade: risk sizing, trade ledger, backtester, sentiment scorer and
      chart-pattern strategy, embedded from the Python sources.

    Numbers.  The Python code computes on IEEE binary64 numbers.  Where a
    result depends on their rounding (the sizes and thresholds of position
    sizing, the quantity that [create_trade] records, the thresholds of
    [validate_breakout], the daily loss counter, the stop and target of
    [create_trade_from_strategy]) the code is embedded on binary64 numbers
    themselves: modules [Float64], [RiskManager64], [TradeSetup64],
    [ChartPatternDetector64] and [StrategyBasedTradeSetup64], on the
    primitive floats of [Floats], with [round(x, n)] as the float nearest to
    the decimal rounding of the exact value of [x], and a decimal literal as
    the float nearest to it.  The other modules, which carry the properties
    of structure and order (what a call raises and what it leaves alone, the
    states of a trade, the books of a backtest, counts, signs and bounds),
    are embedded on exact rationals ([Q]): every arithmetic operation is the
    exact one, comparisons are the rational ones, NaN and infinities do not
    exist, and equality of numbers is [Qeq] ([==]).  There a division of
    Python numbers whose divisor can be zero goes through [Py.div], which
    raises [ZeroDivisionError] as the interpreter does.  The detectors of
    chart_patterns.py divide numpy numbers, which never raises; there the
    embedding is faithful on frames whose prices are not zero.  Module
    [Binary64] repeats the worked P&L example on binary64 numbers.

    Effects.  Methods that change an object take it as an argument and return
    it; the clock is an argument; a method that may raise returns a
    [Py.result]. *)

From Stdlib Require Import ZArith Lia List Bool String Ascii.
From Stdlib Require Import QArith Qabs Qround Qminmax Lqa.
From Stdlib Require Floats.
Import ListNotations.

Open Scope Q_scope.

(** ** Python values shared by all modules *)

Module Py.

(** The exceptions the embedded code can raise. *)
Inductive exn : Type :=
| ValueError (msg : string)
| ZeroDivisionError
| AttributeError (attr : string)
| IndexError
| TypeError.

(** A computation either returns or raises. *)
Inductive result (A : Type) : Type :=
| Ok (a : A)
| Raise (e : exn).
Arguments Ok {A} a.
Arguments Raise {A} e.

Definition bind {A B : Type} (m : result A) (k : A -> result B) : result B :=
  match m with
  | Ok a => k a
  | Raise e => Raise e
  end.

Definition is_ok {A : Type} (m : result A) : bool :=
  match m with Ok _ => true | Raise _ => false end.

(** [a < b], [a <= b], [a == b] on numbers, as booleans. *)
Definition ltb (a b : Q) : bool := negb (Qle_bool b a).
Definition leb (a b : Q) : bool := Qle_bool a b.
Definition eqb (a b : Q) : bool := Qeq_bool a b.

(** [a / b] on Python floats. *)
Definition div (a b : Q) : result Q :=
  if eqb b 0 then Raise ZeroDivisionError else Ok (a / b).

(** Built-in [min(a, b)] and [max(a, b)]: the first argument wins ties. *)
Definition min2 (a b : Q) : Q := if ltb b a then b else a.
Definition max2 (a b : Q) : Q := if ltb a b then b else a.

(** Rounding of a rational to the nearest integer, ties to even. *)
Definition round_half_even (x : Q) : Z :=
  let f := Qfloor x in
  match Qcompare (x - inject_Z f) (1 # 2) with
  | Lt => f
  | Gt => (f + 1)%Z
  | Eq => if Z.even f then f else (f + 1)%Z
  end.

(** [round(x, ndigits)]. *)
Definition round (x : Q) (ndigits : nat) : Q :=
  let scale := inject_Z (10 ^ Z.of_nat ndigits) in
  inject_Z (round_half_even (x * scale)) / scale.

(** [len(l)] as a number. *)
Definition len {A : Type} (l : list A) : Q := inject_Z (Z.of_nat (List.length l)).

(** [sum(l)]. *)
Definition sum (l : list Q) : Q := fold_left Qplus l 0.

(** Python objects whose attributes are read by name: an object is the
    dictionary of the attributes its [__init__] has set. *)
#[warnings="-register-all"]
Inductive value : Type :=
| Num (x : Q)
| Boolean (b : bool)
| Str (s : string)
| ListOf (items : list value)
| Object (attributes : list (string * value)).

Fixpoint lookup (name : string) (attributes : list (string * value)) : option value :=
  match attributes with
  | [] => None
  | (key, v) :: others => if String.eqb key name then Some v else lookup name others
  end.

(** [obj.name] for an instance attribute. *)
Definition getattr (obj : value) (name : string) : result value :=
  match obj with
  | Object attributes =>
      match lookup name attributes with
      | Some v => Ok v
      | None => Raise (AttributeError name)
      end
  | _ => Raise (AttributeError name)
  end.

End Py.

Notation "x <- m ;; k" := (Py.bind m (fun x => k))
  (at level 61, m at next level, right associativity).

(** ** risk_manager.py *)

Module RiskManager.

(** The attributes of a [RiskManager] that the sizing code reads; the limits
    come from [Config]. *)
Record t : Type := mk {
  max_daily_loss : Q;
  max_position_size : Q;
  stop_loss_percent : Q;
  take_profit_percent : Q;
  daily_pnl : Q
}.

(** [RiskManager.calculate_position_size] on exact rationals, for the
    bounds of the size.  The call to [reset_daily_stats] only touches the
    daily counters and is left out.  [RiskManager64.calculate_position_size]
    is the function on binary64 numbers. *)
Definition calculate_position_size (self : t)
    (account_balance entry_price stop_loss_price risk_percent : Q) : Q :=
  if Py.leb entry_price stop_loss_price then 0
  else
    let risk_per_unit := Qabs (entry_price - stop_loss_price) in
    let risk_amount := account_balance * (risk_percent / 100) in
    let position_size := risk_amount / risk_per_unit in
    let position_size := Py.min2 position_size (max_position_size self) in
    if Py.ltb position_size (1 # 1000) then 0
    else Py.round position_size 8.

(** [Config.MAX_POSITION_SIZE] when the environment does not set it. *)
Definition default_max_position_size : Q := 1 # 100.

End RiskManager.

(** ** trade_setup.py *)

Module TradeSetup.

Inductive PositionType : Type := LONG | SHORT.

Inductive TradeStatus : Type := PENDING | ACTIVE | SL_HIT | TARGET_HIT | CLOSED.

Definition PositionType_eqb (a b : PositionType) : bool :=
  match a, b with
  | LONG, LONG | SHORT, SHORT => true
  | _, _ => false
  end.

Definition TradeStatus_eqb (a b : TradeStatus) : bool :=
  match a, b with
  | PENDING, PENDING | ACTIVE, ACTIVE | SL_HIT, SL_HIT
  | TARGET_HIT, TARGET_HIT | CLOSED, CLOSED => true
  | _, _ => false
  end.

(** A trade id is the text [TRADE_<clock>_<len(self.trades)>]: the clock
    reading (to the second) and the sequence number determine it. *)
Record TradeId : Type := mkId { id_clock : Z; id_seq : nat }.

Definition TradeId_eqb (a b : TradeId) : bool :=
  Z.eqb (id_clock a) (id_clock b) && Nat.eqb (id_seq a) (id_seq b).

(** The trade dictionary. [None] is Python's [None]. *)
Record Trade : Type := mkTrade {
  id : TradeId;
  symbol : string;
  position_type : PositionType;
  entry_price : Q;
  sl_price : Q;
  target_price : Q;
  quantity : Q;
  risk_percent : Q;
  risk_amount : Q;
  reward_amount : Q;
  risk_reward_ratio : Q;
  sl_percent : Q;
  target_percent : Q;
  strategy : string;
  indicators : list (string * Q);
  status : TradeStatus;
  created_at : Z;
  entry_time : option Z;
  exit_time : option Z;
  exit_price : option Q;
  pnl : Q;
  pnl_percent : Q
}.

Definition with_status (s : TradeStatus) (t : Trade) : Trade :=
  mkTrade (id t) (symbol t) (position_type t) (entry_price t) (sl_price t)
    (target_price t) (quantity t) (risk_percent t) (risk_amount t)
    (reward_amount t) (risk_reward_ratio t) (sl_percent t) (target_percent t)
    (strategy t) (indicators t) s (created_at t) (entry_time t) (exit_time t)
    (exit_price t) (pnl t) (pnl_percent t).

Definition with_entry_time (v : option Z) (t : Trade) : Trade :=
  mkTrade (id t) (symbol t) (position_type t) (entry_price t) (sl_price t)
    (target_price t) (quantity t) (risk_percent t) (risk_amount t)
    (reward_amount t) (risk_reward_ratio t) (sl_percent t) (target_percent t)
    (strategy t) (indicators t) (status t) (created_at t) v (exit_time t)
    (exit_price t) (pnl t) (pnl_percent t).

Definition with_entry_price (v : Q) (t : Trade) : Trade :=
  mkTrade (id t) (symbol t) (position_type t) v (sl_price t)
    (target_price t) (quantity t) (risk_percent t) (risk_amount t)
    (reward_amount t) (risk_reward_ratio t) (sl_percent t) (target_percent t)
    (strategy t) (indicators t) (status t) (created_at t) (entry_time t)
    (exit_time t) (exit_price t) (pnl t) (pnl_percent t).

Definition with_risk_amount (v : Q) (t : Trade) : Trade :=
  mkTrade (id t) (symbol t) (position_type t) (entry_price t) (sl_price t)
    (target_price t) (quantity t) (risk_percent t) v
    (reward_amount t) (risk_reward_ratio t) (sl_percent t) (target_percent t)
    (strategy t) (indicators t) (status t) (created_at t) (entry_time t)
    (exit_time t) (exit_price t) (pnl t) (pnl_percent t).

Definition with_reward_amount (v : Q) (t : Trade) : Trade :=
  mkTrade (id t) (symbol t) (position_type t) (entry_price t) (sl_price t)
    (target_price t) (quantity t) (risk_percent t) (risk_amount t)
    v (risk_reward_ratio t) (sl_percent t) (target_percent t)
    (strategy t) (indicators t) (status t) (created_at t) (entry_time t)
    (exit_time t) (exit_price t) (pnl t) (pnl_percent t).

Definition with_exit (time : Z) (price : Q) (t : Trade) : Trade :=
  mkTrade (id t) (symbol t) (position_type t) (entry_price t) (sl_price t)
    (target_price t) (quantity t) (risk_percent t) (risk_amount t)
    (reward_amount t) (risk_reward_ratio t) (sl_percent t) (target_percent t)
    (strategy t) (indicators t) (status t) (created_at t) (entry_time t)
    (Some time) (Some price) (pnl t) (pnl_percent t).

Definition with_pnl (v : Q) (t : Trade) : Trade :=
  mkTrade (id t) (symbol t) (position_type t) (entry_price t) (sl_price t)
    (target_price t) (quantity t) (risk_percent t) (risk_amount t)
    (reward_amount t) (risk_reward_ratio t) (sl_percent t) (target_percent t)
    (strategy t) (indicators t) (status t) (created_at t) (entry_time t)
    (exit_time t) (exit_price t) v (pnl_percent t).

Definition with_pnl_percent (v : Q) (t : Trade) : Trade :=
  mkTrade (id t) (symbol t) (position_type t) (entry_price t) (sl_price t)
    (target_price t) (quantity t) (risk_percent t) (risk_amount t)
    (reward_amount t) (risk_reward_ratio t) (sl_percent t) (target_percent t)
    (strategy t) (indicators t) (status t) (created_at t) (entry_time t)
    (exit_time t) (exit_price t) (pnl t) v.

(** The ledger object.  [self.trades] only grows, so the position of a trade
    dictionary in it identifies the object: [self.active_positions] holds
    references to the same dictionaries, modelled as positions in
    [trades]. *)
Record t : Type := mk {
  account_balance : Q;
  trades : list Trade;
  active_positions : list nat
}.

(** [TradeSetup.__init__]. *)
Definition init : t := mk 0 [] [].

(** [TradeSetup.set_account_balance]. *)
Definition set_account_balance (self : t) (balance : Q) : t :=
  mk balance (trades self) (active_positions self).

(** [TradeSetup.calculate_position_size] on exact rationals;
    [TradeSetup64.calculate_position_size] is the function on binary64
    numbers. *)
Definition calculate_position_size (self : t)
    (entry_price sl_price risk_percent : Q) : Q :=
  if Py.leb entry_price sl_price then 0
  else
    let risk_per_unit := Qabs (entry_price - sl_price) in
    let risk_amount := account_balance self * (risk_percent / 100) in
    let position_size := risk_amount / risk_per_unit in
    Py.round position_size 8.

(** The price validation at the head of [create_trade]. *)
Definition validate_prices (position_type : PositionType)
    (entry_price sl_price target_price : Q) : Py.result unit :=
  match position_type with
  | LONG =>
      if Py.leb entry_price sl_price then
        Py.Raise (Py.ValueError "Stop loss must be below entry price for LONG position")
      else if Py.leb target_price entry_price then
        Py.Raise (Py.ValueError "Target must be above entry price for LONG position")
      else Py.Ok tt
  | SHORT =>
      if Py.leb sl_price entry_price then
        Py.Raise (Py.ValueError "Stop loss must be above entry price for SHORT position")
      else if Py.leb entry_price target_price then
        Py.Raise (Py.ValueError "Target must be below entry price for SHORT position")
      else Py.Ok tt
  end.

(** [TradeSetup.create_trade].  [now] is the clock reading; [quantity] is
    [None] when the caller leaves it out.  The trade is built and appended
    only when nothing raised before. *)
Definition create_trade (self : t) (now : Z) (symbol : string)
    (position_type : PositionType) (entry_price sl_price target_price : Q)
    (quantity : option Q) (risk_percent : Q) (strategy : string)
    (indicators : list (string * Q)) : Py.result Trade * t :=
  let computation :=
    _ <- validate_prices position_type entry_price sl_price target_price ;;
    let quantity :=
      match quantity with
      | None => calculate_position_size self entry_price sl_price risk_percent
      | Some q => q
      end in
    let risk_amount := Qabs (entry_price - sl_price) * quantity in
    let reward_amount := Qabs (target_price - entry_price) * quantity in
    risk_reward_ratio <-
      (if Py.ltb 0 risk_amount then Py.div reward_amount risk_amount
       else Py.Ok 0) ;;
    sl_ratio <- Py.div (sl_price - entry_price) entry_price ;;
    let sl_percent := Qabs sl_ratio * 100 in
    target_ratio <- Py.div (target_price - entry_price) entry_price ;;
    let target_percent := Qabs target_ratio * 100 in
    Py.Ok {|
      id := mkId now (List.length (trades self));
      symbol := symbol;
      position_type := position_type;
      entry_price := Py.round entry_price 8;
      sl_price := Py.round sl_price 8;
      target_price := Py.round target_price 8;
      quantity := Py.round quantity 8;
      risk_percent := risk_percent;
      risk_amount := Py.round risk_amount 2;
      reward_amount := Py.round reward_amount 2;
      risk_reward_ratio := Py.round risk_reward_ratio 2;
      sl_percent := Py.round sl_percent 2;
      target_percent := Py.round target_percent 2;
      strategy := strategy;
      indicators := indicators;
      status := PENDING;
      created_at := now;
      entry_time := None;
      exit_time := None;
      exit_price := None;
      pnl := 0;
      pnl_percent := 0
    |} in
  match computation with
  | Py.Ok trade =>
      (Py.Ok trade,
       mk (account_balance self) (trades self ++ [trade]) (active_positions self))
  | Py.Raise e => (Py.Raise e, self)
  end.

(** Position of the first element satisfying [p]. *)
Fixpoint find_index {A : Type} (p : A -> bool) (l : list A) : option nat :=
  match l with
  | [] => None
  | x :: l' => if p x then Some O else option_map S (find_index p l')
  end.

(** Assignment to the dictionary stored at position [n]. *)
Fixpoint store {A : Type} (n : nat) (v : A) (l : list A) : list A :=
  match l, n with
  | [], _ => []
  | _ :: l', O => v :: l'
  | x :: l', S n' => x :: store n' v l'
  end.

(** The dictionary a reference points to. *)
Definition deref (self : t) (ref : nat) : option Trade :=
  nth_error (trades self) ref.

Definition put (self : t) (ref : nat) (trade : Trade) : t :=
  mk (account_balance self) (store ref trade (trades self)) (active_positions self).

(** [TradeSetup.get_trade]: a reference to the first trade with that id. *)
Definition get_trade (self : t) (trade_id : TradeId) : option nat :=
  find_index (fun trade => TradeId_eqb (id trade) trade_id) (trades self).

(** [[t for t in self.active_positions if t['id'] != trade_id]]. *)
Definition without_id (self : t) (trade_id : TradeId) : list nat :=
  filter (fun ref =>
            match deref self ref with
            | Some trade => negb (TradeId_eqb (id trade) trade_id)
            | None => true
            end) (active_positions self).

(** A Python number is true when it is not zero; [None] is false. *)
Definition truthy (v : option Q) : option Q :=
  match v with
  | Some x => if Py.eqb x 0 then None else Some x
  | None => None
  end.

(** [TradeSetup.activate_trade]; returns the reference to the trade. *)
Definition activate_trade (self : t) (now : Z) (trade_id : TradeId)
    (actual_entry_price : option Q) : Py.result nat * t :=
  match get_trade self trade_id with
  | None => (Py.Raise (Py.ValueError "Trade not found"), self)
  | Some ref =>
      match deref self ref with
      | None => (Py.Raise (Py.ValueError "Trade not found"), self)
      | Some trade =>
          if negb (TradeStatus_eqb (status trade) PENDING) then
            (Py.Raise (Py.ValueError "Trade is not pending"), self)
          else
            let trade := with_status ACTIVE trade in
            let trade := with_entry_time (Some now) trade in
            let trade :=
              match truthy actual_entry_price with
              | Some price =>
                  let trade := with_entry_price (Py.round price 8) trade in
                  let risk_amount :=
                    Qabs (entry_price trade - sl_price trade) * quantity trade in
                  let reward_amount :=
                    Qabs (target_price trade - entry_price trade) * quantity trade in
                  let trade := with_risk_amount (Py.round risk_amount 2) trade in
                  with_reward_amount (Py.round reward_amount 2) trade
              | None => trade
              end in
            (Py.Ok ref,
             mk (account_balance self) (store ref trade (trades self))
                (active_positions self ++ [ref]))
      end
  end.

(** [TradeSetup._calculate_pnl]: the outcome and the trade dictionary as
    the call leaves it ([pnl] is assigned before [pnl_percent] is
    computed). *)
Definition _calculate_pnl (trade : Trade) (current_price : option Q)
    : Py.result unit * Trade :=
  let current_price :=
    match current_price with
    | Some price => Some price
    | None => exit_price trade
    end in
  match current_price with
  | None => (Py.Raise Py.TypeError, trade)
  | Some current_price =>
      let entry_price := entry_price trade in
      let quantity := quantity trade in
      let pnl :=
        match position_type trade with
        | LONG => (current_price - entry_price) * quantity
        | SHORT => (entry_price - current_price) * quantity
        end in
      let trade := with_pnl (Py.round pnl 2) trade in
      match Py.div pnl (entry_price * quantity) with
      | Py.Raise e => (Py.Raise e, trade)
      | Py.Ok ratio => (Py.Ok tt, with_pnl_percent (Py.round (ratio * 100) 2) trade)
      end
  end.

(** What [check_trade] returns: the status text and the trade. *)
Inductive CheckResult : Type :=
| not_active
| sl_hit (trade : nat)
| target_hit (trade : nat)
| active (trade : nat).

(** The common part of the two exits of [check_trade]. *)
Definition hit (self : t) (now : Z) (trade_id : TradeId) (ref : nat)
    (trade : Trade) (new_status : TradeStatus) (current_price : Q)
    (answer : CheckResult) : Py.result CheckResult * t :=
  let trade := with_status new_status trade in
  let trade := with_exit now (Py.round current_price 8) trade in
  match _calculate_pnl trade None with
  | (Py.Raise e, trade) => (Py.Raise e, put self ref trade)
  | (Py.Ok _, trade) =>
      let self := put self ref trade in
      (Py.Ok answer,
       mk (account_balance self) (trades self) (without_id self trade_id))
  end.

(** [TradeSetup.check_trade]. *)
Definition check_trade (self : t) (now : Z) (trade_id : TradeId)
    (current_price : Q) : Py.result CheckResult * t :=
  match get_trade self trade_id with
  | None => (Py.Ok not_active, self)
  | Some ref =>
      match deref self ref with
      | None => (Py.Ok not_active, self)
      | Some trade =>
          if negb (TradeStatus_eqb (status trade) ACTIVE) then
            (Py.Ok not_active, self)
          else
            let '(is_sl_hit, is_target_hit) :=
              match position_type trade with
              | LONG => (Py.leb current_price (sl_price trade),
                         Py.leb (target_price trade) current_price)
              | SHORT => (Py.leb (sl_price trade) current_price,
                          Py.leb current_price (target_price trade))
              end in
            if is_sl_hit then
              hit self now trade_id ref trade SL_HIT current_price (sl_hit ref)
            else if is_target_hit then
              hit self now trade_id ref trade TARGET_HIT current_price (target_hit ref)
            else
              match _calculate_pnl trade (Some current_price) with
              | (Py.Raise e, trade) => (Py.Raise e, put self ref trade)
              | (Py.Ok _, trade) => (Py.Ok (active ref), put self ref trade)
              end
      end
  end.

(** [TradeSetup.close_trade]; returns the reference to the trade. *)
Definition close_trade (self : t) (now : Z) (trade_id : TradeId)
    (exit_price : Q) : Py.result nat * t :=
  match get_trade self trade_id with
  | None => (Py.Raise (Py.ValueError "Trade not found"), self)
  | Some ref =>
      match deref self ref with
      | None => (Py.Raise (Py.ValueError "Trade not found"), self)
      | Some trade =>
          if negb (TradeStatus_eqb (status trade) ACTIVE
                   || TradeStatus_eqb (status trade) PENDING) then
            (Py.Raise (Py.ValueError "Trade is not active"), self)
          else
            let trade := with_status CLOSED trade in
            let trade := with_exit now (Py.round exit_price 8) trade in
            match _calculate_pnl trade None with
            | (Py.Raise e, trade) => (Py.Raise e, put self ref trade)
            | (Py.Ok _, trade) =>
                let self := put self ref trade in
                (Py.Ok ref,
                 mk (account_balance self) (trades self) (without_id self trade_id))
            end
      end
  end.

(** [TradeSetup.get_active_trades]. *)
Definition get_active_trades (self : t) : list Trade :=
  filter (fun trade => TradeStatus_eqb (status trade) ACTIVE) (trades self).

Definition positions_of_type (self : t) (side : PositionType) : list nat :=
  filter (fun ref =>
            match deref self ref with
            | Some trade => PositionType_eqb (position_type trade) side
            | None => false
            end) (active_positions self).

(** [TradeSetup.get_long_positions] and [get_short_positions]. *)
Definition get_long_positions (self : t) : list nat := positions_of_type self LONG.
Definition get_short_positions (self : t) : list nat := positions_of_type self SHORT.

(** The test [t['status'] in [SL_HIT, TARGET_HIT, CLOSED]]. *)
Definition is_closed (trade : Trade) : bool :=
  TradeStatus_eqb (status trade) SL_HIT
  || TradeStatus_eqb (status trade) TARGET_HIT
  || TradeStatus_eqb (status trade) CLOSED.

Record Summary : Type := mkSummary {
  summary_account_balance : Q;
  total_trades : nat;
  active_trades : nat;
  closed_trades : nat;
  long_positions : nat;
  short_positions : nat;
  total_pnl : Q;
  winning_trades : nat;
  losing_trades : nat;
  win_rate : Q
}.

Definition of_nat (n : nat) : Q := inject_Z (Z.of_nat n).

(** [TradeSetup.get_trade_summary]. *)
Definition get_trade_summary (self : t) : Summary :=
  let total_trades := List.length (trades self) in
  let active_trades := List.length (get_active_trades self) in
  let closed_trades := List.length (filter is_closed (trades self)) in
  let total_pnl := Py.sum (map pnl (trades self)) in
  let winning_trades :=
    List.length (filter (fun trade => Py.ltb 0 (pnl trade)) (trades self)) in
  let losing_trades :=
    List.length (filter (fun trade => Py.ltb (pnl trade) 0) (trades self)) in
  {| summary_account_balance := account_balance self;
     total_trades := total_trades;
     active_trades := active_trades;
     closed_trades := closed_trades;
     long_positions := List.length (get_long_positions self);
     short_positions := List.length (get_short_positions self);
     total_pnl := Py.round total_pnl 2;
     winning_trades := winning_trades;
     losing_trades := losing_trades;
     win_rate :=
       Py.round (if Nat.ltb 0 closed_trades
                 then of_nat winning_trades / of_nat closed_trades * 100
                 else 0) 2 |}.

(** The price ordering of a trade's side, strict as the specification
    states it, and its weak form. *)
Definition ordered (trade : Trade) : Prop :=
  match position_type trade with
  | LONG => sl_price trade < entry_price trade /\ entry_price trade < target_price trade
  | SHORT => target_price trade < entry_price trade /\ entry_price trade < sl_price trade
  end.

Definition weakly_ordered (trade : Trade) : Prop :=
  match position_type trade with
  | LONG => sl_price trade <= entry_price trade /\ entry_price trade <= target_price trade
  | SHORT => target_price trade <= entry_price trade /\ entry_price trade <= sl_price trade
  end.

(** The calls a client can make on a ledger, with their arguments. *)
Inductive Call : Type :=
| call_set_account_balance (balance : Q)
| call_create_trade (now : Z) (symbol : string) (position_type : PositionType)
    (entry_price sl_price target_price : Q) (quantity : option Q)
    (risk_percent : Q) (strategy : string) (indicators : list (string * Q))
| call_activate_trade (now : Z) (trade_id : TradeId) (actual_entry_price : option Q)
| call_check_trade (now : Z) (trade_id : TradeId) (current_price : Q)
| call_close_trade (now : Z) (trade_id : TradeId) (exit_price : Q).

(** The ledger after a call, whether it returned or raised. *)
Definition step (self : t) (call : Call) : t :=
  match call with
  | call_set_account_balance balance => set_account_balance self balance
  | call_create_trade now symbol position_type entry sl target quantity
      risk_percent strategy indicators =>
      snd (create_trade self now symbol position_type entry sl target quantity
             risk_percent strategy indicators)
  | call_activate_trade now trade_id price => snd (activate_trade self now trade_id price)
  | call_check_trade now trade_id price => snd (check_trade self now trade_id price)
  | call_close_trade now trade_id price => snd (close_trade self now trade_id price)
  end.

(** The ledger a fresh [TradeSetup] holds after a sequence of calls. *)
Definition run (calls : list Call) : t := fold_left step calls init.

(** Calls that do not hand [activate_trade] an actual entry price. *)
Definition keeps_entry_price (call : Call) : Prop :=
  match call with
  | call_activate_trade _ _ price => truthy price = None
  | _ => True
  end.

(** The win rate as the specification words it, for comparison with
    [get_trade_summary]: the closed trades with a positive P&L over the
    closed trades, times 100, and 0 when no trade is closed. *)
Definition closed_win_rate (self : t) : Q :=
  let closed := filter is_closed (trades self) in
  let wins := filter (fun trade => Py.ltb 0 (pnl trade)) closed in
  Py.round (if Nat.ltb 0 (List.length closed)
            then of_nat (List.length wins) / of_nat (List.length closed) * 100
            else 0) 2.

(** A session: one LONG trade closed at a profit, a second one still open
    and showing a profit at the last price check. *)
Definition one_closed_one_open : list Call :=
  [ call_create_trade 0 "BTCUSDT" LONG 100 95 110 (Some 1) 1 "Manual" [];
    call_activate_trade 1 (mkId 0 0) None;
    call_close_trade 2 (mkId 0 0) 105;
    call_create_trade 3 "BTCUSDT" LONG 100 95 110 (Some 1) 1 "Manual" [];
    call_activate_trade 4 (mkId 3 1) None;
    call_check_trade 5 (mkId 3 1) 105 ].

End TradeSetup.

(** ** backtesting.py *)

Module Backtesting.

(** One row of the normalised price frame.  [symbol] is [None] when the
    frame has no such column. *)
Record Bar : Type := mkBar {
  timestamp : Z;
  open : Q;
  high : Q;
  low : Q;
  close : Q;
  volume : Q;
  symbol : option string
}.

(** The signal dictionary a strategy returns; a key that is absent is
    [None]. *)
Module Signal.
Record t : Type := mk {
  action : option string;
  confidence : option Q;
  price : option Q;
  stop_loss : option Q;
  take_profit : option Q
}.
End Signal.

(** The dictionary of an open position. *)
Module Position.
Record t : Type := mk {
  entry_time : Z;
  entry_price : Q;
  quantity : Q;
  side : string;
  symbol : string;
  stop_loss : Q;
  take_profit : Q;
  confidence : Q
}.
End Position.

(** The dictionary of a closed trade. *)
Module Trade.
Record t : Type := mk {
  entry_time : Z;
  exit_time : Z;
  symbol : string;
  side : string;
  entry_price : Q;
  exit_price : Q;
  quantity : Q;
  pnl : Q;
  pnl_percent : Q;
  exit_reason : string;
  strategy : string
}.
End Trade.

(** What the backtester uses of a [Strategy] object: its name, the period
    attributes it may carry ([hasattr]), and its two methods, which may
    raise. *)
Record Strategy : Type := mkStrategy {
  name : string;
  slow_period : option nat;
  rsi_period : option nat;
  period : option nat;
  generate_signal : list Bar -> Py.result Signal.t;
  should_exit : Position.t -> Q -> Py.result bool
}.

(** [BacktestResult], without the metrics that need square roots or
    infinities (Sharpe ratio, profit factor) and the win/loss and drawdown
    statistics, which no property below reads. *)
Record BacktestResult : Type := mkResult {
  trades : list Trade.t;
  equity_curve : list Q;
  total_trades : nat;
  winning_trades : nat;
  losing_trades : nat;
  total_pnl : Q;
  win_rate : Q
}.

(** [BacktestResult.__init__]. *)
Definition empty_result : BacktestResult := mkResult [] [] 0 0 0 0 0.

(** [Backtester]: the two attributes [run_backtest] reads. *)
Record t : Type := mk {
  initial_capital : Q;
  commission : Q
}.

(** [Backtester.__init__] with its default arguments. *)
Definition default : t := mk 100000 (1 # 1000).

(** The local variables of [run_backtest] that change from bar to bar,
    together with the fields of [result] filled along the way. *)
Record State : Type := mkState {
  capital : Q;
  curve : list Q;
  positions : list Position.t;
  local_trades : list Trade.t;
  result_trades : list Trade.t;
  wins : nat;
  losses : nat
}.

Definition of_nat (n : nat) : Q := inject_Z (Z.of_nat n).

(** The P&L of a closed position after commission on both legs. *)
Definition net_pnl (commission : Q) (side : string)
    (entry_price exit_price quantity : Q) : Q :=
  let pnl :=
    if String.eqb side "BUY" then (exit_price - entry_price) * quantity
    else (entry_price - exit_price) * quantity in
  let commission_cost := (entry_price + exit_price) * quantity * commission in
  pnl - commission_cost.

(** The body shared by the two closing loops: compute the P&L, update the
    capital, record the trade and count it as a win or a loss. *)
Definition close_position (self : t) (strategy : Strategy)
    (position : Position.t) (exit_reason : string) (exit_price : Q)
    (exit_time : Z) (st : State) : Py.result State :=
  let entry_price := Position.entry_price position in
  let quantity := Position.quantity position in
  let side := Position.side position in
  let pnl := net_pnl (commission self) side entry_price exit_price quantity in
  let capital := capital st + pnl in
  ratio <- Py.div pnl (entry_price * quantity) ;;
  let trade :=
    {| Trade.entry_time := Position.entry_time position;
       Trade.exit_time := exit_time;
       Trade.symbol := Position.symbol position;
       Trade.side := side;
       Trade.entry_price := entry_price;
       Trade.exit_price := exit_price;
       Trade.quantity := quantity;
       Trade.pnl := pnl;
       Trade.pnl_percent := ratio * 100;
       Trade.exit_reason := exit_reason;
       Trade.strategy := name strategy |} in
  Py.Ok {| capital := capital;
           curve := curve st;
           positions := positions st;
           local_trades := local_trades st ++ [trade];
           result_trades := result_trades st ++ [trade];
           wins := if Py.ltb 0 pnl then S (wins st) else wins st;
           losses := if Py.ltb 0 pnl then losses st else S (losses st) |}.

(** The exit test of one open position: the reason to close it, if any. *)
Definition exit_reason_of (strategy : Strategy) (position : Position.t)
    (current_price : Q) : Py.result (option string) :=
  let side := Position.side position in
  let stop_loss := Position.stop_loss position in
  let take_profit := Position.take_profit position in
  if Py.ltb 0 stop_loss
     && ((String.eqb side "BUY" && Py.leb current_price stop_loss)
         || (String.eqb side "SELL" && Py.leb stop_loss current_price))
  then Py.Ok (Some "stop_loss"%string)
  else if Py.ltb 0 take_profit
          && ((String.eqb side "BUY" && Py.leb take_profit current_price)
              || (String.eqb side "SELL" && Py.leb current_price take_profit))
  then Py.Ok (Some "take_profit"%string)
  else
    leave <- should_exit strategy position current_price ;;
    Py.Ok (if leave : bool then Some "strategy_exit"%string else None).

(** The loop that fills [positions_to_close], from position [pos_idx] on. *)
Fixpoint positions_to_close (strategy : Strategy) (current_price : Q)
    (open_positions : list Position.t) (pos_idx : nat)
    : Py.result (list (nat * string * Q)) :=
  match open_positions with
  | [] => Py.Ok []
  | position :: rest =>
      reason <- exit_reason_of strategy position current_price ;;
      others <- positions_to_close strategy current_price rest (S pos_idx) ;;
      Py.Ok match reason with
            | Some reason => (pos_idx, reason, current_price) :: others
            | None => others
            end
  end.

(** [list.pop(i)]. *)
Fixpoint pop {A : Type} (i : nat) (l : list A) : option (A * list A) :=
  match l, i with
  | [], _ => None
  | x :: l', O => Some (x, l')
  | x :: l', S i' =>
      match pop i' l' with
      | Some (y, l'') => Some (y, x :: l'')
      | None => None
      end
  end.

(** The loop over [reversed(positions_to_close)]. *)
Fixpoint close_positions (self : t) (strategy : Strategy) (current_time : Z)
    (to_close : list (nat * string * Q)) (st : State) : Py.result State :=
  match to_close with
  | [] => Py.Ok st
  | (pos_idx, exit_reason, exit_price) :: others =>
      match pop pos_idx (positions st) with
      | None => Py.Raise Py.IndexError
      | Some (position, remaining) =>
          let st := mkState (capital st) (curve st) remaining (local_trades st)
                      (result_trades st) (wins st) (losses st) in
          st <- close_position self strategy position exit_reason exit_price
                  current_time st ;;
          close_positions self strategy current_time others st
      end
  end.

(** The test [signal.get('action') in ['BUY', 'SELL']]. *)
Definition tradable (action : option string) : option string :=
  match action with
  | Some a => if String.eqb a "BUY" || String.eqb a "SELL" then Some a else None
  | None => None
  end.

Definition or_default {A : Type} (v : option A) (default : A) : A :=
  match v with Some x => x | None => default end.

(** The signal for the current bar; an exception of the strategy is
    caught and replaced by HOLD. *)
Definition signal_for (strategy : Strategy) (current_data : list Bar)
    (current_price : Q) : Signal.t :=
  match generate_signal strategy current_data with
  | Py.Ok signal => signal
  | Py.Raise _ => Signal.mk (Some "HOLD"%string) (Some 0) (Some current_price) None None
  end.

(** Opening of a position on a BUY or SELL signal when none is open. *)
Definition open_position (position_size_pct : Q) (current_data : list Bar)
    (current_time : Z) (current_price : Q) (signal : Signal.t) (st : State)
    : Py.result State :=
  match tradable (Signal.action signal), positions st with
  | Some side, [] =>
      let entry_price := or_default (Signal.price signal) current_price in
      let position_value := capital st * position_size_pct in
      quantity <- Py.div position_value entry_price ;;
      let position :=
        {| Position.entry_time := current_time;
           Position.entry_price := entry_price;
           Position.quantity := quantity;
           Position.side := side;
           Position.symbol :=
             match current_data with
             | bar :: _ => or_default (symbol bar) "UNKNOWN"%string
             | [] => "UNKNOWN"%string
             end;
           Position.stop_loss := or_default (Signal.stop_loss signal) 0;
           Position.take_profit := or_default (Signal.take_profit signal) 0;
           Position.confidence := or_default (Signal.confidence signal) 0 |} in
      Py.Ok (mkState (capital st) (curve st) (positions st ++ [position])
               (local_trades st) (result_trades st) (wins st) (losses st))
  | _, _ => Py.Ok st
  end.

(** The unrealised P&L of the open positions at the current price. *)
Definition unrealized (current_price : Q) (open_positions : list Position.t) : Q :=
  fold_left
    (fun acc position =>
       let entry_price := Position.entry_price position in
       let quantity := Position.quantity position in
       if String.eqb (Position.side position) "BUY"
       then acc + (current_price - entry_price) * quantity
       else acc + (entry_price - current_price) * quantity)
    open_positions 0.

(** One iteration of the main loop, for bar [i]. *)
Definition bar_step (self : t) (strategy : Strategy) (df : list Bar)
    (position_size_pct : Q) (st : State) (i : nat) : Py.result State :=
  let current_data := firstn (S i) df in
  match nth_error df i with
  | None => Py.Raise Py.IndexError
  | Some bar =>
      let current_price := close bar in
      let current_time := timestamp bar in
      to_close <- positions_to_close strategy current_price (positions st) 0 ;;
      st <- close_positions self strategy current_time (rev to_close) st ;;
      let signal := signal_for strategy current_data current_price in
      st <- open_position position_size_pct current_data current_time
              current_price signal st ;;
      Py.Ok (mkState (capital st)
               (curve st ++ [capital st + unrealized current_price (positions st)])
               (positions st) (local_trades st) (result_trades st)
               (wins st) (losses st))
  end.

(** A [for] loop whose body may raise. *)
Fixpoint for_each {A S : Type} (body : S -> A -> Py.result S) (l : list A)
    (s : S) : Py.result S :=
  match l with
  | [] => Py.Ok s
  | a :: l' => s' <- body s a ;; for_each body l' s'
  end.

(** The warm-up: 50, or a period attribute of the strategy plus 10. *)
Definition min_period (strategy : Strategy) : nat :=
  let bump (attr : option nat) (m : nat) : nat :=
    match attr with Some p => Nat.max m (p + 10) | None => m end in
  bump (period strategy) (bump (rsi_period strategy) (bump (slow_period strategy) 50%nat)).

(** The closing of what is still open after the last bar. *)
Definition close_remaining (self : t) (strategy : Strategy) (df : list Bar)
    (st : State) : Py.result State :=
  match positions st, rev df with
  | _ :: _, last_bar :: _ =>
      for_each
        (fun st position =>
           close_position self strategy position "end_of_data"
             (close last_bar) (timestamp last_bar) st)
        (positions st) st
  | _, _ => Py.Ok st
  end.

(** [Backtester.run_backtest] on the normalised frame [df] (the output of
    [normalize_data]); [initial_capital] is [None] when the caller leaves it
    out. *)
Definition run_backtest (self : t) (strategy : Strategy) (df : list Bar)
    (initial_capital : option Q) (position_size_pct : Q)
    : Py.result BacktestResult :=
  let initial_capital := or_default initial_capital (Backtesting.initial_capital self) in
  if Nat.ltb (List.length df) 50 then Py.Ok empty_result
  else
    let st := mkState initial_capital [initial_capital] [] [] [] 0 0 in
    let first := min_period strategy in
    st <- for_each (bar_step self strategy df position_size_pct)
            (seq first (List.length df - first)) st ;;
    st <- close_remaining self strategy df st ;;
    let total_trades := List.length (local_trades st) in
    Py.Ok {| trades := result_trades st;
             equity_curve := curve st;
             total_trades := total_trades;
             winning_trades := wins st;
             losing_trades := losses st;
             total_pnl :=
               if Nat.ltb 0 (List.length (local_trades st))
               then Py.sum (map Trade.pnl (local_trades st)) else 0;
             win_rate :=
               if Nat.ltb 0 (List.length (local_trades st))
               then (if Nat.ltb 0 total_trades
                     then of_nat (wins st) / of_nat total_trades * 100 else 0)
               else 0 |}.

(** The net P&L of a recorded trade as the specification states it:
    (exit - entry) * quantity for BUY, its negation for SELL, minus the
    commission (entry + exit) * quantity * rate. *)
Definition pnl_as_specified (commission : Q) (trade : Trade.t) : Prop :=
  let gross := (Trade.exit_price trade - Trade.entry_price trade) * Trade.quantity trade in
  let commission_cost :=
    (Trade.entry_price trade + Trade.exit_price trade) * Trade.quantity trade * commission in
  (Trade.side trade = "BUY"%string /\ Trade.pnl trade == gross - commission_cost)
  \/ (Trade.side trade = "SELL"%string /\ Trade.pnl trade == - gross - commission_cost).

Definition is_win (trade : Trade.t) : bool := Py.ltb 0 (Trade.pnl trade).
Definition is_loss (trade : Trade.t) : bool := Py.leb (Trade.pnl trade) 0.

(** What every iteration of [run_backtest] keeps true of its state. *)
Record invariant (self : t) (st : State) : Prop := {
  inv_sides :
    Forall (fun p => Position.side p = "BUY"%string \/ Position.side p = "SELL"%string)
      (positions st);
  inv_pnl : Forall (pnl_as_specified (commission self)) (local_trades st);
  inv_same : result_trades st = local_trades st;
  inv_wins : wins st = List.length (filter is_win (local_trades st));
  inv_losses : losses st = List.length (filter is_loss (local_trades st))
}.

(** A frame of 52 bars: flat at 100 up to bar 50, then 110. *)
Definition flat_bar (i : nat) (price : Q) : Bar :=
  mkBar (Z.of_nat i) price price price price 1000 None.

Definition sample_frame : list Bar :=
  map (fun i => flat_bar i 100) (seq 0 51) ++ [flat_bar 51 110].

(** A strategy that buys once, at 100 on bar 50, with its target at 110. *)
Definition buy_once : Strategy :=
  mkStrategy "Buy once" None None None
    (fun data =>
       Py.Ok (if Nat.eqb (List.length data) 51
              then Signal.mk (Some "BUY"%string) (Some 1) (Some 100) None (Some 110)
              else Signal.mk (Some "HOLD"%string) (Some 0) None None None))
    (fun _ _ => Py.Ok false).

End Backtesting.

(** ** data_ingestion.py *)

Module NewsDataIngestion.

(** [str.lower] on ASCII text; other characters are left alone. *)
Definition lower_char (c : ascii) : ascii :=
  let n := nat_of_ascii c in
  if Nat.leb 65 n && Nat.leb n 90 then ascii_of_nat (n + 32) else c.

Fixpoint lower (text : string) : string :=
  match text with
  | EmptyString => EmptyString
  | String c rest => String (lower_char c) (lower rest)
  end.

(** [word in text]: [word] occurs somewhere in [text]. *)
Fixpoint contains (word text : string) : bool :=
  if String.prefix word text then true
  else match text with
       | EmptyString => false
       | String _ rest => contains word rest
       end.

Definition positive_words : list string :=
  ["profit"; "gain"; "rise"; "surge"; "growth"; "positive"; "bullish"; "up";
   "increase"]%string.

Definition negative_words : list string :=
  ["loss"; "fall"; "decline"; "drop"; "negative"; "bearish"; "down"; "decrease";
   "crash"]%string.

(** [sum(1 for word in words if word in text_lower)]. *)
Definition count_present (words : list string) (text_lower : string) : nat :=
  List.length (filter (fun word => contains word text_lower) words).

(** [np.clip(x, lo, hi)]. *)
Definition clip (x lo hi : Q) : Q := Qmin (Qmax x lo) hi.

(** [NewsDataIngestion._analyze_sentiment]. *)
Definition _analyze_sentiment (text : string) : Q :=
  if String.eqb text "" then 0
  else
    let text_lower := lower text in
    let positive_count := count_present positive_words text_lower in
    let negative_count := count_present negative_words text_lower in
    if Nat.eqb positive_count 0 && Nat.eqb negative_count 0 then 0
    else
      let score :=
        inject_Z (Z.of_nat positive_count - Z.of_nat negative_count)
        / inject_Z (Z.of_nat positive_count + Z.of_nat negative_count + 1) in
      clip score (-1) 1.

(** The number of places of [text] at which [word] starts. *)
Fixpoint occurrences (word text : string) : nat :=
  (if String.prefix word text then 1 else 0)
  + match text with
    | EmptyString => 0
    | String _ rest => occurrences word rest
    end.

Definition count_occurrences (words : list string) (text_lower : string) : nat :=
  fold_right (fun word total => occurrences word text_lower + total)%nat 0%nat words.

(** The scorer as the specification words it, for comparison with
    [_analyze_sentiment]: the counts are numbers of occurrences, so that a
    word repeated k times contributes k. *)
Definition occurrence_sentiment (text : string) : Q :=
  if String.eqb text "" then 0
  else
    let text_lower := lower text in
    let pos := count_occurrences positive_words text_lower in
    let neg := count_occurrences negative_words text_lower in
    if Nat.eqb pos 0 && Nat.eqb neg 0 then 0
    else
      clip (inject_Z (Z.of_nat pos - Z.of_nat neg)
            / inject_Z (Z.of_nat pos + Z.of_nat neg + 1)) (-1) 1.

(** [word] has no blank in it. *)
Fixpoint spaceless (word : string) : bool :=
  match word with
  | EmptyString => true
  | String c rest => negb (Ascii.eqb c " ") && spaceless rest
  end.

End NewsDataIngestion.

(** ** chart_patterns.py *)

Module ChartPatterns.

Import Backtesting.

(** A price frame: its rows, and whether it has a [volume] column. *)
Record DataFrame : Type := mkFrame {
  has_volume : bool;
  rows : list Bar
}.

(** [series.tail(n)] and [series.head(n)]. *)
Definition tail {A : Type} (n : nat) (l : list A) : list A :=
  skipn (List.length l - n) l.

Definition head {A : Type} (n : nat) (l : list A) : list A := firstn n l.

(** [series.mean()] of a series that is not empty. *)
Definition mean (l : list Q) : Q := Py.sum l / Py.len l.

(** [series.iloc[-1]]. *)
Definition last_row (data : DataFrame) : Py.result Bar :=
  match rev (rows data) with
  | bar :: _ => Py.Ok bar
  | [] => Py.Raise Py.IndexError
  end.

(** [ChartPatternDetector.validate_breakout] on exact rationals, as the
    detectors below call it; [ChartPatternDetector64.validate_breakout] is
    the function on binary64 numbers. *)
Definition validate_breakout (data : DataFrame) (breakout_price : Q)
    (breakout_direction : string) (volume_threshold : Q) : Py.result bool :=
  if negb (has_volume data) then Py.Ok true
  else
    let recent_volume := mean (map volume (tail 20 (rows data))) in
    current <- last_row data ;;
    let current_volume := volume current in
    let volume_confirmation :=
      Py.leb (recent_volume * volume_threshold) current_volume in
    let current_price := close current in
    let price_confirmation :=
      if String.eqb breakout_direction "down"
      then Py.ltb current_price (breakout_price * (995 # 1000))
      else Py.ltb (breakout_price * (1005 # 1000)) current_price in
    Py.Ok (volume_confirmation && price_confirmation).

(** The default of [volume_threshold]. *)
Definition default_volume_threshold : Q := 15 # 10.

(** The pattern dictionary a detector returns; a key that is absent is
    [None]. *)
Module Pattern.
Record t : Type := mk {
  pattern : string;
  type : string;
  neckline : option Q;
  head : option Q;
  resistance : option Q;
  support : option Q;
  target : option Q;
  breakout : option bool;
  confidence : option Q;
  is_fake : option bool;
  reason : option string;
  strength : option Q
}.
End Pattern.

(** [series.iloc[i]] for a position inside the series. *)
Definition iloc (series : list Q) (i : nat) : Q := nth i series 0.

(** [series.iloc[start:stop]]. *)
Definition slice {A : Type} (start stop : nat) (l : list A) : list A :=
  firstn (stop - start) (skipn start l).

(** [series.min()] and [series.max()] of a series that is not empty. *)
Definition series_min (l : list Q) : Q :=
  match l with
  | [] => 0
  | x :: rest => fold_left Qmin rest x
  end.

Definition series_max (l : list Q) : Q :=
  match l with
  | [] => 0
  | x :: rest => fold_left Qmax rest x
  end.

(** [ChartPatternDetector.find_peaks]. *)
Definition find_peaks (data : list Q) (window : nat) : list nat :=
  filter
    (fun i =>
       forallb (fun j => Py.leb (iloc data (i - j)) (iloc data i)) (seq 1 window)
       && forallb (fun j => Py.leb (iloc data (i + j)) (iloc data i)) (seq 1 window))
    (seq window (List.length data - window - window)).

(** [ChartPatternDetector.find_troughs]. *)
Definition find_troughs (data : list Q) (window : nat) : list nat :=
  filter
    (fun i =>
       forallb (fun j => Py.leb (iloc data i) (iloc data (i - j))) (seq 1 window)
       && forallb (fun j => Py.leb (iloc data i) (iloc data (i + j))) (seq 1 window))
    (seq window (List.length data - window - window)).

(** The truth value of an optional number: [None] and 0 are false. *)
Definition truthy (v : option Q) : bool :=
  match v with
  | Some x => negb (Py.eqb x 0)
  | None => false
  end.

(** [a or b] on optional numbers. *)
Definition py_or (a b : option Q) : option Q := if truthy a then a else b.

(** [ChartPatternDetector.calculate_pattern_strength].  The last row is
    read where the code reads it: for its volume when the frame has a volume
    column, for its close when the pattern carries a breakout. *)
Definition calculate_pattern_strength (pattern_data : Pattern.t)
    (data : DataFrame) : Py.result Q :=
  let strength := 5 # 10 in
  strength <-
    (if has_volume data then
       let recent_volume := mean (map volume (tail 20 (rows data))) in
       current <- last_row data ;;
       let current_volume := volume current in
       Py.Ok (if Py.leb (recent_volume * (15 # 10)) current_volume
              then strength + (2 # 10) else strength)
     else Py.Ok strength) ;;
  strength <-
    (if or_default (Pattern.breakout pattern_data) false then
       current <- last_row data ;;
       let current_price := close current in
       let breakout_price :=
         py_or (py_or (Pattern.neckline pattern_data) (Pattern.support pattern_data))
               (Pattern.resistance pattern_data) in
       Py.Ok match breakout_price with
             | Some breakout_price =>
                 if Py.eqb breakout_price 0 then strength
                 else
                   let breakout_strength :=
                     if String.eqb (Pattern.type pattern_data) "Bullish"
                     then (current_price - breakout_price) / breakout_price
                     else (breakout_price - current_price) / breakout_price in
                   if Py.ltb (1 # 100) breakout_strength
                   then strength + (2 # 10) else strength
             | None => strength
             end
     else Py.Ok strength) ;;
  let strength :=
    if Py.ltb (7 # 10) (or_default (Pattern.confidence pattern_data) 0)
    then strength + (1 # 10) else strength in
  Py.Ok (Py.min2 strength 1).

(** [ChartPatternDetector.detect_head_and_shoulders]. *)
Definition detect_head_and_shoulders (data : DataFrame) (lookback : nat)
    : Py.result (option Pattern.t) :=
  if Nat.ltb (List.length (rows data)) lookback then Py.Ok None
  else
    let recent_data := mkFrame (has_volume data) (tail lookback (rows data)) in
    let high := map Backtesting.high (rows recent_data) in
    let peaks := find_peaks high 3 in
    match tail 3 peaks with
    | [left_shoulder_idx; head_idx; right_shoulder_idx] =>
        let left_shoulder_price := iloc high left_shoulder_idx in
        let head_price := iloc high head_idx in
        let right_shoulder_price := iloc high right_shoulder_idx in
        if Py.ltb left_shoulder_price head_price
           && Py.ltb right_shoulder_price head_price
           && Py.ltb (Qabs (left_shoulder_price - right_shoulder_price)
                      / left_shoulder_price) (5 # 100)
        then
          let neckline_price :=
            series_min (slice left_shoulder_idx right_shoulder_idx
                          (map low (rows recent_data))) in
          current <- last_row recent_data ;;
          let current_price := close current in
          if Py.ltb current_price neckline_price then
            is_valid_breakout <-
              validate_breakout
                (mkFrame (has_volume data) (tail 5 (rows recent_data)))
                neckline_price "down" default_volume_threshold ;;
            if negb is_valid_breakout then
              Py.Ok (Some
                {| Pattern.pattern := "Head and Shoulders";
                   Pattern.type := "Bearish";
                   Pattern.neckline := Some neckline_price;
                   Pattern.head := Some head_price;
                   Pattern.resistance := None;
                   Pattern.support := None;
                   Pattern.target :=
                     Some (neckline_price - (head_price - neckline_price));
                   Pattern.breakout := Some false;
                   Pattern.confidence := Some (3 # 10);
                   Pattern.is_fake := Some true;
                   Pattern.reason :=
                     Some "Volume confirmation missing or weak breakout"%string;
                   Pattern.strength := None |})
            else
              let pattern_height := head_price - neckline_price in
              let target_price := neckline_price - pattern_height in
              let pattern_data :=
                {| Pattern.pattern := "Head and Shoulders";
                   Pattern.type := "Bearish";
                   Pattern.neckline := Some neckline_price;
                   Pattern.head := Some head_price;
                   Pattern.resistance := None;
                   Pattern.support := None;
                   Pattern.target := Some target_price;
                   Pattern.breakout := Some true;
                   Pattern.confidence := Some (7 # 10);
                   Pattern.is_fake := Some false;
                   Pattern.reason := None;
                   Pattern.strength := None |} in
              strength <- calculate_pattern_strength pattern_data recent_data ;;
              Py.Ok (Some
                {| Pattern.pattern := Pattern.pattern pattern_data;
                   Pattern.type := Pattern.type pattern_data;
                   Pattern.neckline := Pattern.neckline pattern_data;
                   Pattern.head := Pattern.head pattern_data;
                   Pattern.resistance := None;
                   Pattern.support := None;
                   Pattern.target := Pattern.target pattern_data;
                   Pattern.breakout := Pattern.breakout pattern_data;
                   Pattern.confidence := Pattern.confidence pattern_data;
                   Pattern.is_fake := Pattern.is_fake pattern_data;
                   Pattern.reason := None;
                   Pattern.strength := Some strength |})
          else Py.Ok None
        else Py.Ok None
    | _ => Py.Ok None
    end.

(** [ChartPatternDetector.detect_inverse_head_and_shoulders]. *)
Definition detect_inverse_head_and_shoulders (data : DataFrame) (lookback : nat)
    : Py.result (option Pattern.t) :=
  if Nat.ltb (List.length (rows data)) lookback then Py.Ok None
  else
    let recent_data := mkFrame (has_volume data) (tail lookback (rows data)) in
    let low := map Backtesting.low (rows recent_data) in
    let troughs := find_troughs low 3 in
    match tail 3 troughs with
    | [left_shoulder_idx; head_idx; right_shoulder_idx] =>
        let left_shoulder_price := iloc low left_shoulder_idx in
        let head_price := iloc low head_idx in
        let right_shoulder_price := iloc low right_shoulder_idx in
        if Py.ltb head_price left_shoulder_price
           && Py.ltb head_price right_shoulder_price
           && Py.ltb (Qabs (left_shoulder_price - right_shoulder_price)
                      / left_shoulder_price) (5 # 100)
        then
          let neckline_price :=
            series_max (slice left_shoulder_idx right_shoulder_idx
                          (map high (rows recent_data))) in
          current <- last_row recent_data ;;
          let current_price := close current in
          if Py.ltb neckline_price current_price then
            is_valid_breakout <-
              validate_breakout
                (mkFrame (has_volume data) (tail 5 (rows recent_data)))
                neckline_price "up" default_volume_threshold ;;
            if negb is_valid_breakout then
              Py.Ok (Some
                {| Pattern.pattern := "Inverse Head and Shoulders";
                   Pattern.type := "Bullish";
                   Pattern.neckline := Some neckline_price;
                   Pattern.head := Some head_price;
                   Pattern.resistance := None;
                   Pattern.support := None;
                   Pattern.target :=
                     Some (neckline_price + (neckline_price - head_price));
                   Pattern.breakout := Some false;
                   Pattern.confidence := Some (3 # 10);
                   Pattern.is_fake := Some true;
                   Pattern.reason :=
                     Some "Volume confirmation missing or weak breakout"%string;
                   Pattern.strength := None |})
            else
              let pattern_height := neckline_price - head_price in
              let target_price := neckline_price + pattern_height in
              let pattern_data :=
                {| Pattern.pattern := "Inverse Head and Shoulders";
                   Pattern.type := "Bullish";
                   Pattern.neckline := Some neckline_price;
                   Pattern.head := Some head_price;
                   Pattern.resistance := None;
                   Pattern.support := None;
                   Pattern.target := Some target_price;
                   Pattern.breakout := Some true;
                   Pattern.confidence := Some (7 # 10);
                   Pattern.is_fake := Some false;
                   Pattern.reason := None;
                   Pattern.strength := None |} in
              strength <- calculate_pattern_strength pattern_data recent_data ;;
              Py.Ok (Some
                {| Pattern.pattern := Pattern.pattern pattern_data;
                   Pattern.type := Pattern.type pattern_data;
                   Pattern.neckline := Pattern.neckline pattern_data;
                   Pattern.head := Pattern.head pattern_data;
                   Pattern.resistance := None;
                   Pattern.support := None;
                   Pattern.target := Pattern.target pattern_data;
                   Pattern.breakout := Pattern.breakout pattern_data;
                   Pattern.confidence := Pattern.confidence pattern_data;
                   Pattern.is_fake := Pattern.is_fake pattern_data;
                   Pattern.reason := None;
                   Pattern.strength := Some strength |})
          else Py.Ok None
        else Py.Ok None
    | _ => Py.Ok None
    end.

(** A pattern dictionary with the keys the unvalidated detectors set. *)
Definition plain_pattern (pattern type : string) (resistance support : option Q)
    (target confidence : Q) : Pattern.t :=
  {| Pattern.pattern := pattern;
     Pattern.type := type;
     Pattern.neckline := None;
     Pattern.head := None;
     Pattern.resistance := resistance;
     Pattern.support := support;
     Pattern.target := Some target;
     Pattern.breakout := Some true;
     Pattern.confidence := Some confidence;
     Pattern.is_fake := None;
     Pattern.reason := None;
     Pattern.strength := None |}.

(** [ChartPatternDetector.detect_double_top]. *)
Definition detect_double_top (data : DataFrame) (lookback : nat)
    : Py.result (option Pattern.t) :=
  if Nat.ltb (List.length (rows data)) lookback then Py.Ok None
  else
    let recent_data := mkFrame (has_volume data) (tail lookback (rows data)) in
    let high := map Backtesting.high (rows recent_data) in
    let peaks := find_peaks high 3 in
    match tail 2 peaks with
    | [first_peak; second_peak] =>
        let peak1_price := iloc high first_peak in
        let peak2_price := iloc high second_peak in
        if Py.ltb (Qabs (peak1_price - peak2_price) / peak1_price) (2 # 100) then
          let valley_price :=
            series_min (slice first_peak second_peak (map low (rows recent_data))) in
          current <- last_row recent_data ;;
          let current_price := close current in
          if Py.ltb current_price valley_price then
            let pattern_height := peak1_price - valley_price in
            let target_price := valley_price - pattern_height in
            Py.Ok (Some (plain_pattern "Double Top" "Bearish" (Some peak1_price)
                           (Some valley_price) target_price (65 # 100)))
          else Py.Ok None
        else Py.Ok None
    | _ => Py.Ok None
    end.

(** [ChartPatternDetector.detect_double_bottom]. *)
Definition detect_double_bottom (data : DataFrame) (lookback : nat)
    : Py.result (option Pattern.t) :=
  if Nat.ltb (List.length (rows data)) lookback then Py.Ok None
  else
    let recent_data := mkFrame (has_volume data) (tail lookback (rows data)) in
    let low := map Backtesting.low (rows recent_data) in
    let troughs := find_troughs low 3 in
    match tail 2 troughs with
    | [first_trough; second_trough] =>
        let trough1_price := iloc low first_trough in
        let trough2_price := iloc low second_trough in
        if Py.ltb (Qabs (trough1_price - trough2_price) / trough1_price) (2 # 100) then
          let peak_price :=
            series_max (slice first_trough second_trough (map high (rows recent_data))) in
          current <- last_row recent_data ;;
          let current_price := close current in
          if Py.ltb peak_price current_price then
            let pattern_height := peak_price - trough1_price in
            let target_price := peak_price + pattern_height in
            Py.Ok (Some (plain_pattern "Double Bottom" "Bullish" (Some peak_price)
                           (Some trough1_price) target_price (65 # 100)))
          else Py.Ok None
        else Py.Ok None
    | _ => Py.Ok None
    end.

Definition of_nat (n : nat) : Q := inject_Z (Z.of_nat n).

(** [recent_data['close'].iloc[0]]. *)
Definition first_close (l : list Bar) : Q :=
  match l with
  | bar :: _ => close bar
  | [] => 0
  end.

(** [ChartPatternDetector.detect_triangle]. *)
Definition detect_triangle (data : DataFrame) (lookback : nat)
    : Py.result (option Pattern.t) :=
  if Nat.ltb (List.length (rows data)) lookback then Py.Ok None
  else
    let recent_data := mkFrame (has_volume data) (tail lookback (rows data)) in
    let highs := map high (rows recent_data) in
    let lows := map low (rows recent_data) in
    let peaks := find_peaks highs 2 in
    let troughs := find_troughs lows 2 in
    match tail 2 peaks, tail 2 troughs with
    | [peak1; peak2], [trough1; trough2] =>
        let peak1_price := iloc highs peak1 in
        let peak2_price := iloc highs peak2 in
        let trough1_price := iloc lows trough1 in
        let trough2_price := iloc lows trough2 in
        let resistance_slope :=
          (peak2_price - peak1_price) / (of_nat peak2 - of_nat peak1) in
        let support_slope :=
          (trough2_price - trough1_price) / (of_nat trough2 - of_nat trough1) in
        current <- last_row recent_data ;;
        let current_price := close current in
        let rising := peak2_price + (peak2_price - trough2_price) in
        let falling := trough2_price - (peak2_price - trough2_price) in
        if Py.ltb (Qabs resistance_slope) (1 # 1000) && Py.ltb (1 # 1000) support_slope
        then
          if Py.ltb peak2_price current_price then
            Py.Ok (Some (plain_pattern "Ascending Triangle" "Bullish"
                           (Some peak2_price) (Some trough2_price) rising (7 # 10)))
          else Py.Ok None
        else if Py.ltb (Qabs support_slope) (1 # 1000)
                && Py.ltb resistance_slope (- (1 # 1000))
        then
          if Py.ltb current_price trough2_price then
            Py.Ok (Some (plain_pattern "Descending Triangle" "Bearish"
                           (Some peak2_price) (Some trough2_price) falling (7 # 10)))
          else Py.Ok None
        else if (Py.ltb resistance_slope 0 && Py.ltb 0 support_slope)
                || (Py.ltb (Qabs resistance_slope) (1 # 1000)
                    && Py.ltb (Qabs support_slope) (1 # 1000))
        then
          let price_trend :=
            (current_price - first_close (rows recent_data))
            / first_close (rows recent_data) in
          if Py.ltb 0 price_trend then
            if Py.ltb peak2_price current_price then
              Py.Ok (Some (plain_pattern "Symmetrical Triangle" "Bullish"
                             (Some peak2_price) (Some trough2_price) rising (6 # 10)))
            else Py.Ok None
          else
            if Py.ltb current_price trough2_price then
              Py.Ok (Some (plain_pattern "Symmetrical Triangle" "Bearish"
                             (Some peak2_price) (Some trough2_price) falling (6 # 10)))
            else Py.Ok None
        else Py.Ok None
    | _, _ => Py.Ok None
    end.

(** [ChartPatternDetector.detect_flag]. *)
Definition detect_flag (data : DataFrame) (lookback : nat)
    : Py.result (option Pattern.t) :=
  if Nat.ltb (List.length (rows data)) lookback then Py.Ok None
  else
    let recent_data := mkFrame (has_volume data) (tail lookback (rows data)) in
    let flagpole_length := Nat.div lookback 3 in
    let flag_length := (lookback - flagpole_length)%nat in
    let flagpole := head flagpole_length (rows recent_data) in
    let flag := tail flag_length (rows recent_data) in
    let flagpole_start := first_close flagpole in
    flagpole_last <- last_row (mkFrame (has_volume data) flagpole) ;;
    let flagpole_end := close flagpole_last in
    let flagpole_change := (flagpole_end - flagpole_start) / flagpole_start in
    let flag_high := series_max (map high flag) in
    let flag_low := series_min (map low flag) in
    let flag_range := (flag_high - flag_low) / flag_low in
    current <- last_row recent_data ;;
    let current_price := close current in
    if Py.ltb (5 # 100) flagpole_change then
      if Py.ltb flag_range (3 # 100) then
        if Py.ltb flag_high current_price then
          let target := current_price + Qabs (flagpole_change * flagpole_start) in
          Py.Ok (Some (plain_pattern "Bull Flag" "Bullish" (Some flag_high) None
                         target (7 # 10)))
        else Py.Ok None
      else Py.Ok None
    else if Py.ltb flagpole_change (- (5 # 100)) then
      if Py.ltb flag_range (3 # 100) then
        if Py.ltb current_price flag_low then
          let target := current_price - Qabs (flagpole_change * flagpole_start) in
          Py.Ok (Some (plain_pattern "Bear Flag" "Bearish" None (Some flag_low)
                         target (7 # 10)))
        else Py.Ok None
      else Py.Ok None
    else Py.Ok None.

(** [ChartPatternDetector.detect_wedge]. *)
Definition detect_wedge (data : DataFrame) (lookback : nat)
    : Py.result (option Pattern.t) :=
  if Nat.ltb (List.length (rows data)) lookback then Py.Ok None
  else
    let recent_data := mkFrame (has_volume data) (tail lookback (rows data)) in
    let highs := map high (rows recent_data) in
    let lows := map low (rows recent_data) in
    let peaks := find_peaks highs 2 in
    let troughs := find_troughs lows 2 in
    match tail 2 peaks, tail 2 troughs with
    | [peak1; peak2], [trough1; trough2] =>
        let peak1_price := iloc highs peak1 in
        let peak2_price := iloc highs peak2 in
        let trough1_price := iloc lows trough1 in
        let trough2_price := iloc lows trough2 in
        let resistance_slope :=
          (peak2_price - peak1_price) / (of_nat peak2 - of_nat peak1) in
        let support_slope :=
          (trough2_price - trough1_price) / (of_nat trough2 - of_nat trough1) in
        current <- last_row recent_data ;;
        let current_price := close current in
        if Py.ltb 0 resistance_slope && Py.ltb 0 support_slope
           && Py.ltb resistance_slope support_slope
        then
          if Py.ltb current_price trough2_price then
            let target := trough2_price - (peak2_price - trough2_price) in
            Py.Ok (Some (plain_pattern "Rising Wedge" "Bearish"
                           (Some peak2_price) (Some trough2_price) target (65 # 100)))
          else Py.Ok None
        else if Py.ltb resistance_slope 0 && Py.ltb support_slope 0
                && Py.ltb (Qabs resistance_slope) (Qabs support_slope)
        then
          if Py.ltb peak2_price current_price then
            let target := peak2_price + (peak2_price - trough2_price) in
            Py.Ok (Some (plain_pattern "Falling Wedge" "Bullish"
                           (Some peak2_price) (Some trough2_price) target (65 # 100)))
          else Py.Ok None
        else Py.Ok None
    | _, _ => Py.Ok None
    end.

(** The seven detectors, in the order [detect_all_patterns] calls them. *)
Definition detectors : list (DataFrame -> nat -> Py.result (option Pattern.t)) :=
  [ detect_head_and_shoulders; detect_inverse_head_and_shoulders;
    detect_double_top; detect_double_bottom;
    detect_triangle; detect_flag; detect_wedge ].

(** The patterns found with one lookback. *)
Fixpoint run_detectors
    (todo : list (DataFrame -> nat -> Py.result (option Pattern.t)))
    (data : DataFrame) (lookback : nat) : Py.result (list Pattern.t) :=
  match todo with
  | [] => Py.Ok []
  | detect :: others =>
      found <- detect data lookback ;;
      more <- run_detectors others data lookback ;;
      Py.Ok match found with
            | Some pattern => pattern :: more
            | None => more
            end
  end.

(** The loop of [detect_all_patterns] over the lookbacks. *)
Fixpoint detect_with_lookbacks (data : DataFrame) (lookbacks : list nat)
    : Py.result (list Pattern.t) :=
  match lookbacks with
  | [] => Py.Ok []
  | lookback :: others =>
      found <-
        (if Nat.ltb (List.length (rows data)) lookback then Py.Ok []
         else run_detectors detectors data lookback) ;;
      more <- detect_with_lookbacks data others ;;
      Py.Ok (found ++ more)
  end.

(** [ChartPatternDetector.detect_all_patterns]. *)
Definition detect_all_patterns (data : DataFrame) : Py.result (list Pattern.t) :=
  detect_with_lookbacks data [30; 50; 100]%nat.

(** [ChartPatternDetector.__init__]. *)
Definition ChartPatternDetector_init : Py.value :=
  Py.Object [ ("patterns_detected", Py.ListOf []);
              ("min_pattern_strength", Py.Num (5 # 10));
              ("volume_confirmation_required", Py.Boolean true) ]%string.

(** [Strategy.__init__]. *)
Definition Strategy_init (name : string) : list (string * Py.value) :=
  [ ("name", Py.Str name); ("positions", Py.ListOf []); ("signals", Py.ListOf []) ]%string.

(** [ChartPatternStrategy.__init__]; [pattern_types] is [None] when left
    out. *)
Definition ChartPatternStrategy_init (pattern_types : option (list string))
    : Py.value :=
  Py.Object
    (Strategy_init "Chart Patterns"
     ++ [ ("detector", ChartPatternDetector_init);
          ("pattern_types",
           Py.ListOf (map Py.Str (or_default pattern_types ["all"%string]))) ]%string).

(** The number read from an attribute of [obj]. *)
Definition number_attribute (obj : Py.value) (name : string) : Py.result Q :=
  v <- Py.getattr obj name ;;
  match v with
  | Py.Num x => Py.Ok x
  | _ => Py.Raise Py.TypeError
  end.

(** The signal dictionary [generate_signal] returns. *)
Module ChartSignal.
Record t : Type := mk {
  action : string;
  confidence : Q;
  price : Q;
  stop_loss : option Q;
  take_profit : option Q;
  pattern : option string;
  signal_type : option string;
  entry_reason : option string;
  is_fake : bool;
  fake_reason : option string;
  pattern_strength : option Q
}.
End ChartSignal.

Definition hold (price : Q) (is_fake : bool) (fake_reason : option string)
    : ChartSignal.t :=
  ChartSignal.mk "HOLD" 0 price None None None None None is_fake fake_reason None.

(** The filtering loop of [generate_signal]; [threshold] is the evaluation
    of the minimum strength, which takes place for each pattern that is a
    confirmed breakout and not fake. *)
Fixpoint valid_patterns (threshold : Py.result Q) (patterns : list Pattern.t)
    : Py.result (list Pattern.t) :=
  match patterns with
  | [] => Py.Ok []
  | pattern :: others =>
      if negb (or_default (Pattern.breakout pattern) false) then
        valid_patterns threshold others
      else if or_default (Pattern.is_fake pattern) false then
        valid_patterns threshold others
      else
        let pattern_strength := or_default (Pattern.strength pattern) (5 # 10) in
        minimum <- threshold ;;
        if Py.ltb pattern_strength minimum then valid_patterns threshold others
        else
          kept <- valid_patterns threshold others ;;
          Py.Ok (pattern :: kept)
  end.

(** The sort key of [generate_signal]. *)
Definition rank (pattern : Pattern.t) : Q :=
  (or_default (Pattern.strength pattern) 0
   + or_default (Pattern.confidence pattern) 0) / 2.

(** [list.sort(key=rank, reverse=True)]: descending, and stable. *)
Fixpoint insert_descending (x : Pattern.t) (sorted : list Pattern.t)
    : list Pattern.t :=
  match sorted with
  | [] => [x]
  | y :: rest =>
      if Py.ltb (rank x) (rank y) then y :: insert_descending x rest
      else x :: y :: rest
  end.

Definition sort_descending (patterns : list Pattern.t) : list Pattern.t :=
  fold_right insert_descending [] patterns.

(** The signal built from the best pattern. *)
Definition signal_of (best_pattern : Pattern.t) (current_price : Q)
    : ChartSignal.t :=
  let confidence :=
    or_default (Pattern.strength best_pattern)
      (or_default (Pattern.confidence best_pattern) (6 # 10)) in
  let entry_reason :=
    (Pattern.pattern best_pattern ++ " breakout confirmed (Real Signal)")%string in
  if String.eqb (Pattern.type best_pattern) "Bullish" then
    {| ChartSignal.action := "BUY";
       ChartSignal.confidence := confidence;
       ChartSignal.price := current_price;
       ChartSignal.stop_loss :=
         Some (or_default (Pattern.support best_pattern) (current_price * (98 # 100)));
       ChartSignal.take_profit :=
         Some (or_default (Pattern.target best_pattern) (current_price * (103 # 100)));
       ChartSignal.pattern := Some (Pattern.pattern best_pattern);
       ChartSignal.signal_type := Some "Bullish Pattern"%string;
       ChartSignal.entry_reason := Some entry_reason;
       ChartSignal.is_fake := false;
       ChartSignal.fake_reason := None;
       ChartSignal.pattern_strength :=
         Some (or_default (Pattern.strength best_pattern) (7 # 10)) |}
  else
    {| ChartSignal.action := "SELL";
       ChartSignal.confidence := confidence;
       ChartSignal.price := current_price;
       ChartSignal.stop_loss :=
         Some (or_default (Pattern.resistance best_pattern) (current_price * (102 # 100)));
       ChartSignal.take_profit :=
         Some (or_default (Pattern.target best_pattern) (current_price * (97 # 100)));
       ChartSignal.pattern := Some (Pattern.pattern best_pattern);
       ChartSignal.signal_type := Some "Bearish Pattern"%string;
       ChartSignal.entry_reason := Some entry_reason;
       ChartSignal.is_fake := false;
       ChartSignal.fake_reason := None;
       ChartSignal.pattern_strength :=
         Some (or_default (Pattern.strength best_pattern) (7 # 10)) |}.

(** The body of [generate_signal], given the evaluation [threshold] of its
    minimum strength. *)
Definition generate_signal_with (threshold : Py.result Q) (data : DataFrame)
    : Py.result ChartSignal.t :=
  if Nat.ltb (List.length (rows data)) 50 then Py.Ok (hold 0 false None)
  else
    patterns <- detect_all_patterns data ;;
    current <- last_row data ;;
    let current_price := close current in
    match patterns with
    | [] => Py.Ok (hold current_price false None)
    | _ :: _ =>
        valid <- valid_patterns threshold patterns ;;
        match sort_descending valid with
        | [] =>
            match filter (fun p => or_default (Pattern.is_fake p) false) patterns with
            | fake :: _ =>
                Py.Ok (hold current_price true
                         (Some (or_default (Pattern.reason fake)
                                  "Pattern detected but not confirmed"%string)))
            | [] => Py.Ok (hold current_price false None)
            end
        | best_pattern :: _ => Py.Ok (signal_of best_pattern current_price)
        end
    end.

(** [ChartPatternStrategy.generate_signal]: the minimum strength is read as
    [self.min_pattern_strength]. *)
Definition generate_signal (self : Py.value) (data : DataFrame)
    : Py.result ChartSignal.t :=
  generate_signal_with (number_attribute self "min_pattern_strength") data.

(** A frame of 50 bars with a volume column: 49 flat bars at 100, then a
    bar that opens at 100 and closes at its low of 90. *)
Definition flat_then_drop : DataFrame :=
  mkFrame true
    (map (fun i => flat_bar i 100) (seq 0 49)
     ++ [mkBar 49 100 100 90 90 1000 None]).

(** A pattern that passes the first two tests of the filtering loop: a
    confirmed breakout that is not flagged as fake. *)
Definition confirmed (pattern : Pattern.t) : bool :=
  or_default (Pattern.breakout pattern) false
  && negb (or_default (Pattern.is_fake pattern) false).

End ChartPatterns.

(** ** The worked P&L example on binary64 numbers *)

Module Binary64.

Import Floats.

(** The P&L lines of [run_backtest] on the interpreter's own numbers, IEEE
    binary64 with round-to-nearest-even, to check that the worked example of
    the specification is exact for them as well. *)
Definition net_pnl (commission : float) (side : string)
    (entry_price exit_price quantity : float) : float :=
  let pnl :=
    if String.eqb side "BUY" then ((exit_price - entry_price) * quantity)%float
    else ((entry_price - exit_price) * quantity)%float in
  let commission_cost := ((entry_price + exit_price) * quantity * commission)%float in
  (pnl - commission_cost)%float.

(** The literals 0.001, 2.1 and 97.9 as the interpreter reads them: the
    binary64 numbers nearest to 1/1000, 21/10 and 979/10. *)
Definition literal_0_001 : float := (1 / 1000)%float.
Definition literal_2_1 : float := (21 / 10)%float.
Definition literal_97_9 : float := (979 / 10)%float.

(** The commission and the net P&L of the worked example. *)
Definition example_commission_cost : float :=
  ((100 + 110) * 10 * literal_0_001)%float.

Definition example_net_pnl : float :=
  net_pnl literal_0_001 "BUY" 100%float 110%float 10%float.

End Binary64.

(** ** risk_manager.py: daily limits, stop levels and the position book *)

Module RiskControls.

(** [str.upper] on ASCII text. *)
Definition upper_char (c : ascii) : ascii :=
  let n := nat_of_ascii c in
  if Nat.leb 97 n && Nat.leb n 122 then ascii_of_nat (n - 32) else c.

Fixpoint upper (text : string) : string :=
  match text with
  | EmptyString => EmptyString
  | String c rest => String (upper_char c) (upper rest)
  end.

(** The position dictionary the trading engine hands over; a key that is
    absent is [None]. *)
Record Position : Type := mkPosition {
  id : option string;
  symbol : option string;
  side : option string;
  quantity : option Q;
  entry_price : option Q;
  entry_time : option Z;
  stop_loss : option Q;
  take_profit : option Q
}.

(** A [RiskManager] object: the numeric attributes of [RiskManager.t], the
    date of [daily_reset_time] and the position book. *)
Record t : Type := mk {
  limits : RiskManager.t;
  daily_reset_date : Z;
  positions : list Position
}.

(** [RiskManager.__init__] on the day [today], with the limits of
    [Config]. *)
Definition init (max_daily_loss max_position_size stop_loss_percent
                 take_profit_percent : Q) (today : Z) : t :=
  mk (RiskManager.mk max_daily_loss max_position_size stop_loss_percent
        take_profit_percent 0) today [].

Definition with_daily_pnl (v : Q) (limits : RiskManager.t) : RiskManager.t :=
  RiskManager.mk (RiskManager.max_daily_loss limits)
    (RiskManager.max_position_size limits) (RiskManager.stop_loss_percent limits)
    (RiskManager.take_profit_percent limits) v.

(** [RiskManager.reset_daily_stats], the clock showing the date [today]. *)
Definition reset_daily_stats (self : t) (today : Z) : t :=
  if Z.ltb (daily_reset_date self) today
  then mk (with_daily_pnl 0 (limits self)) today (positions self)
  else self.

(** [RiskManager.calculate_position_size_legacy]. *)
Definition calculate_position_size_legacy (self : t) (today : Z)
    (account_balance risk_percent : Q) : Q * t :=
  let self := reset_daily_stats self today in
  let max_size := account_balance * (risk_percent / 100) in
  let position_size := Py.min2 max_size (RiskManager.max_position_size (limits self)) in
  (Py.round position_size 8, self).

(** [RiskManager.calculate_stop_loss]. *)
Definition calculate_stop_loss (self : t) (entry_price : Q) (side : string) : Q :=
  let percent := RiskManager.stop_loss_percent (limits self) in
  let stop_loss :=
    if String.eqb (upper side) "BUY" then entry_price * (1 - percent / 100)
    else entry_price * (1 + percent / 100) in
  Py.round stop_loss 8.

(** [RiskManager.calculate_take_profit]. *)
Definition calculate_take_profit (self : t) (entry_price : Q) (side : string) : Q :=
  let percent := RiskManager.take_profit_percent (limits self) in
  let take_profit :=
    if String.eqb (upper side) "BUY" then entry_price * (1 + percent / 100)
    else entry_price * (1 - percent / 100) in
  Py.round take_profit 8.

(** [position.get('side', 'BUY').upper()]. *)
Definition side_of (position : Position) : string :=
  upper (match side position with Some s => s | None => "BUY"%string end).

(** [RiskManager.check_stop_loss]. *)
Definition check_stop_loss (position : Position) (current_price : Q) : bool :=
  match stop_loss position with
  | None => false
  | Some stop_loss =>
      if String.eqb (side_of position) "BUY" then Py.leb current_price stop_loss
      else Py.leb stop_loss current_price
  end.

(** [RiskManager.check_take_profit]. *)
Definition check_take_profit (position : Position) (current_price : Q) : bool :=
  match take_profit position with
  | None => false
  | Some take_profit =>
      if String.eqb (side_of position) "BUY" then Py.leb take_profit current_price
      else Py.leb current_price take_profit
  end.

(** [RiskManager.add_position]; [None] stands for the [KeyError] of a
    position without [entry_price] or [side], which leaves the book
    untouched. *)
Definition add_position (self : t) (now : Z) (position : Position) : option t :=
  match entry_price position, side position with
  | Some entry, Some position_side =>
      let position :=
        {| id := id position;
           symbol := symbol position;
           side := side position;
           quantity := quantity position;
           entry_price := entry_price position;
           entry_time := Some now;
           stop_loss := Some (calculate_stop_loss self entry position_side);
           take_profit := Some (calculate_take_profit self entry position_side) |} in
      Some (mk (limits self) (daily_reset_date self) (positions self ++ [position]))
  | _, _ => None
  end.

(** [p.get('id') != position_id]. *)
Definition other_id (position_id : string) (position : Position) : bool :=
  match id position with
  | Some i => negb (String.eqb i position_id)
  | None => true
  end.

(** [RiskManager.remove_position]. *)
Definition remove_position (self : t) (position_id : string) : t :=
  mk (limits self) (daily_reset_date self)
     (filter (other_id position_id) (positions self)).

(** [RiskManager.get_open_positions]. *)
Definition get_open_positions (self : t) : list Position := positions self.

End RiskControls.

(** ** trade_setup.py: the life of a trade *)

Module TradeLifecycle.

Import TradeSetup.

(** The status changes a call can make: PENDING to ACTIVE, ACTIVE to one of
    the three final statuses, PENDING straight to CLOSED, or none. *)
Definition transition (before after : TradeStatus) : Prop :=
  before = after
  \/ (before = PENDING /\ (after = ACTIVE \/ after = CLOSED))
  \/ (before = ACTIVE /\ (after = SL_HIT \/ after = TARGET_HIT \/ after = CLOSED)).

(** The part of a trade that is fixed when it is created. *)
Definition same_plan (before after : Trade) : Prop :=
  id after = id before
  /\ symbol after = symbol before
  /\ position_type after = position_type before
  /\ sl_price after = sl_price before
  /\ target_price after = target_price before
  /\ quantity after = quantity before
  /\ risk_percent after = risk_percent before
  /\ strategy after = strategy before
  /\ created_at after = created_at before.

(** How a call may change a trade of the ledger. *)
Definition evolves (before after : Trade) : Prop :=
  same_plan before after
  /\ transition (status before) (status after)
  /\ (is_closed before = true -> after = before).

(** The k-th trade of the ledger carries the sequence number k. *)
Definition numbered (ledger : list Trade) : Prop :=
  map (fun trade => id_seq (id trade)) ledger = seq 0 (List.length ledger).

(** The price of a trade lies on the grid of 8 decimals. *)
Definition on_grid (x : Q) : Prop := Py.round x 8 == x.

(** [price] lies between the stop and the target of [trade], on the side
    of the trade. *)
Definition between (trade : Trade) (price : Q) : Prop :=
  match position_type trade with
  | LONG => sl_price trade <= price /\ price <= target_price trade
  | SHORT => target_price trade <= price /\ price <= sl_price trade
  end.

(** The call, made on the ledger [self], stores no entry price outside the
    stop and the target: when it is an activation that finds a PENDING trade
    and carries an actual entry price, that price rounded to 8 decimals lies
    between the stop and the target of the trade.  Every other call
    qualifies. *)
Definition fill_in_range (self : t) (call : Call) : Prop :=
  match call with
  | call_activate_trade _ trade_id actual_entry_price =>
      forall ref trade price,
        get_trade self trade_id = Some ref ->
        deref self ref = Some trade ->
        status trade = PENDING ->
        truthy actual_entry_price = Some price ->
        between trade (Py.round price 8)
  | _ => True
  end.

(** Each call of the sequence qualifies on the ledger it is made on. *)
Fixpoint fills_in_range (self : t) (calls : list Call) : Prop :=
  match calls with
  | [] => True
  | call :: rest => fill_in_range self call /\ fills_in_range (step self call) rest
  end.

(** A session: a SHORT trade sized by the ledger, then activated. *)
Definition short_session : list Call :=
  [ call_set_account_balance 100000;
    call_create_trade 0 "BTCUSDT" SHORT 100 102 97 None 1 "Manual" [];
    call_activate_trade 1 (mkId 0 0) None ].

(** A session: a LONG trade of one unit at 100, stop 95, target 110,
    activated. *)
Definition long_session : list Call :=
  [ call_create_trade 0 "BTCUSDT" LONG 100 95 110 (Some 1) 1 "Manual" [];
    call_activate_trade 1 (mkId 0 0) None ].

(** What every ledger built by calls satisfies: the trades are numbered,
    and the list of active positions names each trade at most once, names
    only trades that exist and have left PENDING, and names every ACTIVE
    trade. *)
Record consistent (self : t) : Prop := {
  ok_numbered : numbered (trades self);
  ok_nodup : NoDup (active_positions self);
  ok_listed :
    forall ref, In ref (active_positions self) ->
      exists trade, deref self ref = Some trade /\ status trade <> PENDING;
  ok_active :
    forall ref trade, deref self ref = Some trade -> status trade = ACTIVE ->
      In ref (active_positions self)
}.

End TradeLifecycle.

(** ** trade_manager.py *)

Module TradeManager.

Import TradeSetup.

(** [TradeManager.execute_trade], on the ledger of the manager; [order] is
    what [place_limit_order] does: it returns or raises. *)
Definition execute_trade (self : t) (now : Z) (trade_id : TradeId)
    (order : Py.result unit) : Py.result nat * t :=
  match get_trade self trade_id with
  | None => (Py.Raise (Py.ValueError "Trade not found"), self)
  | Some ref =>
      match deref self ref with
      | None => (Py.Raise (Py.ValueError "Trade not found"), self)
      | Some trade =>
          match order with
          | Py.Raise e => (Py.Raise e, self)
          | Py.Ok _ =>
              let actual_entry := entry_price trade in
              activate_trade self now trade_id (Some actual_entry)
          end
      end
  end.

End TradeManager.

(** ** backtesting.py: the books of a run *)

Module BacktestBooks.

Import Backtesting.

Definition end_of_data (trade : Trade.t) : Prop :=
  Trade.exit_reason trade = "end_of_data"%string.

(** What the main loop of [run_backtest] keeps true of its state, for a run
    started with the capital [initial]: at most one position is open; the
    capital is the initial capital plus the P&L of the recorded trades; no
    recorded trade was closed for lack of data; the two trade lists agree;
    and while no position is open the last equity point is the capital. *)
Record balanced (initial : Q) (st : State) : Prop := {
  one_position : (List.length (positions st) <= 1)%nat;
  capital_is_sum : capital st == initial + Py.sum (map Trade.pnl (local_trades st));
  closed_in_loop : Forall (fun trade => ~ end_of_data trade) (local_trades st);
  same_trades : result_trades st = local_trades st;
  flat_equity :
    positions st = [] ->
    exists earlier last, curve st = earlier ++ [last] /\ last == capital st
}.

(** The trade that [run_backtest] records when it closes [position] at
    [price] for [reason]. *)
Definition closes (self : Backtesting.t) (position : Position.t) (price : Q)
    (reason : string) (trade : Trade.t) : Prop :=
  Trade.exit_reason trade = reason
  /\ Trade.side trade = Position.side position
  /\ Trade.entry_price trade = Position.entry_price position
  /\ Trade.exit_price trade = price
  /\ Trade.quantity trade = Position.quantity position
  /\ Trade.pnl trade
     = net_pnl (commission self) (Position.side position)
         (Position.entry_price position) price (Position.quantity position).

(** The commission [run_backtest] charges on a trade, both legs. *)
Definition commission_paid (self : Backtesting.t) (trade : Trade.t) : Q :=
  (Trade.entry_price trade + Trade.exit_price trade) * Trade.quantity trade
  * commission self.

(** The P&L of a trade before the commission is taken off: the expression
    the two closing loops and the equity loop compute. *)
Definition gross (trade : Trade.t) : Q :=
  if String.eqb (Trade.side trade) "BUY"
  then (Trade.exit_price trade - Trade.entry_price trade) * Trade.quantity trade
  else (Trade.entry_price trade - Trade.exit_price trade) * Trade.quantity trade.

(** The capital after the trades [closed], as [capital += pnl] builds it:
    the starting capital with the P&L of each trade added in the order of the
    trades. *)
Definition compounded (initial : Q) (closed : list Trade.t) : Q :=
  fold_left (fun capital trade => capital + Trade.pnl trade) closed initial.



(** A strategy that buys on the last bar of [sample_frame], without stop
    or target, and keeps every position. *)
Definition buy_late : Strategy :=
  mkStrategy "Buy late" None None None
    (fun data =>
       Py.Ok (if Nat.eqb (List.length data) 52
              then Signal.mk (Some "BUY"%string) (Some 1) None None None
              else Signal.mk (Some "HOLD"%string) (Some 0) None None None))
    (fun _ _ => Py.Ok false).

End BacktestBooks.

(** ** strategy.py and chart_patterns.py: the exit rules of the strategies *)

(** [MovingAverageStrategy.should_exit]; [position] is the dictionary the
    backtester passes, which always has an entry price. *)
Module MovingAverageStrategy.

Definition should_exit (position : Backtesting.Position.t) (current_price : Q) : bool :=
  let entry_price := Backtesting.Position.entry_price position in
  if Py.eqb entry_price 0 then false
  else if String.eqb (Backtesting.Position.side position) "BUY"
  then Py.ltb current_price (entry_price * (98 # 100))
  else Py.ltb (entry_price * (102 # 100)) current_price.

End MovingAverageStrategy.

(** [BollingerBandsStrategy.should_exit]. *)
Module BollingerBandsStrategy.

Definition should_exit (position : Backtesting.Position.t) (current_price : Q) : bool :=
  let entry_price := Backtesting.Position.entry_price position in
  if Py.eqb entry_price 0 then false
  else if String.eqb (Backtesting.Position.side position) "BUY"
  then Py.ltb (entry_price * (102 # 100)) current_price
  else Py.ltb current_price (entry_price * (98 # 100)).

End BollingerBandsStrategy.

(** [ChartPatternStrategy] as the backtester sees it. *)
Module ChartPatternStrategy.

(** [ChartPatternStrategy.should_exit]. *)
Definition should_exit (position : Backtesting.Position.t) (current_price : Q) : bool :=
  let entry_price := Backtesting.Position.entry_price position in
  if Py.eqb entry_price 0 then false
  else if String.eqb (Backtesting.Position.side position) "BUY"
  then Py.ltb current_price (entry_price * (97 # 100))
  else Py.ltb (entry_price * (103 # 100)) current_price.



End ChartPatternStrategy.

(** ** The interpreter's numbers: IEEE binary64 *)

Module Float64.

Import Floats.

(** The rational a finite binary64 number stands for: sign, mantissa and
    exponent. *)
Definition value (negative : bool) (mantissa : positive) (exponent : Z) : Q :=
  let magnitude :=
    match exponent with
    | Z.neg k => Z.pos mantissa # (2 ^ k)
    | _ => inject_Z (Z.pos mantissa * 2 ^ exponent)
    end in
  if negative then - magnitude else magnitude.

(** The binary64 number nearest to a rational, ties to even: the correctly
    rounded quotient of its numerator by its denominator. *)
Definition nearest (q : Q) (negative_zero : bool) : float :=
  match Qnum q with
  | Z0 => SF2Prim (S754_zero negative_zero)
  | Z.pos n =>
      SF2Prim (SFdiv prec emax (S754_finite false n 0) (S754_finite false (Qden q) 0))
  | Z.neg n =>
      SF2Prim (SFdiv prec emax (S754_finite true n 0) (S754_finite false (Qden q) 0))
  end.

(** [round(x, ndigits)] on a float: the exact value of [x] is rounded to
    [ndigits] decimals, ties to even, and the decimal is converted back to the
    nearest float; zeros, infinities and NaN round to themselves. *)
Definition round (x : float) (ndigits : nat) : float :=
  match Prim2SF x with
  | S754_finite negative mantissa exponent =>
      nearest (Py.round (value negative mantissa exponent) ndigits) negative
  | _ => x
  end.

(** [a / b] on Python floats. *)
Definition div (a b : float) : Py.result float :=
  if (b =? 0)%float then Py.Raise Py.ZeroDivisionError else Py.Ok (a / b)%float.

(** Built-in [min(a, b)] and [max(a, b)]: the second argument is taken
    only when it is smaller (larger) than the first. *)
Definition min2 (a b : float) : float := if (b <? a)%float then b else a.
Definition max2 (a b : float) : float := if (a <? b)%float then b else a.

(** [sum] of a list added in order, and the mean computed from it. *)
Definition sum_in_order (l : list float) : float := fold_left PrimFloat.add l 0%float.

Definition mean_in_order (l : list float) : float :=
  (sum_in_order l / PrimFloat.of_uint63 (Uint63.of_Z (Z.of_nat (List.length l))))%float.

End Float64.

(** ** risk_manager.py on binary64 numbers *)

Module RiskManager64.

Import Floats.

(** The numeric attributes of a [RiskManager] and the date of
    [daily_reset_time]. *)
Record t : Type := mk {
  max_daily_loss : float;
  max_position_size : float;
  stop_loss_percent : float;
  take_profit_percent : float;
  daily_pnl : float;
  daily_reset_date : Z
}.

(** [RiskManager.reset_daily_stats], the clock showing the date [today]. *)
Definition reset_daily_stats (self : t) (today : Z) : t :=
  if Z.ltb (daily_reset_date self) today
  then mk (max_daily_loss self) (max_position_size self) (stop_loss_percent self)
         (take_profit_percent self) 0%float today
  else self.

(** [RiskManager.calculate_position_size].  The literal [0.001] is the
    float nearest to 1/1000.  Past the first test [entry_price] is above
    [stop_loss_price], so that their difference is not zero and the division
    does not raise. *)
Definition calculate_position_size (self : t) (today : Z)
    (account_balance entry_price stop_loss_price risk_percent : float) : float * t :=
  let self := reset_daily_stats self today in
  if (entry_price <=? stop_loss_price)%float then (0%float, self)
  else
    let risk_per_unit := abs (entry_price - stop_loss_price)%float in
    let risk_amount := (account_balance * (risk_percent / 100))%float in
    let position_size := (risk_amount / risk_per_unit)%float in
    let position_size := Float64.min2 position_size (max_position_size self) in
    if (position_size <? 1 / 1000)%float then (0%float, self)
    else (Float64.round position_size 8, self).

(** [RiskManager.should_place_trade]. *)
Definition should_place_trade (self : t) (today : Z) (account_balance : float)
    : bool * t :=
  let self := reset_daily_stats self today in
  if (daily_pnl self <=? - max_daily_loss self)%float then (false, self)
  else if (account_balance <? 10)%float then (false, self)
  else (true, self).

(** [RiskManager.update_daily_pnl]. *)
Definition update_daily_pnl (self : t) (pnl : float) : t :=
  mk (max_daily_loss self) (max_position_size self) (stop_loss_percent self)
     (take_profit_percent self) (daily_pnl self + pnl)%float (daily_reset_date self).

(** The effect of a run of [update_daily_pnl] calls. *)
Definition record_pnls (self : t) (pnls : list float) : t :=
  fold_left update_daily_pnl pnls self.

(** [Config.MAX_POSITION_SIZE] when the environment does not set it: the
    float that [float('0.01')] gives. *)
Definition default_max_position_size : float := (1 / 100)%float.

End RiskManager64.

(** ** trade_setup.py on binary64 numbers: the creation of a trade *)

Module TradeSetup64.

Import Floats.

(** The trade dictionary, its numbers as floats. *)
Record Trade : Type := mkTrade {
  id : TradeSetup.TradeId;
  symbol : string;
  position_type : TradeSetup.PositionType;
  entry_price : float;
  sl_price : float;
  target_price : float;
  quantity : float;
  risk_percent : float;
  risk_amount : float;
  reward_amount : float;
  risk_reward_ratio : float;
  sl_percent : float;
  target_percent : float;
  strategy : string;
  indicators : list (string * option float);
  status : TradeSetup.TradeStatus;
  created_at : Z;
  entry_time : option Z;
  exit_time : option Z;
  exit_price : option float;
  pnl : float;
  pnl_percent : float
}.

Record t : Type := mk {
  account_balance : float;
  trades : list Trade;
  active_positions : list nat
}.

(** [TradeSetup.calculate_position_size]; as in the risk manager, the
    division is reached only with [entry_price] above [sl_price]. *)
Definition calculate_position_size (self : t)
    (entry_price sl_price risk_percent : float) : float :=
  if (entry_price <=? sl_price)%float then 0%float
  else
    let risk_per_unit := abs (entry_price - sl_price)%float in
    let risk_amount := (account_balance self * (risk_percent / 100))%float in
    let position_size := (risk_amount / risk_per_unit)%float in
    Float64.round position_size 8.

(** The price validation at the head of [create_trade]. *)
Definition validate_prices (position_type : TradeSetup.PositionType)
    (entry_price sl_price target_price : float) : Py.result unit :=
  match position_type with
  | TradeSetup.LONG =>
      if (entry_price <=? sl_price)%float then
        Py.Raise (Py.ValueError "Stop loss must be below entry price for LONG position")
      else if (target_price <=? entry_price)%float then
        Py.Raise (Py.ValueError "Target must be above entry price for LONG position")
      else Py.Ok tt
  | TradeSetup.SHORT =>
      if (sl_price <=? entry_price)%float then
        Py.Raise (Py.ValueError "Stop loss must be above entry price for SHORT position")
      else if (entry_price <=? target_price)%float then
        Py.Raise (Py.ValueError "Target must be below entry price for SHORT position")
      else Py.Ok tt
  end.

(** [TradeSetup.create_trade]; [quantity] is [None] when the caller leaves
    it out. *)
Definition create_trade (self : t) (now : Z) (symbol : string)
    (position_type : TradeSetup.PositionType)
    (entry_price sl_price target_price : float)
    (quantity : option float) (risk_percent : float) (strategy : string)
    (indicators : list (string * option float)) : Py.result Trade * t :=
  let computation :=
    _ <- validate_prices position_type entry_price sl_price target_price ;;
    let quantity :=
      match quantity with
      | None => calculate_position_size self entry_price sl_price risk_percent
      | Some q => q
      end in
    let risk_amount := (abs (entry_price - sl_price) * quantity)%float in
    let reward_amount := (abs (target_price - entry_price) * quantity)%float in
    let risk_reward_ratio :=
      if (0 <? risk_amount)%float then (reward_amount / risk_amount)%float
      else 0%float in
    sl_ratio <- Float64.div (sl_price - entry_price)%float entry_price ;;
    let sl_percent := (abs sl_ratio * 100)%float in
    target_ratio <- Float64.div (target_price - entry_price)%float entry_price ;;
    let target_percent := (abs target_ratio * 100)%float in
    Py.Ok {|
      id := TradeSetup.mkId now (List.length (trades self));
      symbol := symbol;
      position_type := position_type;
      entry_price := Float64.round entry_price 8;
      sl_price := Float64.round sl_price 8;
      target_price := Float64.round target_price 8;
      quantity := Float64.round quantity 8;
      risk_percent := risk_percent;
      risk_amount := Float64.round risk_amount 2;
      reward_amount := Float64.round reward_amount 2;
      risk_reward_ratio := Float64.round risk_reward_ratio 2;
      sl_percent := Float64.round sl_percent 2;
      target_percent := Float64.round target_percent 2;
      strategy := strategy;
      indicators := indicators;
      status := TradeSetup.PENDING;
      created_at := now;
      entry_time := None;
      exit_time := None;
      exit_price := None;
      pnl := 0%float;
      pnl_percent := 0%float
    |} in
  match computation with
  | Py.Ok trade =>
      (Py.Ok trade,
       mk (account_balance self) (trades self ++ [trade]) (active_positions self))
  | Py.Raise e => (Py.Raise e, self)
  end.

End TradeSetup64.

(** ** chart_patterns.py on binary64 numbers: the validation of a breakout *)

Module ChartPatternDetector64.

Import Floats.

Record Bar : Type := mkBar {
  timestamp : Z;
  open : float;
  high : float;
  low : float;
  close : float;
  volume : float
}.

(** A price frame: its rows, and whether it has a [volume] column. *)
Record DataFrame : Type := mkFrame {
  has_volume : bool;
  rows : list Bar
}.

(** [series.iloc[-1]]. *)
Definition last_row (data : DataFrame) : Py.result Bar :=
  match rev (rows data) with
  | bar :: _ => Py.Ok bar
  | [] => Py.Raise Py.IndexError
  end.

(** [ChartPatternDetector.validate_breakout].  [mean] is [Series.mean], a
    function of pandas: the embedding does not fix the order in which it
    adds the volumes.  The literals [0.995] and [1.005] are the floats
    nearest to 995/1000 and 1005/1000. *)
Definition validate_breakout (mean : list float -> float) (data : DataFrame)
    (breakout_price : float) (breakout_direction : string)
    (volume_threshold : float) : Py.result bool :=
  if negb (has_volume data) then Py.Ok true
  else
    let recent_volume := mean (map volume (ChartPatterns.tail 20 (rows data))) in
    current <- last_row data ;;
    let current_volume := volume current in
    let volume_confirmation :=
      (recent_volume * volume_threshold <=? current_volume)%float in
    let current_price := close current in
    let price_confirmation :=
      if String.eqb breakout_direction "down"
      then (current_price <? breakout_price * (995 / 1000))%float
      else (breakout_price * (1005 / 1000) <? current_price)%float in
    Py.Ok (volume_confirmation && price_confirmation).

(** The default of [volume_threshold], 1.5. *)
Definition default_volume_threshold : float := (3 / 2)%float.

(** A bar that opens, trades and closes at [price] with volume [v]. *)
Definition flat_bar (i : nat) (price v : float) : Bar :=
  mkBar (Z.of_nat i) price price price price v.

(** A frame of 25 bars at 100: five busy bars of volume 1000000 that the
    20-bar window leaves out, eighteen bars of volume 500, one of volume
    [quiet], and [last]. *)
Definition busy_then_quiet (quiet : float) (last : Bar) : DataFrame :=
  mkFrame true
    (map (fun i => flat_bar i 100 1000000) (seq 0 5)
     ++ map (fun i => flat_bar i 100 500) (seq 5 18)
     ++ [flat_bar 23 100 quiet; last]).

End ChartPatternDetector64.


(** ** trade_setup.py on binary64 numbers: StrategyBasedTradeSetup *)

Module StrategyBasedTradeSetup64.

Import Floats TradeSetup64.

(** The value found under a key of the indicator dictionary: the key is
    absent, or it holds [None], or it holds a number. *)
Inductive Entry : Type :=
| Absent
| IsNone
| Number (x : float).

Record Indicators : Type := mkIndicators {
  rsi : Entry;
  macd_signal : Entry;
  atr : Entry;
  support : Entry;
  resistance : Entry
}.

(** [indicators.get(key, default)]; [None] is Python's [None]. *)
Definition get (entry : Entry) (default : option float) : option float :=
  match entry with
  | Absent => default
  | IsNone => None
  | Number x => Some x
  end.

(** A comparison of what [get] returned with a number: [None] cannot be
    compared and raises [TypeError]. *)
Definition compare (test : float -> bool) (v : option float) : Py.result bool :=
  match v with
  | Some x => Py.Ok (test x)
  | None => Py.Raise Py.TypeError
  end.

(** The truth value of [indicators.get(key, None)]: [None] and zero are
    false. *)
Definition truthy (entry : Entry) : option float :=
  match entry with
  | Number x => if (x =? 0)%float then None else Some x
  | _ => None
  end.

Definition item (key : string) (entry : Entry) : list (string * option float) :=
  match entry with
  | Absent => []
  | IsNone => [(key, None)]
  | Number x => [(key, Some x)]
  end.

(** The dictionary itself, as it is stored in the trade. *)
Definition to_dict (indicators : Indicators) : list (string * option float) :=
  (item "rsi" (rsi indicators) ++ item "macd_signal" (macd_signal indicators)
   ++ item "atr" (atr indicators) ++ item "support" (support indicators)
   ++ item "resistance" (resistance indicators))%list.

(** The side: the one given, or the one read off RSI and MACD; the test
    [rsi < 30 or macd_signal > 0] reads the MACD signal only when the first
    comparison is false. *)
Definition side_for (indicators : Indicators)
    (position_type : option TradeSetup.PositionType)
    : Py.result TradeSetup.PositionType :=
  match position_type with
  | Some side => Py.Ok side
  | None =>
      oversold <- compare (fun rsi => (rsi <? 30)%float)
                    (get (rsi indicators) (Some 50%float)) ;;
      if oversold : bool then Py.Ok TradeSetup.LONG
      else
        rising <- compare (fun macd_signal => (0 <? macd_signal)%float)
                    (get (macd_signal indicators) (Some 0%float)) ;;
        Py.Ok (if rising : bool then TradeSetup.LONG else TradeSetup.SHORT)
  end.

(** The stop and the target before rounding; the test [atr > 0] comes
    first. *)
Definition levels (indicators : Indicators) (side : TradeSetup.PositionType)
    (current_price : float) : Py.result (float * float) :=
  let atr := get (atr indicators) (Some 0%float) in
  has_atr <- compare (fun atr => (0 <? atr)%float) atr ;;
  let atr := match atr with Some a => a | None => 0%float end in
  let atr_multiplier_sl := 2%float in
  let atr_multiplier_target := 3%float in
  Py.Ok
    match side with
    | TradeSetup.LONG =>
        let sl_price :=
          if has_atr : bool then (current_price - atr * atr_multiplier_sl)%float
          else (current_price * (98 / 100))%float in
        let target_price :=
          if has_atr then (current_price + atr * atr_multiplier_target)%float
          else (current_price * (103 / 100))%float in
        let sl_price :=
          match truthy (support indicators) with
          | Some support => Float64.min2 sl_price (support * (99 / 100))%float
          | None => sl_price
          end in
        let target_price :=
          match truthy (resistance indicators) with
          | Some resistance => Float64.max2 target_price (resistance * (99 / 100))%float
          | None => target_price
          end in
        (sl_price, target_price)
    | TradeSetup.SHORT =>
        let sl_price :=
          if has_atr then (current_price + atr * atr_multiplier_sl)%float
          else (current_price * (102 / 100))%float in
        let target_price :=
          if has_atr then (current_price - atr * atr_multiplier_target)%float
          else (current_price * (97 / 100))%float in
        let sl_price :=
          match truthy (resistance indicators) with
          | Some resistance => Float64.max2 sl_price (resistance * (101 / 100))%float
          | None => sl_price
          end in
        let target_price :=
          match truthy (support indicators) with
          | Some support => Float64.min2 target_price (support * (101 / 100))%float
          | None => target_price
          end in
        (sl_price, target_price)
    end.

(** [StrategyBasedTradeSetup.create_trade_from_strategy]; [closes] is the
    [close] column of [data]. *)
Definition create_trade_from_strategy (self : t) (now : Z) (symbol : string)
    (closes : list float) (strategy_name : string) (indicators : Indicators)
    (position_type : option TradeSetup.PositionType) : Py.result Trade * t :=
  if Nat.ltb (List.length closes) 2 then
    (Py.Raise (Py.ValueError "Insufficient data for trade setup"), self)
  else
    match rev closes with
    | [] => (Py.Raise Py.IndexError, self)
    | current_price :: _ =>
        match side_for indicators position_type with
        | Py.Raise e => (Py.Raise e, self)
        | Py.Ok side =>
            match levels indicators side current_price with
            | Py.Raise e => (Py.Raise e, self)
            | Py.Ok (sl_price, target_price) =>
                create_trade self now symbol side current_price
                  (Float64.round sl_price 8) (Float64.round target_price 8)
                  None 1 strategy_name (to_dict indicators)
            end
        end
    end.

End StrategyBasedTradeSetup64.

(** * Properties *)

(** ** Numbers *)

Lemma ltb_spec (a b : Q) : Py.ltb a b = true <-> a < b.
Proof.
  unfold Py.ltb. rewrite negb_true_iff.
  split; intro H.
  - apply Qnot_le_lt. intro Hle. apply Qle_bool_iff in Hle. congruence.
  - destruct (Qle_bool b a) eqn:E; [|reflexivity].
    apply Qle_bool_iff in E. apply Qlt_not_le in H. contradiction.
Qed.

Lemma ltb_false (a b : Q) : Py.ltb a b = false <-> b <= a.
Proof.
  unfold Py.ltb. rewrite negb_false_iff. apply Qle_bool_iff.
Qed.

Lemma leb_spec (a b : Q) : Py.leb a b = true <-> a <= b.
Proof. apply Qle_bool_iff. Qed.

Lemma leb_false (a b : Q) : Py.leb a b = false <-> b < a.
Proof.
  unfold Py.leb. split; intro H.
  - apply Qnot_le_lt. intro Hle. apply Qle_bool_iff in Hle. congruence.
  - destruct (Qle_bool a b) eqn:E; [|reflexivity].
    apply Qle_bool_iff in E. apply Qlt_not_le in H. contradiction.
Qed.

Lemma min2_spec (a b : Q) : Py.min2 a b == Qmin a b.
Proof.
  unfold Py.min2. destruct (Py.ltb b a) eqn:E.
  - apply ltb_spec in E. symmetry. apply Q.min_r. lra.
  - apply ltb_false in E. symmetry. apply Q.min_l. exact E.
Qed.

Lemma round_half_even_comp (x y : Q) :
  x == y -> Py.round_half_even x = Py.round_half_even y.
Proof.
  intro H. unfold Py.round_half_even.
  rewrite (Qfloor_comp x y H).
  assert (E : Qcompare (x - inject_Z (Qfloor y)) (1 # 2)
              = Qcompare (y - inject_Z (Qfloor y)) (1 # 2)).
  { apply Qcompare_comp; [rewrite H|]; reflexivity. }
  rewrite E. reflexivity.
Qed.

#[export] Instance round_proper : Proper (Qeq ==> eq ==> Qeq) Py.round.
Proof.
  intros x y H n m <-. unfold Py.round.
  set (s := inject_Z (10 ^ Z.of_nat n)).
  rewrite (round_half_even_comp (x * s) (y * s)); [reflexivity|].
  rewrite H. reflexivity.
Qed.

Lemma round_half_even_bounds (x : Q) :
  (Qfloor x <= Py.round_half_even x <= Qfloor x + 1)%Z.
Proof.
  unfold Py.round_half_even.
  destruct (Qcompare _ _); [destruct (Z.even _)| |]; lia.
Qed.

Lemma round_half_even_mono (x y : Q) :
  x <= y -> (Py.round_half_even x <= Py.round_half_even y)%Z.
Proof.
  intro H.
  pose proof (Qfloor_resp_le x y H) as Hf.
  destruct (Z.eq_dec (Qfloor x) (Qfloor y)) as [E|NE].
  - unfold Py.round_half_even. rewrite E.
    destruct (Qcompare_spec (x - inject_Z (Qfloor y)) (1 # 2)) as [Hx|Hx|Hx];
      destruct (Qcompare_spec (y - inject_Z (Qfloor y)) (1 # 2)) as [Hy|Hy|Hy];
      try destruct (Z.even (Qfloor y)); try lia; exfalso; lra.
  - pose proof (round_half_even_bounds x). pose proof (round_half_even_bounds y).
    lia.
Qed.

Lemma scale_pos (n : nat) : 0 < inject_Z (10 ^ Z.of_nat n).
Proof.
  replace 0 with (inject_Z 0) by reflexivity. rewrite <- Zlt_Qlt.
  apply Z.pow_pos_nonneg; lia.
Qed.

Lemma round_mono (x y : Q) (n : nat) : x <= y -> Py.round x n <= Py.round y n.
Proof.
  intro H. unfold Py.round.
  pose proof (scale_pos n) as Hs.
  set (s := inject_Z (10 ^ Z.of_nat n)) in *.
  assert (Hm : x * s <= y * s) by (apply Qmult_le_compat_r; lra).
  apply round_half_even_mono in Hm. rewrite Zle_Qle in Hm.
  unfold Qdiv. apply Qmult_le_compat_r; [exact Hm|].
  apply Qlt_le_weak, Qinv_lt_0_compat, Hs.
Qed.

Lemma round_zero (n : nat) : Py.round 0 n == 0.
Proof.
  unfold Py.round.
  set (s := inject_Z (10 ^ Z.of_nat n)).
  rewrite (round_half_even_comp (0 * s) 0) by ring.
  change (Py.round_half_even 0) with 0%Z.
  unfold Qdiv. ring.
Qed.

Lemma round_zero' (x : Q) (n : nat) : x == 0 -> Py.round x n == 0.
Proof. intro H. rewrite H. apply round_zero. Qed.

(** ** Position sizing (risk_manager.py, trade_setup.py) *)

Section Sizing.

Variables entry stop risk_percent : Q.

Lemma ts_size_invalid (ledger : TradeSetup.t) :
  entry <= stop ->
  TradeSetup.calculate_position_size ledger entry stop risk_percent = 0.
Proof.
  intro H. unfold TradeSetup.calculate_position_size.
  apply leb_spec in H. rewrite H. reflexivity.
Qed.

End Sizing.

Section FloatOrder.

Import Floats.



End FloatOrder.

Section Sizing64.

Import Floats.

Lemma reset_keeps_cap (self : RiskManager64.t) (today : Z) :
  RiskManager64.max_position_size (RiskManager64.reset_daily_stats self today)
  = RiskManager64.max_position_size self.
Proof.
  unfold RiskManager64.reset_daily_stats.
  destruct (Z.ltb _ _); reflexivity.
Qed.



End Sizing64.


Section LedgerSizing64.

Import Floats.

(** The specification's reading of C4 fails on binary64 numbers: with the
    default cap of 0.01 the ledger's helper sizes the worked example at 500,
    which is the quantity [create_trade] records, where the risk manager
    returns the cap; a size of 0.0001 is kept by the ledger's helper and
    dropped to 0 by the risk manager; and for balance 11, entry 330, stop 0
    and 3 percent the float quotient 0.0009999999999999998 is rounded to 0.001
    by the ledger's helper and dropped to 0 by the risk manager. *)
Lemma sizing_functions_differ :
  (TradeSetup64.calculate_position_size (TradeSetup64.mk 100000 [] []) 100 98 1
   = 500%float
   /\ fst (RiskManager64.calculate_position_size
             (RiskManager64.mk 100 RiskManager64.default_max_position_size 2 3 0 0)
             0 100000 100 98 1) = (1 / 100)%float
   /\ exists trade ledger,
        TradeSetup64.create_trade (TradeSetup64.mk 100000 [] []) 0 "BTCUSDT"
          TradeSetup.LONG 100 98 110 None 1 "Manual" [] = (Py.Ok trade, ledger)
        /\ TradeSetup64.quantity trade = 500%float)
  /\ (TradeSetup64.calculate_position_size (TradeSetup64.mk 1 [] []) 100 0 1
      = (1 / 10000)%float
      /\ fst (RiskManager64.calculate_position_size
                (RiskManager64.mk 100 1000 2 3 0 0) 0 1 100 0 1) = 0%float)
  /\ (TradeSetup64.calculate_position_size (TradeSetup64.mk 11 [] []) 330 0 3
      = (1 / 1000)%float
      /\ fst (RiskManager64.calculate_position_size
                (RiskManager64.mk 100 1000 2 3 0 0) 0 11 330 0 3) = 0%float).
Proof.
  split; [|split].
  - split; [vm_compute; reflexivity|]. split; [vm_compute; reflexivity|].
    eexists. eexists. split; [vm_compute; reflexivity|]. reflexivity.
  - split; vm_compute; reflexivity.
  - split; vm_compute; reflexivity.
Qed.

Lemma create_trade64_ok (self : TradeSetup64.t) (now : Z) (sym : string)
    (side : TradeSetup.PositionType) (entry sl target : float)
    (qty : option float) (risk : float) (strat : string)
    (ind : list (string * option float)) (trade : TradeSetup64.Trade)
    (ledger : TradeSetup64.t) :
  TradeSetup64.create_trade self now sym side entry sl target qty risk strat ind
    = (Py.Ok trade, ledger) ->
  let size :=
    match qty with
    | None => TradeSetup64.calculate_position_size self entry sl risk
    | Some q => q
    end in
  TradeSetup64.validate_prices side entry sl target = Py.Ok tt
  /\ (entry =? 0)%float = false
  /\ ledger = TradeSetup64.mk (TradeSetup64.account_balance self)
                (TradeSetup64.trades self ++ [trade])
                (TradeSetup64.active_positions self)
  /\ TradeSetup64.status trade = TradeSetup.PENDING
  /\ TradeSetup64.position_type trade = side
  /\ TradeSetup64.entry_price trade = Float64.round entry 8
  /\ TradeSetup64.sl_price trade = Float64.round sl 8
  /\ TradeSetup64.target_price trade = Float64.round target 8
  /\ TradeSetup64.quantity trade = Float64.round size 8
  /\ TradeSetup64.risk_amount trade = Float64.round (abs (entry - sl) * size)%float 2
  /\ TradeSetup64.reward_amount trade
     = Float64.round (abs (target - entry) * size)%float 2.
Proof.
  cbv zeta. unfold TradeSetup64.create_trade.
  destruct (TradeSetup64.validate_prices side entry sl target) as [[]|e];
    [|discriminate].
  cbn [Py.bind]. unfold Float64.div.
  destruct (entry =? 0)%float; [discriminate|].
  cbn [Py.bind]. intro H. injection H as <- <-.
  repeat split.
Qed.

(** C4 (amended): on binary64 numbers, the quantity [create_trade] records
    when none is given is [TradeSetup.calculate_position_size] on the ledger's
    balance, rounded to 8 decimals once more, and the risk amount is computed
    from that size; with a quantity given, it is that quantity rounded.  The
    helper applies neither the cap nor the 0.001 floor: it is 0 when
    entry <= stop and the uncapped float quotient rounded to 8 decimals
    otherwise.  It agrees with [RiskManager.calculate_position_size] when
    entry <= stop, and when the uncapped quotient is neither below 0.001 nor
    above [max_position_size]. *)
Theorem sizing_functions_agree_within_limits
    (ledger : TradeSetup64.t) (self : RiskManager64.t) (today : Z)
    (entry stop risk_percent : float) :
  let balance := TradeSetup64.account_balance ledger in
  let raw := (balance * (risk_percent / 100) / abs (entry - stop))%float in
  let ledger_size :=
    TradeSetup64.calculate_position_size ledger entry stop risk_percent in
  let manager_size :=
    fst (RiskManager64.calculate_position_size self today balance entry stop
           risk_percent) in
  (forall now sym side target strat ind trade ledger',
     TradeSetup64.create_trade ledger now sym side entry stop target None
       risk_percent strat ind = (Py.Ok trade, ledger') ->
     TradeSetup64.quantity trade = Float64.round ledger_size 8
     /\ TradeSetup64.risk_amount trade
        = Float64.round (abs (entry - stop) * ledger_size)%float 2)
  /\ (forall now sym side target given strat ind trade ledger',
        TradeSetup64.create_trade ledger now sym side entry stop target (Some given)
          risk_percent strat ind = (Py.Ok trade, ledger') ->
        TradeSetup64.quantity trade = Float64.round given 8)
  /\ ((entry <=? stop)%float = true ->
      ledger_size = 0%float /\ manager_size = 0%float)
  /\ ((entry <=? stop)%float = false -> ledger_size = Float64.round raw 8)
  /\ ((entry <=? stop)%float = false ->
      (raw <? 1 / 1000)%float = false ->
      (RiskManager64.max_position_size self <? raw)%float = false ->
      ledger_size = manager_size).
Proof.
  cbv zeta. split; [|split; [|split; [|split]]].
  - intros now sym side target strat ind trade ledger' H.
    apply create_trade64_ok in H. cbv beta iota zeta in H.
    destruct H as (_ & _ & _ & _ & _ & _ & _ & _ & Hq & Hr & _).
    split; assumption.
  - intros now sym side target given strat ind trade ledger' H.
    apply create_trade64_ok in H. cbv beta iota zeta in H.
    destruct H as (_ & _ & _ & _ & _ & _ & _ & _ & Hq & _). exact Hq.
  - intro H. unfold TradeSetup64.calculate_position_size,
      RiskManager64.calculate_position_size.
    rewrite H. split; reflexivity.
  - intro H. unfold TradeSetup64.calculate_position_size. rewrite H. reflexivity.
  - intros H Hlo Hhi.
    unfold TradeSetup64.calculate_position_size,
      RiskManager64.calculate_position_size.
    rewrite reset_keeps_cap, H. unfold Float64.min2. rewrite Hhi, Hlo. reflexivity.
Qed.

(** [sizing_functions_agree_within_limits] under a cap of 1000: on the
    worked example [create_trade] records the helper's 500, which is also what
    the risk manager returns; with the stop above the entry both functions
    return 0. *)
Lemma sizing_functions_agree_within_limits_witness :
  (exists trade ledger,
     TradeSetup64.create_trade (TradeSetup64.mk 100000 [] []) 0 "BTCUSDT"
       TradeSetup.LONG 100 98 110 None 1 "Manual" [] = (Py.Ok trade, ledger)
     /\ TradeSetup64.quantity trade
        = Float64.round
            (TradeSetup64.calculate_position_size
               (TradeSetup64.mk 100000 [] []) 100 98 1) 8)
  /\ (TradeSetup64.calculate_position_size (TradeSetup64.mk 100000 [] []) 100 105 1
      = 0%float
      /\ fst (RiskManager64.calculate_position_size
                (RiskManager64.mk 100 1000 2 3 0 0) 0 100000 100 105 1) = 0%float)
  /\ TradeSetup64.calculate_position_size (TradeSetup64.mk 100000 [] []) 100 98 1
     = fst (RiskManager64.calculate_position_size
              (RiskManager64.mk 100 1000 2 3 0 0) 0 100000 100 98 1).
Proof.
  pose proof (sizing_functions_agree_within_limits
                (TradeSetup64.mk 100000 [] []) (RiskManager64.mk 100 1000 2 3 0 0) 0
                100 98 1) as Hvalid.
  pose proof (sizing_functions_agree_within_limits
                (TradeSetup64.mk 100000 [] []) (RiskManager64.mk 100 1000 2 3 0 0) 0
                100 105 1) as Hinvalid.
  cbv zeta in Hvalid, Hinvalid.
  destruct Hvalid as (Hcreate & _ & _ & _ & Hagree).
  destruct Hinvalid as (_ & _ & Hzero & _).
  split; [|split].
  - destruct (TradeSetup64.create_trade (TradeSetup64.mk 100000 [] []) 0 "BTCUSDT"
                TradeSetup.LONG 100 98 110 None 1 "Manual" [])
      as [[trade|e] ledger] eqn:E.
    + exists trade, ledger. split; [reflexivity|].
      exact (proj1 (Hcreate _ _ _ _ _ _ _ _ E)).
    + vm_compute in E. discriminate E.
  - apply Hzero. vm_compute. reflexivity.
  - apply Hagree; vm_compute; reflexivity.
Defined.

End LedgerSizing64.

(** ** The trade ledger (trade_setup.py) *)

Section Ledger.

Import TradeSetup.

Lemma validate_prices_ok (side : PositionType) (entry sl target : Q) :
  validate_prices side entry sl target = Py.Ok tt <->
  match side with
  | LONG => sl < entry /\ entry < target
  | SHORT => target < entry /\ entry < sl
  end.
Proof.
  unfold validate_prices. destruct side.
  - destruct (Py.leb entry sl) eqn:E1; [|destruct (Py.leb target entry) eqn:E2].
    + apply leb_spec in E1. split; [discriminate|lra].
    + apply leb_spec in E2. split; [discriminate|lra].
    + apply leb_false in E1, E2. split; [lra|reflexivity].
  - destruct (Py.leb sl entry) eqn:E1; [|destruct (Py.leb entry target) eqn:E2].
    + apply leb_spec in E1. split; [discriminate|lra].
    + apply leb_spec in E2. split; [discriminate|lra].
    + apply leb_false in E1, E2. split; [lra|reflexivity].
Qed.

Lemma validate_prices_raises (side : PositionType) (entry sl target : Q) :
  ~ match side with
    | LONG => sl < entry /\ entry < target
    | SHORT => target < entry /\ entry < sl
    end ->
  exists msg, validate_prices side entry sl target = Py.Raise (Py.ValueError msg).
Proof.
  intro H. rewrite <- validate_prices_ok in H.
  unfold validate_prices in *.
  destruct side;
    repeat match goal with
           | |- context [if ?c then _ else _] => destruct c
           end; try (eexists; reflexivity); exfalso; apply H; reflexivity.
Qed.

Section CreateTrade.

Variables (self : t) (now : Z) (sym : string) (side : PositionType).
Variables (entry sl target : Q) (qty : option Q) (risk : Q).
Variables (strat : string) (ind : list (string * Q)).

Lemma create_trade_raises (e : Py.exn) :
  validate_prices side entry sl target = Py.Raise e ->
  create_trade self now sym side entry sl target qty risk strat ind
    = (Py.Raise e, self).
Proof. intro H. unfold create_trade. rewrite H. reflexivity. Qed.

Lemma create_trade_ok (trade : Trade) (ledger : t) :
  create_trade self now sym side entry sl target qty risk strat ind
    = (Py.Ok trade, ledger) ->
  validate_prices side entry sl target = Py.Ok tt
  /\ ledger = mk (account_balance self) (trades self ++ [trade]) (active_positions self)
  /\ position_type trade = side
  /\ entry_price trade = Py.round entry 8
  /\ sl_price trade = Py.round sl 8
  /\ target_price trade = Py.round target 8.
Proof.
  unfold create_trade.
  destruct (validate_prices side entry sl target) as [[]|e]; [|discriminate].
  cbn [Py.bind].
  destruct (if Py.ltb 0 _ then _ else _) as [rr|e]; [|discriminate].
  cbn [Py.bind].
  destruct (Py.div (sl - entry) entry) as [r1|e]; [|discriminate].
  cbn [Py.bind].
  destruct (Py.div (target - entry) entry) as [r2|e]; [|discriminate].
  cbn [Py.bind]. intro H. injection H as <- <-.
  repeat split.
Qed.

Lemma create_trade_ledger :
  let ledger := snd (create_trade self now sym side entry sl target qty risk strat ind) in
  ledger = self
  \/ exists trade,
       create_trade self now sym side entry sl target qty risk strat ind
         = (Py.Ok trade, ledger).
Proof.
  cbv zeta.
  destruct (create_trade self now sym side entry sl target qty risk strat ind)
    as [[trade|e] ledger] eqn:E.
  - right. exists trade. reflexivity.
  - left. unfold create_trade in E.
    destruct (_ <- validate_prices side entry sl target ;; _);
      [discriminate|]. injection E as _ <-. reflexivity.
Qed.

End CreateTrade.

Lemma store_Forall {A : Type} (P : A -> Prop) (n : nat) (v : A) (l : list A) :
  P v -> Forall P l -> Forall P (store n v l).
Proof.
  intros Hv Hl. revert n.
  induction Hl as [|x l Hx Hl IH]; intros [|n]; cbn; auto.
Qed.

Lemma deref_Forall (P : Trade -> Prop) (self : t) (ref : nat) (trade : Trade) :
  Forall P (trades self) -> deref self ref = Some trade -> P trade.
Proof.
  intros HF Hd. rewrite Forall_forall in HF. apply HF.
  eapply nth_error_In, Hd.
Qed.

Lemma calculate_pnl_weakly_ordered (trade : Trade) (price : option Q) :
  weakly_ordered trade -> weakly_ordered (snd (_calculate_pnl trade price)).
Proof.
  intro H. unfold _calculate_pnl.
  destruct (match price with Some p => Some p | None => exit_price trade end);
    [|exact H].
  destruct (Py.div _ _); exact H.
Qed.

Lemma hit_weakly_ordered (self : t) (now : Z) (trade_id : TradeId) (ref : nat)
    (trade : Trade) (new_status : TradeStatus) (price : Q) (answer : CheckResult) :
  Forall weakly_ordered (trades self) -> weakly_ordered trade ->
  Forall weakly_ordered
    (trades (snd (hit self now trade_id ref trade new_status price answer))).
Proof.
  intros HF Ht. unfold hit.
  pose proof (calculate_pnl_weakly_ordered
                (with_exit now (Py.round price 8) (with_status new_status trade)) None Ht)
    as Hp.
  destruct (_calculate_pnl _ None) as [[u|e] trade']; cbn in *;
    apply store_Forall; assumption.
Qed.

Lemma step_weakly_ordered (self : t) (call : Call) :
  keeps_entry_price call ->
  Forall weakly_ordered (trades self) ->
  Forall weakly_ordered (trades (step self call)).
Proof.
  intros Hk HF.
  destruct call as [balance|now sym side entry sl target qty risk strat ind
                   |now trade_id price|now trade_id price|now trade_id price];
    cbn [step].
  - exact HF.
  - destruct (create_trade_ledger self now sym side entry sl target qty risk strat ind)
      as [->|[trade Hc]]; [exact HF|].
    apply create_trade_ok in Hc as (Hv & Hl & Hs & He & Hsl & Ht).
    rewrite Hl. cbn [trades]. apply Forall_app. split; [exact HF|].
    constructor; [|constructor].
    apply validate_prices_ok in Hv.
    unfold weakly_ordered. rewrite Hs, He, Hsl, Ht.
    destruct side; destruct Hv; split; apply round_mono; lra.
  - cbn in Hk. unfold activate_trade.
    destruct (get_trade self trade_id) as [ref|]; [|exact HF].
    destruct (deref self ref) as [trade|] eqn:Hd; [|exact HF].
    destruct (negb _); [exact HF|].
    rewrite Hk. cbn. apply store_Forall; [|exact HF].
    exact (deref_Forall _ _ _ _ HF Hd).
  - unfold check_trade.
    destruct (get_trade self trade_id) as [ref|]; [|exact HF].
    destruct (deref self ref) as [trade|] eqn:Hd; [|exact HF].
    pose proof (deref_Forall _ _ _ _ HF Hd) as Ht.
    destruct (negb _); [exact HF|].
    destruct (match position_type trade with LONG => _ | SHORT => _ end)
      as [is_sl is_target].
    destruct is_sl; [apply hit_weakly_ordered; assumption|].
    destruct is_target; [apply hit_weakly_ordered; assumption|].
    pose proof (calculate_pnl_weakly_ordered trade (Some price) Ht) as Hp.
    destruct (_calculate_pnl trade (Some price)) as [[u|e] trade']; cbn in *;
      apply store_Forall; assumption.
  - unfold close_trade.
    destruct (get_trade self trade_id) as [ref|]; [|exact HF].
    destruct (deref self ref) as [trade|] eqn:Hd; [|exact HF].
    pose proof (deref_Forall _ _ _ _ HF Hd) as Ht.
    destruct (negb _); [exact HF|].
    pose proof (calculate_pnl_weakly_ordered
                  (with_exit now (Py.round price 8) (with_status CLOSED trade)) None Ht)
      as Hp.
    destruct (_calculate_pnl _ None) as [[u|e] trade']; cbn in *;
      apply store_Forall; assumption.
Qed.

Lemma fold_step_weakly_ordered (calls : list Call) (self : t) :
  Forall keeps_entry_price calls ->
  Forall weakly_ordered (trades self) ->
  Forall weakly_ordered (trades (fold_left step calls self)).
Proof.
  intro Hk. revert self.
  induction Hk as [|call calls Hc Hk IH]; intros self HF; cbn [fold_left].
  - exact HF.
  - apply IH, step_weakly_ordered; assumption.
Qed.

Lemma div_ok (a b : Q) : ~ b == 0 -> Py.div a b = Py.Ok (a / b).
Proof.
  intro H. unfold Py.div, Py.eqb.
  destruct (Qeq_bool b 0) eqn:E; [|reflexivity].
  apply Qeq_bool_iff in E. contradiction.
Qed.

Lemma div_inv (a b r : Q) : Py.div a b = Py.Ok r -> ~ b == 0 /\ r = a / b.
Proof.
  unfold Py.div, Py.eqb. destruct (Qeq_bool b 0) eqn:E; [discriminate|].
  intro H. injection H as <-. split; [|reflexivity].
  intro Hb. apply Qeq_bool_iff in Hb. congruence.
Qed.

(** A SHORT trade sized by the ledger: what [create_trade] computes once the
    validation has passed. *)
Lemma create_short_auto (self : t) (now : Z) (sym : string)
    (entry sl target risk : Q) (strat : string) (ind : list (string * Q)) :
  target < entry -> entry < sl -> ~ entry == 0 ->
  exists trade,
    create_trade self now sym SHORT entry sl target None risk strat ind
      = (Py.Ok trade,
         mk (account_balance self) (trades self ++ [trade]) (active_positions self))
    /\ quantity trade == 0 /\ risk_amount trade == 0
    /\ reward_amount trade == 0 /\ risk_reward_ratio trade == 0.
Proof.
  intros Ht Hs Hne. unfold create_trade.
  assert (Hv : validate_prices SHORT entry sl target = Py.Ok tt)
    by (apply validate_prices_ok; split; assumption).
  rewrite Hv. cbn [Py.bind].
  rewrite ts_size_invalid by lra.
  assert (Hrisk : Py.ltb 0 (Qabs (entry - sl) * 0) = false)
    by (apply ltb_false; assert (E : Qabs (entry - sl) * 0 == 0) by ring; lra).
  rewrite Hrisk. cbn [Py.bind].
  rewrite !div_ok by exact Hne. cbn [Py.bind].
  eexists. split; [reflexivity|]. cbn.
  repeat split; apply round_zero'; try reflexivity; ring.
Qed.

(** C9: a SHORT trade created by [create_trade] without an explicit quantity
    is sized at 0, because the sizing helper returns 0 whenever
    entry <= stop and the SHORT validation puts the stop above the entry; the
    trade is recorded with quantity 0, risk_amount 0, reward_amount 0 and
    risk_reward_ratio 0.  Such trades exist: every SHORT request with
    target < entry < stop and a non-zero entry creates one. *)
Theorem short_auto_quantity_is_zero (self : t) (now : Z) (sym : string)
    (entry sl target risk : Q) (strat : string) (ind : list (string * Q)) :
  (forall trade ledger,
     create_trade self now sym SHORT entry sl target None risk strat ind
       = (Py.Ok trade, ledger) ->
     calculate_position_size self entry sl risk = 0
     /\ In trade (trades ledger)
     /\ quantity trade == 0 /\ risk_amount trade == 0
     /\ reward_amount trade == 0 /\ risk_reward_ratio trade == 0)
  /\ (target < entry -> entry < sl -> ~ entry == 0 ->
      exists trade ledger,
        create_trade self now sym SHORT entry sl target None risk strat ind
          = (Py.Ok trade, ledger)).
Proof.
  split.
  - intros trade ledger Hc.
    pose proof (create_trade_ok _ _ _ _ _ _ _ _ _ _ _ _ _ Hc) as (Hv & _).
    apply validate_prices_ok in Hv as [Ht Hs].
    assert (Hne : ~ entry == 0).
    { intro E. unfold create_trade in Hc.
      assert (Hd : forall a, Py.div a entry = Py.Raise Py.ZeroDivisionError).
      { intro a. unfold Py.div, Py.eqb.
        apply Qeq_bool_iff in E. rewrite E. reflexivity. }
      destruct (validate_prices SHORT entry sl target); [|discriminate].
      cbn [Py.bind] in Hc.
      destruct (if Py.ltb 0 _ then _ else _); [|discriminate].
      cbn [Py.bind] in Hc. rewrite Hd in Hc. discriminate. }
    destruct (create_short_auto self now sym entry sl target risk strat ind Ht Hs Hne)
      as (trade' & Hc' & Hq).
    rewrite Hc in Hc'. injection Hc' as -> ->.
    split; [apply ts_size_invalid; lra|].
    split; [cbn; apply in_or_app; right; left; reflexivity|exact Hq].
  - intros Ht Hs Hne.
    destruct (create_short_auto self now sym entry sl target risk strat ind Ht Hs Hne)
      as (trade & Hc & _).
    eauto.
Qed.

(** [short_auto_quantity_is_zero] on a ledger holding 100000: a SHORT at 100
    with stop 102 and target 97 is recorded with quantity 0. *)
Lemma short_auto_quantity_is_zero_witness :
  exists trade ledger,
    create_trade (set_account_balance init 100000) 0 "BTCUSDT" SHORT
      100 102 97 None 1 "Manual" [] = (Py.Ok trade, ledger)
    /\ quantity trade == 0.
Proof.
  destruct (proj2 (short_auto_quantity_is_zero (set_account_balance init 100000)
                     0 "BTCUSDT" 100 102 97 1 "Manual" []))
    as (trade & ledger & Hc).
  - reflexivity.
  - reflexivity.
  - intro H. discriminate H.
  - exists trade, ledger. split; [exact Hc|].
    apply (proj1 (short_auto_quantity_is_zero (set_account_balance init 100000)
                    0 "BTCUSDT" 100 102 97 1 "Manual" []) trade ledger Hc).
Defined.
End Ledger.

Section LedgerSummary.

Import TradeSetup.

(** C8 fails on the code: [get_trade_summary] counts every trade with a
    positive P&L as a win, open ones included, and divides by the number of
    closed trades.  After one trade closed at a profit and one still ACTIVE
    with an unrealised profit, it reports 2 wins over 1 closed trade, a win
    rate of 200, where the closed trades alone give 100. *)
Theorem win_rate_counts_open_trades :
  let ledger := run one_closed_one_open in
  map status (trades ledger) = [CLOSED; ACTIVE]
  /\ closed_trades (get_trade_summary ledger) = 1%nat
  /\ winning_trades (get_trade_summary ledger) = 2%nat
  /\ win_rate (get_trade_summary ledger) == 200
  /\ closed_win_rate ledger == 100
  /\ 100 < win_rate (get_trade_summary ledger).
Proof.
  cbv zeta. repeat split; vm_compute; reflexivity.
Qed.

End LedgerSummary.

(** ** The backtester (backtesting.py) *)

Section Backtest.

Import Backtesting.

Variable self : Backtesting.t.
Variable strategy : Strategy.

Lemma net_pnl_as_specified (side : string) (entry exit qty : Q) :
  side = "BUY"%string \/ side = "SELL"%string ->
  let gross := (exit - entry) * qty in
  let cost := (entry + exit) * qty * commission self in
  (side = "BUY"%string /\ net_pnl (commission self) side entry exit qty == gross - cost)
  \/ (side = "SELL"%string /\ net_pnl (commission self) side entry exit qty == - gross - cost).
Proof.
  intros [->| ->]; cbv zeta; [left|right]; (split; [reflexivity|]);
    unfold net_pnl; cbn [String.eqb Ascii.eqb Bool.eqb]; ring.
Qed.

Lemma is_loss_not_win (trade : Trade.t) : is_loss trade = negb (is_win trade).
Proof.
  unfold is_loss, is_win, Py.ltb, Py.leb. rewrite negb_involutive. reflexivity.
Qed.

Lemma close_position_invariant (position : Position.t) (reason : string)
    (price : Q) (time : Z) (st st' : State) :
  Position.side position = "BUY"%string \/ Position.side position = "SELL"%string ->
  invariant self st ->
  close_position self strategy position reason price time st = Py.Ok st' ->
  invariant self st' /\ positions st' = positions st.
Proof.
  intros Hside [Hs Hp Hsame Hw Hl] Hc. unfold close_position in Hc.
  destruct (Py.div _ _) as [ratio|e]; [|discriminate].
  cbn [Py.bind] in Hc. injection Hc as <-.
  split; [|reflexivity]. constructor; cbn.
  - exact Hs.
  - apply Forall_app. split; [exact Hp|]. constructor; [|constructor].
    apply (net_pnl_as_specified _ _ _ _ Hside).
  - rewrite Hsame. reflexivity.
  - rewrite filter_app, length_app. cbn. unfold is_win at 2. cbn.
    destruct (Py.ltb 0 _); cbn; lia.
  - rewrite filter_app, length_app. cbn. rewrite is_loss_not_win.
    unfold is_win at 1. cbn.
    destruct (Py.ltb 0 _); cbn; lia.
Qed.

Lemma pop_Forall {A : Type} (P : A -> Prop) (i : nat) (l : list A) (x : A) (rest : list A) :
  Forall P l -> pop i l = Some (x, rest) -> P x /\ Forall P rest.
Proof.
  intro HF. revert i x rest.
  induction HF as [|y l Hy HF IH]; intros [|i] x rest Hpop; cbn in Hpop;
    try discriminate.
  - injection Hpop as <- <-. split; assumption.
  - destruct (pop i l) as [[z l'']|] eqn:E; [|discriminate].
    injection Hpop as <- <-.
    destruct (IH _ _ _ E) as [Hz Hl]. split; [exact Hz|constructor; assumption].
Qed.

Lemma close_positions_invariant (time : Z) (to_close : list (nat * string * Q))
    (st st' : State) :
  invariant self st ->
  close_positions self strategy time to_close st = Py.Ok st' ->
  invariant self st'.
Proof.
  revert st. induction to_close as [|[[idx reason] price] others IH];
    intros st Hinv Hc; cbn [close_positions] in Hc.
  - injection Hc as <-. exact Hinv.
  - destruct (pop idx (positions st)) as [[position remaining]|] eqn:Hpop;
      [|discriminate].
    destruct Hinv as [Hs Hp Hsame Hw Hl].
    destruct (pop_Forall _ _ _ _ _ Hs Hpop) as [Hside Hrem].
    destruct (close_position self strategy position reason price time _)
      as [st1|e] eqn:E; [|discriminate].
    cbn [Py.bind] in Hc.
    apply close_position_invariant in E as [Hinv1 _];
      [exact (IH _ Hinv1 Hc)|exact Hside|constructor; assumption].
Qed.

Lemma tradable_side (action : option string) (side : string) :
  tradable action = Some side -> side = "BUY"%string \/ side = "SELL"%string.
Proof.
  unfold tradable. destruct action as [a|]; [|discriminate].
  destruct (String.eqb a "BUY") eqn:E1; cbn.
  - intro H. injection H as <-. left. apply String.eqb_eq, E1.
  - destruct (String.eqb a "SELL") eqn:E2; [|discriminate].
    intro H. injection H as <-. right. apply String.eqb_eq, E2.
Qed.

Lemma open_position_invariant (pct : Q) (data : list Bar) (time : Z) (price : Q)
    (signal : Signal.t) (st st' : State) :
  invariant self st ->
  open_position pct data time price signal st = Py.Ok st' ->
  invariant self st'.
Proof.
  intros Hinv Ho. unfold open_position in Ho.
  destruct (tradable (Signal.action signal)) as [side|] eqn:Ht;
    [|injection Ho as <-; exact Hinv].
  destruct (positions st) eqn:Hpos; [|injection Ho as <-; exact Hinv].
  destruct (Py.div _ _) as [quantity|e]; [|discriminate].
  cbn [Py.bind] in Ho. injection Ho as <-.
  destruct Hinv as [Hs Hp Hsame Hw Hl].
  constructor; cbn; try assumption.
  constructor; [|constructor]. cbn. apply (tradable_side _ _ Ht).
Qed.

Lemma bar_step_invariant (df : list Bar) (pct : Q) (st st' : State) (i : nat) :
  invariant self st ->
  bar_step self strategy df pct st i = Py.Ok st' ->
  invariant self st'.
Proof.
  intros Hinv Hb. unfold bar_step in Hb.
  destruct (nth_error df i) as [bar|]; [|discriminate].
  destruct (positions_to_close _ _ _ _) as [to_close|e]; [|discriminate].
  cbn [Py.bind] in Hb.
  destruct (close_positions _ _ _ _ _) as [st1|e] eqn:E1; [|discriminate].
  cbn [Py.bind] in Hb.
  destruct (open_position _ _ _ _ _ _) as [st2|e] eqn:E2; [|discriminate].
  cbn [Py.bind] in Hb. injection Hb as <-.
  apply close_positions_invariant in E1; [|exact Hinv].
  apply open_position_invariant in E2; [|exact E1].
  destruct E2 as [Hs Hp Hsame Hw Hl]. constructor; assumption.
Qed.

Lemma for_each_invariant {A : Type} (body : State -> A -> Py.result State)
    (l : list A) :
  (forall st st' a, invariant self st -> body st a = Py.Ok st' -> invariant self st') ->
  forall st st', invariant self st -> for_each body l st = Py.Ok st' -> invariant self st'.
Proof.
  intro Hbody. induction l as [|a l IH]; intros st st' Hinv Hf; cbn in Hf.
  - injection Hf as <-. exact Hinv.
  - destruct (body st a) as [st1|e] eqn:E; [|discriminate].
    cbn [Py.bind] in Hf. exact (IH _ _ (Hbody _ _ _ Hinv E) Hf).
Qed.

Lemma close_remaining_invariant (df : list Bar) (st st' : State) :
  invariant self st ->
  close_remaining self strategy df st = Py.Ok st' ->
  invariant self st'.
Proof.
  intros Hinv Hc. unfold close_remaining in Hc.
  destruct (positions st) as [|p ps] eqn:Hpos; [injection Hc as <-; exact Hinv|].
  destruct (rev df) as [|last_bar ?]; [injection Hc as <-; exact Hinv|].
  assert (Hall : Forall (fun p => Position.side p = "BUY"%string
                                  \/ Position.side p = "SELL"%string) (p :: ps)).
  { rewrite <- Hpos. apply (inv_sides _ _ Hinv). }
  clear Hpos. revert st Hinv Hc.
  induction Hall as [|q qs Hq Hqs IH]; intros st Hinv Hc; cbn [for_each] in Hc.
  - injection Hc as <-. exact Hinv.
  - destruct (close_position _ _ _ _ _ _ _) as [st1|e] eqn:E; [|discriminate].
    cbn [Py.bind] in Hc.
    apply close_position_invariant in E as [Hinv1 _]; [|exact Hq|exact Hinv].
    exact (IH _ Hinv1 Hc).
Qed.

Lemma run_backtest_state (df : list Bar) (initial : option Q) (pct : Q)
    (result : BacktestResult) :
  run_backtest self strategy df initial pct = Py.Ok result ->
  result = empty_result
  \/ exists st,
       invariant self st
       /\ trades result = result_trades st
       /\ total_trades result = List.length (local_trades st)
       /\ winning_trades result = wins st
       /\ losing_trades result = losses st
       /\ win_rate result
          = (if Nat.ltb 0 (List.length (local_trades st))
             then (if Nat.ltb 0 (List.length (local_trades st))
                   then of_nat (wins st) / of_nat (List.length (local_trades st)) * 100
                   else 0)
             else 0).
Proof.
  unfold run_backtest. destruct (Nat.ltb (List.length df) 50).
  - intro H. injection H as <-. left. reflexivity.
  - destruct (for_each _ _ _) as [st1|e] eqn:E1; [|discriminate].
    cbn [Py.bind].
    destruct (close_remaining _ _ _ _) as [st2|e] eqn:E2; [|discriminate].
    cbn [Py.bind]. intro H. injection H as <-. right. exists st2.
    split; [|repeat split].
    apply (close_remaining_invariant _ _ _) in E2; [exact E2|].
    apply (for_each_invariant _ _ (bar_step_invariant df pct)) in E1; [exact E1|].
    constructor; cbn; try reflexivity; constructor.
Qed.

End Backtest.

Section BacktestClaims.

Import Backtesting.

Lemma win_loss_partition (l : list Trade.t) :
  (List.length (filter is_win l) + List.length (filter is_loss l))%nat = List.length l.
Proof.
  induction l as [|x l IH]; [reflexivity|].
  cbn [filter]. rewrite is_loss_not_win.
  destruct (is_win x); cbn; lia.
Qed.

(** C5: every trade [run_backtest] records has net P&L
    (exit - entry) * quantity for a BUY side, the negation for SELL, minus a
    commission of (entry + exit) * quantity * commission rate; a single long
    trade with entry 100, exit 110, quantity 10 and rate 0.001 has gross P&L
    100, commission 2.1 and net P&L exactly 97.9, as the run of [buy_once] on
    [sample_frame] shows. *)
Theorem closed_trade_net_pnl :
  (forall self strategy df initial pct result,
     run_backtest self strategy df initial pct = Py.Ok result ->
     Forall (pnl_as_specified (commission self)) (trades result))
  /\ (exists result trade,
        run_backtest (mk 10000 (1 # 1000)) buy_once sample_frame None (1 # 10)
          = Py.Ok result
        /\ trades result = [trade]
        /\ Trade.side trade = "BUY"%string
        /\ Trade.entry_price trade == 100
        /\ Trade.exit_price trade == 110
        /\ Trade.quantity trade == 10
        /\ (Trade.exit_price trade - Trade.entry_price trade) * Trade.quantity trade == 100
        /\ (Trade.entry_price trade + Trade.exit_price trade) * Trade.quantity trade
             * (1 # 1000) == 21 # 10
        /\ Trade.pnl trade == 979 # 10).
Proof.
  split.
  - intros self strategy df initial pct result Hr.
    destruct (run_backtest_state _ _ _ _ _ _ Hr) as [->|(st & Hinv & Ht & _)].
    + constructor.
    + rewrite Ht, (inv_same _ _ Hinv). apply (inv_pnl _ _ Hinv).
  - eexists. eexists. split; [vm_compute; reflexivity|].
    split; [reflexivity|]. split; [reflexivity|].
    repeat split; vm_compute; reflexivity.
Qed.

(** The worked example of C5 on binary64 numbers: the commission is the
    number the literal 2.1 denotes, and the net P&L the number 97.9
    denotes. *)
Lemma net_pnl_example_binary64 :
  PrimFloat.eqb Binary64.example_commission_cost Binary64.literal_2_1 = true
  /\ PrimFloat.eqb Binary64.example_net_pnl Binary64.literal_97_9 = true.
Proof. split; vm_compute; reflexivity. Qed.

(** [closed_trade_net_pnl] on a run that records a trade. *)
Lemma closed_trade_net_pnl_witness :
  exists result,
    run_backtest (mk 10000 (1 # 1000)) buy_once sample_frame None (1 # 10)
      = Py.Ok result
    /\ List.length (trades result) = 1%nat
    /\ Forall (pnl_as_specified (1 # 1000)) (trades result).
Proof.
  destruct (run_backtest (mk 10000 (1 # 1000)) buy_once sample_frame None (1 # 10))
    as [result|e] eqn:E.
  - exists result. split; [reflexivity|]. split.
    + vm_compute in E. injection E as <-. reflexivity.
    + exact (proj1 closed_trade_net_pnl (mk 10000 (1 # 1000)) buy_once sample_frame
               None (1 # 10) result E).
  - vm_compute in E. discriminate E.
Defined.

(** C10: in a result of [run_backtest] every recorded trade is counted
    once, as a win when its net P&L is positive and as a loss when it is
    zero or negative, so that winning_trades + losing_trades = total_trades =
    the number of recorded trades, and win_rate = winning_trades /
    total_trades * 100 when there is a trade. *)
Theorem backtest_win_loss_counts
    (self : Backtesting.t) (strategy : Strategy) (df : list Bar)
    (initial : option Q) (pct : Q) (result : BacktestResult) :
  run_backtest self strategy df initial pct = Py.Ok result ->
  winning_trades result
    = List.length (filter (fun trade => Py.ltb 0 (Trade.pnl trade)) (trades result))
  /\ losing_trades result
     = List.length (filter (fun trade => Py.leb (Trade.pnl trade) 0) (trades result))
  /\ (winning_trades result + losing_trades result)%nat = total_trades result
  /\ total_trades result = List.length (trades result)
  /\ ((0 < total_trades result)%nat ->
      win_rate result
        == of_nat (winning_trades result) / of_nat (total_trades result) * 100).
Proof.
  intro Hr.
  destruct (run_backtest_state _ _ _ _ _ _ Hr)
    as [->|(st & Hinv & Ht & Hn & Hw & Hl & Hrate)].
  - cbn. repeat split; intro H; inversion H.
  - destruct Hinv as [_ _ Hsame Hwins Hlosses].
    rewrite Ht, Hn, Hw, Hl, Hrate, Hsame.
    split; [exact Hwins|]. split; [exact Hlosses|].
    split; [rewrite Hwins, Hlosses; apply win_loss_partition|].
    split; [reflexivity|].
    intro Hpos. apply Nat.ltb_lt in Hpos. rewrite Hpos. reflexivity.
Qed.

(** [backtest_win_loss_counts] on the run of [buy_once]: one trade, one
    win, a win rate of 100. *)
Lemma backtest_win_loss_counts_witness :
  exists result,
    run_backtest (mk 10000 (1 # 1000)) buy_once sample_frame None (1 # 10)
      = Py.Ok result
    /\ total_trades result = 1%nat
    /\ (winning_trades result + losing_trades result)%nat = total_trades result.
Proof.
  destruct (run_backtest (mk 10000 (1 # 1000)) buy_once sample_frame None (1 # 10))
    as [result|e] eqn:E.
  - exists result. split; [reflexivity|]. split.
    + vm_compute in E. injection E as <-. reflexivity.
    + apply (backtest_win_loss_counts (mk 10000 (1 # 1000)) buy_once sample_frame
               None (1 # 10) result E).
  - vm_compute in E. discriminate E.
Defined.

End BacktestClaims.

(** ** The lexical sentiment scorer (data_ingestion.py) *)

Section Sentiment.

Import NewsDataIngestion.

Lemma lower_app (a b : string) : lower (a ++ b) = (lower a ++ lower b)%string.
Proof.
  induction a as [|c a IH]; cbn; [reflexivity|]. rewrite IH. reflexivity.
Qed.

Lemma prefix_before_space (word a b : string) :
  spaceless word = true ->
  String.prefix word (a ++ String " " b) = String.prefix word a.
Proof.
  revert a. induction word as [|c word IH]; intros a Hw.
  - destruct a; reflexivity.
  - cbn in Hw. apply andb_true_iff in Hw as [Hc Hw].
    destruct a as [|x a]; cbn.
    + destruct (ascii_dec c " ") as [->|_]; [discriminate Hc|reflexivity].
    + destruct (ascii_dec c x); [apply IH, Hw|reflexivity].
Qed.

Lemma contains_around_space (word a b : string) :
  spaceless word = true ->
  contains word (a ++ String " " b) = contains word a || contains word b.
Proof.
  intro Hw. induction a as [|x a IH].
  - pose proof (prefix_before_space word "" b Hw) as E.
    cbn [append] in *. cbn [contains]. rewrite E.
    destruct (String.prefix word ""); reflexivity.
  - pose proof (prefix_before_space word (String x a) b Hw) as E.
    cbn [append] in *. cbn [contains]. rewrite E, IH.
    destruct (String.prefix word (String x a)); reflexivity.
Qed.

Lemma count_present_repeated (words : list string) (text : string) :
  forallb spaceless words = true ->
  count_present words (lower (text ++ String " " text))
  = count_present words (lower text).
Proof.
  intro Hw. unfold count_present. f_equal.
  apply filter_ext_in. intros word Hin.
  rewrite forallb_forall in Hw.
  rewrite lower_app. change (lower (String " " text)) with (String " " (lower text)).
  rewrite (contains_around_space _ _ _ (Hw _ Hin)). apply orb_diag.
Qed.

Lemma count_present_bound (words : list string) (text : string) :
  (count_present words text <= List.length words)%nat.
Proof. apply filter_length_le. Qed.

Lemma score_bounds (p n : nat) :
  let score := inject_Z (Z.of_nat p - Z.of_nat n)
               / inject_Z (Z.of_nat p + Z.of_nat n + 1) in
  -1 <= score /\ score <= 1.
Proof.
  cbv zeta.
  assert (Hd : 0 < inject_Z (Z.of_nat p + Z.of_nat n + 1)).
  { replace 0 with (inject_Z 0) by reflexivity. rewrite <- Zlt_Qlt. lia. }
  split.
  - apply Qle_shift_div_l; [exact Hd|].
    assert (E : -1 * inject_Z (Z.of_nat p + Z.of_nat n + 1)
                == inject_Z (- (Z.of_nat p + Z.of_nat n + 1)))
      by (rewrite inject_Z_opp; ring).
    rewrite E, <- Zle_Qle. lia.
  - apply Qle_shift_div_r; [exact Hd|].
    rewrite Qmult_1_l, <- Zle_Qle. lia.
Qed.

Lemma clip_inside (x : Q) : -1 <= x -> x <= 1 -> clip x (-1) 1 == x.
Proof.
  intros Hlo Hhi. unfold clip.
  rewrite (Q.max_l x (-1) Hlo). apply Q.min_l, Hhi.
Qed.

Lemma analyze_sentiment_unfold (text : string) :
  text <> ""%string ->
  let p := count_present positive_words (lower text) in
  let n := count_present negative_words (lower text) in
  _analyze_sentiment text
  == inject_Z (Z.of_nat p - Z.of_nat n) / inject_Z (Z.of_nat p + Z.of_nat n + 1).
Proof.
  intro Hne. cbv zeta. unfold _analyze_sentiment.
  apply String.eqb_neq in Hne. rewrite Hne.
  destruct (Nat.eqb _ 0 && Nat.eqb _ 0) eqn:E.
  - apply andb_true_iff in E as [Ep En].
    apply Nat.eqb_eq in Ep, En. rewrite Ep, En. reflexivity.
  - destruct (score_bounds (count_present positive_words (lower text))
                (count_present negative_words (lower text))) as [Hlo Hhi].
    apply clip_inside; assumption.
Qed.

(** The scorer does not count occurrences: on "profit profit" it finds one
    positive word and returns 1/2, where two occurrences would give 2/3. *)
Lemma sentiment_repetition_counts_once :
  _analyze_sentiment "profit profit" == 1 # 2
  /\ occurrence_sentiment "profit profit" == 2 # 3
  /\ ~ _analyze_sentiment "profit profit" == occurrence_sentiment "profit profit".
Proof.
  split; [vm_compute; reflexivity|]. split; [vm_compute; reflexivity|].
  intro H. vm_compute in H. discriminate H.
Qed.

(** C6 (amended): for every text the scorer returns (pos - neg)/(pos + neg + 1),
    which lies within [-1, 1] so that the clamp changes nothing, where pos
    and neg are the numbers of words of the positive and the negative word
    set that occur at least once in the lower-cased text (each word counts
    once however often it is repeated, so pos and neg are at most 9 and
    writing the text twice leaves the score unchanged); it returns 0 for the
    empty text and when both counts are zero. *)
Theorem sentiment_counts_words_present (text : string) :
  let pos := count_present positive_words (lower text) in
  let neg := count_present negative_words (lower text) in
  (text = ""%string -> _analyze_sentiment text = 0)
  /\ (pos = 0%nat -> neg = 0%nat -> _analyze_sentiment text = 0)
  /\ (text <> ""%string ->
      _analyze_sentiment text
      == inject_Z (Z.of_nat pos - Z.of_nat neg)
         / inject_Z (Z.of_nat pos + Z.of_nat neg + 1))
  /\ (-1 <= _analyze_sentiment text /\ _analyze_sentiment text <= 1)
  /\ (pos <= 9 /\ neg <= 9)%nat
  /\ _analyze_sentiment (text ++ String " " text) == _analyze_sentiment text.
Proof.
  cbv zeta. split; [|split; [|split; [|split; [|split]]]].
  - intros ->. reflexivity.
  - intros Hp Hn. unfold _analyze_sentiment.
    destruct (String.eqb text ""); [reflexivity|].
    rewrite Hp, Hn. reflexivity.
  - apply analyze_sentiment_unfold.
  - destruct (string_dec text "") as [->|Hne]; [split; discriminate|].
    rewrite (analyze_sentiment_unfold text Hne). apply score_bounds.
  - split; apply count_present_bound.
  - destruct (string_dec text "") as [->|Hne]; [vm_compute; reflexivity|].
    assert (Hne2 : (text ++ String " " text)%string <> ""%string)
      by (destruct text; [contradiction|discriminate]).
    rewrite (analyze_sentiment_unfold _ Hne2), (analyze_sentiment_unfold _ Hne).
    rewrite !count_present_repeated by reflexivity. reflexivity.
Qed.

(** [sentiment_counts_words_present] at work: the empty text and a text
    without any listed word score 0, and a headline with two positive words
    and one negative word scores (2 - 1)/(2 + 1 + 1). *)
Lemma sentiment_counts_words_present_witness :
  _analyze_sentiment "" = 0
  /\ _analyze_sentiment "Markets closed for the holiday" = 0
  /\ _analyze_sentiment "Stocks SURGE as growth beats forecasts; no crash" == 1 # 4.
Proof.
  split; [|split].
  - apply (proj1 (sentiment_counts_words_present "")). reflexivity.
  - apply (proj1 (proj2 (sentiment_counts_words_present
                           "Markets closed for the holiday"))); reflexivity.
  - rewrite (proj1 (proj2 (proj2 (sentiment_counts_words_present
               "Stocks SURGE as growth beats forecasts; no crash")))).
    + vm_compute. reflexivity.
    + discriminate.
Defined.

End Sentiment.

(** ** Breakout validation (chart_patterns.py) *)

Section Breakout64.

Import Floats ChartPatternDetector64.

Variable mean : list float -> float.

Lemma last_row64_app (volume_column : bool) (earlier : list Bar) (bar : Bar) :
  last_row (mkFrame volume_column (earlier ++ [bar])) = Py.Ok bar.
Proof. unfold last_row. cbn [rows]. rewrite rev_app_distr. reflexivity. Qed.

Lemma validate_breakout_true (earlier : list Bar) (bar : Bar)
    (level threshold : float) (direction : string) :
  let data := mkFrame true (earlier ++ [bar]) in
  let average := mean (map volume (ChartPatterns.tail 20 (rows data))) in
  validate_breakout mean data level direction threshold = Py.Ok true
  <-> (average * threshold <=? volume bar)%float = true
      /\ (if String.eqb direction "down"
          then (close bar <? level * (995 / 1000))%float
          else (level * (1005 / 1000) <? close bar)%float) = true.
Proof.
  cbv zeta. unfold validate_breakout. cbn [has_volume negb].
  rewrite last_row64_app. cbn [Py.bind].
  split.
  - intro H. injection H as H. apply andb_true_iff in H. exact H.
  - intros H. f_equal. apply andb_true_iff. exact H.
Qed.

(** C7: on binary64 numbers and a frame with a volume column,
    [validate_breakout] (with its default threshold) returns true exactly when
    the last bar's volume is at least the mean volume of the trailing 20 bars
    times 1.5 and the last close is above level * 1.005 for 'up', below
    level * 0.995 for 'down', the products being the float ones; with a mean
    of 500, a level of 100 and a close 1% beyond it, a volume of 1.4 times the
    mean is rejected and one of 1.6 times is accepted; without a volume column
    the answer is always true. *)
Theorem validate_breakout_volume_and_price
    (earlier : list Bar) (bar : Bar) (level : float) :
  let data := mkFrame true (earlier ++ [bar]) in
  let average := mean (map volume (ChartPatterns.tail 20 (rows data))) in
  let validate := fun direction =>
    validate_breakout mean data level direction default_volume_threshold in
  (validate "up"%string = Py.Ok true
   <-> (average * (3 / 2) <=? volume bar)%float = true
       /\ (level * (1005 / 1000) <? close bar)%float = true)
  /\ (validate "down"%string = Py.Ok true
      <-> (average * (3 / 2) <=? volume bar)%float = true
          /\ (close bar <? level * (995 / 1000))%float = true)
  /\ (forall direction, exists answer, validate direction = Py.Ok answer)
  /\ (average = 500%float -> level = 100%float ->
      close bar = (100 * (101 / 100))%float ->
      (volume bar = (500 * (14 / 10))%float -> validate "up"%string = Py.Ok false)
      /\ (volume bar = (500 * (16 / 10))%float -> validate "up"%string = Py.Ok true))
  /\ (average = 500%float -> level = 100%float ->
      close bar = (100 * (99 / 100))%float ->
      (volume bar = (500 * (14 / 10))%float -> validate "down"%string = Py.Ok false)
      /\ (volume bar = (500 * (16 / 10))%float -> validate "down"%string = Py.Ok true))
  /\ (forall rows direction threshold,
        validate_breakout mean (mkFrame false rows) level direction threshold
        = Py.Ok true).
Proof.
  cbv zeta.
  pose proof (validate_breakout_true earlier bar level default_volume_threshold)
    as Hiff.
  cbv zeta in Hiff. unfold default_volume_threshold in *.
  assert (Hcases : forall direction,
            validate_breakout mean (mkFrame true (earlier ++ [bar])) level direction
              (3 / 2)%float
            = Py.Ok ((mean (map volume
                              (ChartPatterns.tail 20
                                 (rows (mkFrame true (earlier ++ [bar])))))
                      * (3 / 2) <=? volume bar)%float
                     && (if String.eqb direction "down"
                         then (close bar <? level * (995 / 1000))%float
                         else (level * (1005 / 1000) <? close bar)%float))).
  { intro direction. unfold validate_breakout. cbn [has_volume negb].
    rewrite last_row64_app. reflexivity. }
  split; [|split; [|split; [|split; [|split]]]].
  - exact (Hiff "up"%string).
  - exact (Hiff "down"%string).
  - intro direction. rewrite Hcases. eexists. reflexivity.
  - intros Ha -> Hc. split; intros Hv; rewrite Hcases, Ha, Hv, Hc;
      vm_compute; reflexivity.
  - intros Ha -> Hc. split; intros Hv; rewrite Hcases, Ha, Hv, Hc;
      vm_compute; reflexivity.
  - intros rows direction threshold. reflexivity.
Qed.

End Breakout64.

Section Breakout64Examples.

Import Floats ChartPatternDetector64.

(** [validate_breakout_volume_and_price] on frames of 25 bars whose last 20
    volumes have the mean 500, five earlier bars of volume 1000000 lying
    outside the window: at a level of 100, a close at 101 on a volume of 700
    is rejected and on a volume of 800 accepted; a close at 100.5, which the
    float product 100 * 1.005 = 100.49999999999999 lies below, is accepted on
    a volume of 800. *)
Lemma validate_breakout_volume_and_price_witness :
  validate_breakout Float64.mean_in_order
    (busy_then_quiet 300 (mkBar 24 100 101 100 101 700))
    100 "up" default_volume_threshold = Py.Ok false
  /\ validate_breakout Float64.mean_in_order
       (busy_then_quiet 200 (mkBar 24 100 101 100 101 800))
       100 "up" default_volume_threshold = Py.Ok true
  /\ validate_breakout Float64.mean_in_order
       (busy_then_quiet 200 (mkBar 24 100 100.5 100 100.5 800))
       100 "up" default_volume_threshold = Py.Ok true.
Proof.
  split; [|split].
  - destruct (validate_breakout_volume_and_price Float64.mean_in_order
                (map (fun i => flat_bar i 100 1000000) (seq 0 5)
                 ++ map (fun i => flat_bar i 100 500) (seq 5 18)
                 ++ [flat_bar 23 100 300])
                (mkBar 24 100 101 100 101 700) 100)
      as (_ & _ & _ & Hup & _).
    destruct Hup as [Hrejected _]; [vm_compute; reflexivity ..|].
    unfold busy_then_quiet.
    replace (map (fun i => flat_bar i 100 1000000) (seq 0 5)
             ++ map (fun i => flat_bar i 100 500) (seq 5 18)
             ++ [flat_bar 23 100 300; mkBar 24 100 101 100 101 700])
      with ((map (fun i => flat_bar i 100 1000000) (seq 0 5)
             ++ map (fun i => flat_bar i 100 500) (seq 5 18)
             ++ [flat_bar 23 100 300]) ++ [mkBar 24 100 101 100 101 700])
      by reflexivity.
    apply Hrejected. vm_compute. reflexivity.
  - destruct (validate_breakout_volume_and_price Float64.mean_in_order
                (map (fun i => flat_bar i 100 1000000) (seq 0 5)
                 ++ map (fun i => flat_bar i 100 500) (seq 5 18)
                 ++ [flat_bar 23 100 200])
                (mkBar 24 100 101 100 101 800) 100)
      as (_ & _ & _ & Hup & _).
    destruct Hup as [_ Haccepted]; [vm_compute; reflexivity ..|].
    apply Haccepted. vm_compute. reflexivity.
  - apply (proj1 (validate_breakout_volume_and_price Float64.mean_in_order
                (map (fun i => flat_bar i 100 1000000) (seq 0 5)
                 ++ map (fun i => flat_bar i 100 500) (seq 5 18)
                 ++ [flat_bar 23 100 200])
                (mkBar 24 100 100.5 100 100.5 800) 100)).
    split; vm_compute; reflexivity.
Defined.

End Breakout64Examples.

(** ** The chart-pattern strategy (chart_patterns.py) *)

Section ChartStrategy.

Import Backtesting ChartPatterns.

Lemma strategy_lacks_min_pattern_strength (pattern_types : option (list string)) :
  number_attribute (ChartPatternStrategy_init pattern_types) "min_pattern_strength"
  = Py.Raise (Py.AttributeError "min_pattern_strength").
Proof. reflexivity. Qed.

Lemma detector_has_min_pattern_strength :
  number_attribute ChartPatternDetector_init "min_pattern_strength" = Py.Ok (5 # 10).
Proof. reflexivity. Qed.

Lemma valid_patterns_raises (e : Py.exn) (patterns : list Pattern.t) :
  existsb confirmed patterns = true ->
  valid_patterns (Py.Raise e) patterns = Py.Raise e.
Proof.
  induction patterns as [|p patterns IH]; cbn [existsb valid_patterns];
    [discriminate|].
  unfold confirmed at 1.
  destruct (or_default (Pattern.breakout p) false); cbn [negb andb orb];
    [|exact IH].
  destruct (or_default (Pattern.is_fake p) false); cbn [negb andb orb];
    [exact IH|reflexivity].
Qed.


Lemma last_row_of_long_frame (data : DataFrame) :
  (50 <= List.length (rows data))%nat -> exists bar, last_row data = Py.Ok bar.
Proof.
  intro H. unfold last_row.
  destruct (rev (rows data)) as [|bar others] eqn:E.
  - apply (f_equal (@List.length Bar)) in E. rewrite length_rev in E.
    cbn in E. lia.
  - exists bar. reflexivity.
Qed.

(** Whenever the detectors report a confirmed pattern that is not fake, the
    strategy raises instead of answering. *)
Lemma generate_signal_raises_when_confirmed
    (pattern_types : option (list string)) (data : DataFrame)
    (patterns : list Pattern.t) :
  (50 <= List.length (rows data))%nat ->
  detect_all_patterns data = Py.Ok patterns ->
  existsb confirmed patterns = true ->
  generate_signal (ChartPatternStrategy_init pattern_types) data
  = Py.Raise (Py.AttributeError "min_pattern_strength").
Proof.
  intros Hlen Hdetect Hconfirmed.
  unfold generate_signal, generate_signal_with.
  rewrite strategy_lacks_min_pattern_strength.
  assert (Hlt : Nat.ltb (List.length (rows data)) 50 = false)
    by (apply Nat.ltb_ge; exact Hlen).
  rewrite Hlt, Hdetect. cbn [Py.bind].
  destruct (last_row_of_long_frame data Hlen) as [bar ->]. cbn [Py.bind].
  destruct patterns as [|p patterns]; [discriminate Hconfirmed|].
  rewrite (valid_patterns_raises _ _ Hconfirmed). reflexivity.
Qed.


(** C2 fails on the code: on a frame of 50 bars, 49 of them flat at 100 and
    the last one falling to 90, the detectors report a Double Top, a
    confirmed breakout that is not fake, first; [generate_signal] then reads
    [self.min_pattern_strength], an attribute that only the detector object
    has, and raises [AttributeError] where the claim promises a SELL signal
    with the pattern's resistance and target as stop-loss and take-profit,
    the signal the same body returns once the threshold is read from the
    detector. *)
Theorem generate_signal_raises_on_confirmed_pattern :
  List.length (rows flat_then_drop) = 50%nat
  /\ (exists first others,
        detect_all_patterns flat_then_drop = Py.Ok (first :: others)
        /\ Pattern.pattern first = "Double Top"%string
        /\ Pattern.type first = "Bearish"%string
        /\ Pattern.breakout first = Some true
        /\ Pattern.is_fake first = None)
  /\ Py.getattr (ChartPatternStrategy_init None) "min_pattern_strength"
     = Py.Raise (Py.AttributeError "min_pattern_strength")
  /\ generate_signal (ChartPatternStrategy_init None) flat_then_drop
     = Py.Raise (Py.AttributeError "min_pattern_strength")
  /\ (exists signal,
        generate_signal_with
          (number_attribute ChartPatternDetector_init "min_pattern_strength")
          flat_then_drop = Py.Ok signal
        /\ ChartSignal.action signal = "SELL"%string
        /\ ChartSignal.pattern signal = Some "Double Top"%string
        /\ ChartSignal.stop_loss signal = Some 100
        /\ ChartSignal.take_profit signal = Some 100).
Proof.
  split; [reflexivity|]. split; [|split; [reflexivity|split]].
  - eexists. eexists. split; [vm_compute; reflexivity|]. repeat split.
  - vm_compute. reflexivity.
  - eexists. split; [vm_compute; reflexivity|]. repeat split.
Qed.

End ChartStrategy.

(** * Further properties *)

(** ** Rounding *)

Lemma round_half_even_inject (z : Z) : Py.round_half_even (inject_Z z) = z.
Proof.
  unfold Py.round_half_even. rewrite Qfloor_Z.
  destruct (Qcompare_spec (inject_Z z - inject_Z z) (1 # 2)) as [H|H|H];
    [exfalso; lra|reflexivity|exfalso; lra].
Qed.

Lemma round_half_even_error (x : Q) :
  x - (1 # 2) <= inject_Z (Py.round_half_even x)
  /\ inject_Z (Py.round_half_even x) <= x + (1 # 2).
Proof.
  pose proof (Qfloor_le x) as Hlo. pose proof (Qlt_floor x) as Hhi.
  rewrite inject_Z_plus in Hhi. change (inject_Z 1) with 1 in Hhi.
  unfold Py.round_half_even.
  destruct (Qcompare_spec (x - inject_Z (Qfloor x)) (1 # 2)) as [H|H|H].
  - destruct (Z.even (Qfloor x)).
    + split; lra.
    + rewrite inject_Z_plus. change (inject_Z 1) with 1. split; lra.
  - split; lra.
  - rewrite inject_Z_plus. change (inject_Z 1) with 1. split; lra.
Qed.

(** Rounding to 8 decimals moves a number by at most half a unit of the
    eighth decimal. *)
Lemma round_8_error (x : Q) :
  x - (1 # 200000000) <= Py.round x 8 /\ Py.round x 8 <= x + (1 # 200000000).
Proof.
  unfold Py.round. change (inject_Z (10 ^ Z.of_nat 8)) with 100000000.
  destruct (round_half_even_error (x * 100000000)) as [Hlo Hhi].
  set (r := inject_Z (Py.round_half_even (x * 100000000))) in *.
  split.
  - apply Qle_shift_div_l; [reflexivity|]. lra.
  - apply Qle_shift_div_r; [reflexivity|]. lra.
Qed.

Lemma round_idempotent (x : Q) (n : nat) : Py.round (Py.round x n) n == Py.round x n.
Proof.
  unfold Py.round at 1.
  pose proof (scale_pos n) as Hs.
  set (s := inject_Z (10 ^ Z.of_nat n)) in *.
  assert (E : Py.round x n * s == inject_Z (Py.round_half_even (x * s))).
  { unfold Py.round. fold s. field. lra. }
  rewrite (round_half_even_comp _ _ E), round_half_even_inject.
  reflexivity.
Qed.

Lemma round_nonneg (x : Q) (n : nat) : 0 <= x -> 0 <= Py.round x n.
Proof. intro H. rewrite <- (round_zero n). apply round_mono, H. Qed.

Lemma round_nonpos (x : Q) (n : nat) : x <= 0 -> Py.round x n <= 0.
Proof. intro H. rewrite <- (round_zero n). apply round_mono, H. Qed.

Lemma min2_le_r (a b : Q) : Py.min2 a b <= b.
Proof. rewrite min2_spec. apply Q.le_min_r. Qed.

Lemma min2_le_l (a b : Q) : Py.min2 a b <= a.
Proof. rewrite min2_spec. apply Q.le_min_l. Qed.

Lemma max2_spec (a b : Q) : Py.max2 a b == Qmax a b.
Proof.
  unfold Py.max2. destruct (Py.ltb a b) eqn:E.
  - apply ltb_spec in E. symmetry. apply Q.max_r. lra.
  - apply ltb_false in E. symmetry. apply Q.max_l. exact E.
Qed.

Lemma max2_ge_l (a b : Q) : a <= Py.max2 a b.
Proof. rewrite max2_spec. apply Q.le_max_l. Qed.

Lemma max2_ge_r (a b : Q) : b <= Py.max2 a b.
Proof. rewrite max2_spec. apply Q.le_max_r. Qed.

(** ** Risk limits (risk_manager.py) *)

Section RiskLimits.

Import RiskControls.

(** X1: the risk-based position size is never negative; when it is not 0 it
    is at least 0.001 and at most the configured maximum rounded to 8
    decimals.  The legacy size, too, never exceeds that rounded maximum. *)
Theorem position_size_within_cap
    (self : RiskManager.t) (balance entry stop risk_percent : Q)
    (book : RiskControls.t) (today : Z) :
  let size := RiskManager.calculate_position_size self balance entry stop risk_percent in
  0 <= size
  /\ (size == 0
      \/ (1 # 1000 <= size
          /\ size <= Py.round (RiskManager.max_position_size self) 8))
  /\ fst (calculate_position_size_legacy book today balance risk_percent)
     <= Py.round (RiskManager.max_position_size (limits book)) 8.
Proof.
  cbv zeta. unfold RiskManager.calculate_position_size.
  split; [|split].
  - destruct (Py.leb entry stop); [lra|].
    destruct (Py.ltb _ (1 # 1000)) eqn:E; [lra|].
    apply ltb_false in E. apply round_nonneg. lra.
  - destruct (Py.leb entry stop); [left; reflexivity|].
    destruct (Py.ltb _ (1 # 1000)) eqn:E; [left; reflexivity|].
    apply ltb_false in E. right. split.
    + assert (H : Py.round (1 # 1000) 8 == 1 # 1000) by (vm_compute; reflexivity).
      rewrite <- H. apply round_mono, E.
    + apply round_mono, min2_le_r.
  - unfold calculate_position_size_legacy. cbn [fst].
    apply Qle_trans with
      (Py.round (RiskManager.max_position_size (limits (reset_daily_stats book today))) 8).
    + apply round_mono, min2_le_r.
    + unfold reset_daily_stats. destruct (Z.ltb _ _); cbn; apply Qle_refl.
Qed.

Lemma upper_buy_cases (side : string) :
  String.eqb (upper side) "BUY" = true \/ String.eqb (upper side) "BUY" = false.
Proof. destruct (String.eqb (upper side) "BUY"); auto. Qed.

(** X2: for a non-negative entry price and non-negative percentages, the
    stop-loss and take-profit levels bracket the entry price rounded to 8
    decimals: stop <= entry <= target for BUY (in any letter case), target <=
    entry <= stop for every other side. *)
Theorem stop_and_target_bracket_entry (self : RiskControls.t) (entry : Q) (side : string) :
  0 <= entry ->
  0 <= RiskManager.stop_loss_percent (limits self) ->
  0 <= RiskManager.take_profit_percent (limits self) ->
  if String.eqb (upper side) "BUY"
  then calculate_stop_loss self entry side <= Py.round entry 8
       /\ Py.round entry 8 <= calculate_take_profit self entry side
  else calculate_take_profit self entry side <= Py.round entry 8
       /\ Py.round entry 8 <= calculate_stop_loss self entry side.
Proof.
  intros He Hs Ht. unfold calculate_stop_loss, calculate_take_profit.
  set (sl := RiskManager.stop_loss_percent (limits self)) in *.
  set (tp := RiskManager.take_profit_percent (limits self)) in *.
  assert (Hsl : 0 <= entry * (sl / 100)).
  { apply Qmult_le_0_compat; [exact He|]. apply Qle_shift_div_l; [reflexivity|lra]. }
  assert (Htp : 0 <= entry * (tp / 100)).
  { apply Qmult_le_0_compat; [exact He|]. apply Qle_shift_div_l; [reflexivity|lra]. }
  destruct (String.eqb (upper side) "BUY"); split; apply round_mono;
    ring_simplify; lra.
Qed.

(** [stop_and_target_bracket_entry] with the default 2% and 3%: a "buy"
    at 100 has its stop at or below 100 and its target at or above. *)
Lemma stop_and_target_bracket_entry_witness :
  calculate_stop_loss (init 100 (1 # 100) 2 3 0) 100 "buy" <= Py.round 100 8
  /\ Py.round 100 8 <= calculate_take_profit (init 100 (1 # 100) 2 3 0) 100 "buy".
Proof.
  apply (stop_and_target_bracket_entry (init 100 (1 # 100) 2 3 0) 100 "buy");
    apply Qle_bool_iff; reflexivity.
Defined.

End RiskLimits.


Section DailyLimit64.

Import Floats RiskManager64.

Lemma record_pnls64_spec (pnls : list float) (self : t) :
  daily_pnl (record_pnls self pnls) = fold_left PrimFloat.add pnls (daily_pnl self)
  /\ max_daily_loss (record_pnls self pnls) = max_daily_loss self
  /\ daily_reset_date (record_pnls self pnls) = daily_reset_date self.
Proof.
  unfold record_pnls. revert self.
  induction pnls as [|pnl pnls IH]; intro self; cbn [fold_left].
  - repeat split.
  - destruct (IH (update_daily_pnl self pnl)) as (H1 & H2 & H3).
    rewrite H1, H2, H3. repeat split.
Qed.

(** X3: the daily loss limit on binary64 numbers.  After any run of
    [update_daily_pnl] calls the counter is what the float additions of the
    recorded amounts, in order, give.  On the day of the last reset
    [should_place_trade] allows a trade exactly when that counter is not at or
    below -max_daily_loss and the balance is not below 10; once the date has
    advanced it first resets the counter to 0, so that earlier losses no
    longer block trading. *)
Theorem daily_loss_limit (self : t) (pnls : list float) (today : Z) (balance : float) :
  let book := record_pnls self pnls in
  let counter := fold_left PrimFloat.add pnls (daily_pnl self) in
  let limit := max_daily_loss self in
  daily_pnl book = counter
  /\ ((today <= daily_reset_date self)%Z ->
      (fst (should_place_trade book today balance) = true
       <-> (counter <=? - limit)%float = false /\ (balance <? 10)%float = false)
      /\ snd (should_place_trade book today balance) = book)
  /\ ((daily_reset_date self < today)%Z ->
      (fst (should_place_trade book today balance) = true
       <-> (0 <=? - limit)%float = false /\ (balance <? 10)%float = false)
      /\ daily_pnl (snd (should_place_trade book today balance)) = 0%float
      /\ daily_reset_date (snd (should_place_trade book today balance)) = today).
Proof.
  cbv zeta. destruct (record_pnls64_spec pnls self) as (Hpnl & Hmax & Hdate).
  split; [exact Hpnl|]. unfold should_place_trade, reset_daily_stats.
  rewrite Hdate. split.
  - intro Hday. apply Z.ltb_ge in Hday. rewrite Hday, Hpnl, Hmax.
    destruct (_ <=? _)%float; [split; [split; [discriminate|intros []; discriminate]|reflexivity]|].
    destruct (balance <? 10)%float;
      (split; [split; [try discriminate; auto|intros []; try discriminate; auto]|reflexivity]).
  - intro Hday. apply Z.ltb_lt in Hday. rewrite Hday. cbn [daily_pnl max_daily_loss].
    rewrite Hmax.
    destruct (0 <=? _)%float; [split; [split; [discriminate|intros []; discriminate]|split; reflexivity]|].
    destruct (balance <? 10)%float;
      (split; [split; [try discriminate; auto|intros []; try discriminate; auto]|split; reflexivity]).
Qed.

(** [daily_loss_limit] on ten losses of 0.1 under a limit of 1: the float
    counter is -0.9999999999999999, above -1, and on the same day a trade is
    still allowed; on the next day the counter is 0 again. *)
Lemma daily_loss_limit_witness :
  daily_pnl (record_pnls (mk 1 1000 2 3 0 0) (repeat (- (1 / 10))%float 10))
  = (- (1 - 1 / 9007199254740992))%float
  /\ fst (should_place_trade
            (record_pnls (mk 1 1000 2 3 0 0) (repeat (- (1 / 10))%float 10))
            0 1000) = true
  /\ daily_pnl (snd (should_place_trade
                       (record_pnls (mk 1 1000 2 3 0 0) (repeat (- (1 / 10))%float 10))
                       1 1000)) = 0%float.
Proof.
  pose proof (daily_loss_limit (mk 1 1000 2 3 0 0) (repeat (- (1 / 10))%float 10))
    as H. cbv zeta in H.
  split; [|split].
  - rewrite (proj1 (H 0%Z 1000%float)). vm_compute. reflexivity.
  - destruct (H 0%Z 1000%float) as (_ & Hsame & _).
    destruct Hsame as [Hallowed _]; [vm_compute; discriminate|].
    apply Hallowed. split; vm_compute; reflexivity.
  - destruct (H 1%Z 1000%float) as (_ & _ & Hnext).
    destruct Hnext as (_ & Hzero & _); [reflexivity|]. exact Hzero.
Defined.

End DailyLimit64.

Section RiskBook.

Import RiskControls.

Lemma filter_other_id_keep (position_id : string) (book : list Position) :
  Forall (fun p => id p <> Some position_id) book ->
  filter (other_id position_id) book = book.
Proof.
  induction 1 as [|p book Hp _ IH]; [reflexivity|].
  cbn [filter]. rewrite IH. unfold other_id.
  destruct (id p) as [i|]; [|reflexivity].
  destruct (String.eqb i position_id) eqn:E; [|reflexivity].
  apply String.eqb_eq in E. subst i. contradiction.
Qed.

(** X4: [add_position] registers a position exactly when it has an entry
    price and a side; the registered copy carries the stop-loss and
    take-profit levels of the manager, and [remove_position] with its id
    gives back the book as it was, provided no other open position shares
    that id. *)
Theorem add_then_remove_position
    (self : t) (now : Z) (position : Position) (position_id : string) :
  id position = Some position_id ->
  Forall (fun p => id p <> Some position_id) (positions self) ->
  (forall book, add_position self now position = Some book ->
     (exists entry position_side added,
        entry_price position = Some entry /\ side position = Some position_side
        /\ get_open_positions book = get_open_positions self ++ [added]
        /\ stop_loss added = Some (calculate_stop_loss self entry position_side)
        /\ take_profit added = Some (calculate_take_profit self entry position_side))
     /\ get_open_positions (remove_position book position_id) = get_open_positions self
     /\ limits (remove_position book position_id) = limits self)
  /\ (add_position self now position = None
      <-> entry_price position = None \/ side position = None).
Proof.
  intros Hid Hfresh. unfold add_position. split.
  - intros book Hadd.
    destruct (entry_price position) as [entry|]; [|discriminate].
    destruct (side position) as [position_side|]; [|discriminate].
    injection Hadd as <-. split; [|split].
    + eexists. eexists. eexists. repeat split.
    + unfold remove_position, get_open_positions. cbn [positions].
      rewrite filter_app, (filter_other_id_keep _ _ Hfresh).
      cbn [filter]. unfold other_id at 1. cbn [id]. rewrite Hid, String.eqb_refl.
      cbn. apply app_nil_r.
    + reflexivity.
  - destruct (entry_price position); destruct (side position); split;
      try discriminate; auto; intros [H|H]; discriminate H.
Qed.

(** [add_then_remove_position] on an empty book: a BUY at 100 is registered
    with its stop at 98 and removed again by its id. *)
Lemma add_then_remove_position_witness :
  exists book,
    add_position (init 100 (1 # 100) 2 3 7) 0
      (mkPosition (Some "42"%string) None (Some "BUY"%string) None (Some 100)
         None None None) = Some book
    /\ get_open_positions (remove_position book "42") = [].
Proof.
  destruct (add_position (init 100 (1 # 100) 2 3 7) 0
              (mkPosition (Some "42"%string) None (Some "BUY"%string) None (Some 100)
                 None None None)) as [book|] eqn:E; [|discriminate E].
  exists book. split; [reflexivity|].
  apply (proj1 (add_then_remove_position (init 100 (1 # 100) 2 3 7) 0
                  (mkPosition (Some "42"%string) None (Some "BUY"%string) None (Some 100)
                     None None None) "42" eq_refl (Forall_nil _)) book E).
Defined.

End RiskBook.

(** ** The life of a trade (trade_setup.py) *)

Section Lifecycle.

Import TradeSetup TradeLifecycle.

Lemma same_plan_refl (trade : Trade) : same_plan trade trade.
Proof. repeat split. Qed.

Lemma transition_refl (s : TradeStatus) : transition s s.
Proof. left. reflexivity. Qed.

Lemma evolves_refl (trade : Trade) : evolves trade trade.
Proof.
  split; [apply same_plan_refl|]. split; [apply transition_refl|reflexivity].
Qed.

Lemma status_eqb_eq (a b : TradeStatus) : TradeStatus_eqb a b = true <-> a = b.
Proof. destruct a, b; cbn; split; congruence. Qed.

Lemma calculate_pnl_keeps (trade : Trade) (price : option Q) :
  same_plan trade (snd (_calculate_pnl trade price))
  /\ status (snd (_calculate_pnl trade price)) = status trade
  /\ entry_price (snd (_calculate_pnl trade price)) = entry_price trade
  /\ exit_price (snd (_calculate_pnl trade price)) = exit_price trade.
Proof.
  unfold _calculate_pnl.
  destruct (match price with Some p => Some p | None => exit_price trade end);
    [|repeat split].
  destruct (Py.div _ _); repeat split.
Qed.

Lemma Forall2_same {A : Type} (R : A -> A -> Prop) (l : list A) :
  (forall x, R x x) -> Forall2 R l l.
Proof. intro H. induction l; constructor; auto. Qed.

Lemma store_Forall2 {A : Type} (R : A -> A -> Prop) (n : nat) (old new : A) (l : list A) :
  (forall x, R x x) -> nth_error l n = Some old -> R old new ->
  Forall2 R l (store n new l).
Proof.
  intros Hrefl. revert n.
  induction l as [|x l IH]; intros [|n] Hn HR; cbn in *; try discriminate.
  - injection Hn as ->. constructor; [exact HR|].
    apply Forall2_same, Hrefl.
  - constructor; [apply Hrefl|]. apply IH; assumption.
Qed.

Lemma not_closed_of_status (trade : Trade) :
  status trade = PENDING \/ status trade = ACTIVE -> is_closed trade = false.
Proof. unfold is_closed. intros [-> | ->]; reflexivity. Qed.

Lemma create_trade_pending (self : t) (now : Z) (sym : string) (side : PositionType)
    (entry sl target : Q) (qty : option Q) (risk : Q) (strat : string)
    (ind : list (string * Q)) (trade : Trade) (ledger : t) :
  create_trade self now sym side entry sl target qty risk strat ind
    = (Py.Ok trade, ledger) ->
  status trade = PENDING.
Proof.
  unfold create_trade.
  destruct (validate_prices side entry sl target) as [[]|e]; [|discriminate].
  cbn [Py.bind].
  destruct (if Py.ltb 0 _ then _ else _) as [rr|e]; [|discriminate].
  cbn [Py.bind].
  destruct (Py.div (sl - entry) entry) as [r1|e]; [|discriminate].
  cbn [Py.bind].
  destruct (Py.div (target - entry) entry) as [r2|e]; [|discriminate].
  cbn [Py.bind]. intro H. injection H as <- _. reflexivity.
Qed.

(** What a call other than [create_trade] does to the trades. *)
Lemma update_evolves (self : t) (call : Call) :
  match call with call_create_trade _ _ _ _ _ _ _ _ _ _ => False | _ => True end ->
  Forall2 evolves (trades self) (trades (step self call)).
Proof.
  intro Hcall.
  assert (Hsame : Forall2 evolves (trades self) (trades self))
    by (apply Forall2_same, evolves_refl).
  assert (Hhit : forall now trade_id ref trade new_status price answer,
            deref self ref = Some trade -> status trade = ACTIVE ->
            new_status = SL_HIT \/ new_status = TARGET_HIT ->
            Forall2 evolves (trades self)
              (trades (snd (hit self now trade_id ref trade new_status price answer)))).
  { intros now trade_id ref trade new_status price answer Hd Hs Hnew. unfold hit.
    destruct (calculate_pnl_keeps
                (with_exit now (Py.round price 8) (with_status new_status trade)) None)
      as (Hplan & Hst & _).
    assert (He : evolves trade
                   (snd (_calculate_pnl
                           (with_exit now (Py.round price 8)
                              (with_status new_status trade)) None))).
    { split; [exact Hplan|]. split.
      - rewrite Hst, Hs. cbn. right. right. split; [reflexivity|].
        destruct Hnew as [-> | ->]; auto.
      - rewrite (not_closed_of_status trade) by auto. discriminate. }
    destruct (_calculate_pnl _ None) as [[u|e] trade']; cbn in *;
      apply (store_Forall2 evolves ref trade); auto using evolves_refl. }
  destruct call as [balance|now sym side entry sl target qty risk strat ind
                   |now trade_id price|now trade_id price|now trade_id price];
    cbn [step]; [exact Hsame|contradiction| | |].
  - unfold activate_trade.
    destruct (get_trade self trade_id) as [ref|]; [|exact Hsame].
    destruct (deref self ref) as [trade|] eqn:Hd; [|exact Hsame].
    destruct (TradeStatus_eqb (status trade) PENDING) eqn:Hs; [|exact Hsame].
    apply status_eqb_eq in Hs. cbn [negb snd trades].
    apply (store_Forall2 evolves ref trade); auto using evolves_refl.
    split; [|split].
    + destruct (truthy price); repeat split.
    + right. left. split; [exact Hs|left].
      destruct (truthy price); reflexivity.
    + rewrite (not_closed_of_status trade) by auto. discriminate.
  - unfold check_trade.
    destruct (get_trade self trade_id) as [ref|]; [|exact Hsame].
    destruct (deref self ref) as [trade|] eqn:Hd; [|exact Hsame].
    destruct (TradeStatus_eqb (status trade) ACTIVE) eqn:Hs; [|exact Hsame].
    apply status_eqb_eq in Hs. cbn [negb].
    destruct (match position_type trade with LONG => _ | SHORT => _ end)
      as [is_sl is_target].
    destruct is_sl; [apply Hhit; auto|].
    destruct is_target; [apply Hhit; auto|].
    destruct (calculate_pnl_keeps trade (Some price)) as (Hplan & Hst & _).
    assert (He : evolves trade (snd (_calculate_pnl trade (Some price)))).
    { split; [exact Hplan|]. split; [rewrite Hst; left; reflexivity|].
      rewrite (not_closed_of_status trade) by auto. discriminate. }
    destruct (_calculate_pnl trade (Some price)) as [[u|e] trade']; cbn in *;
      apply (store_Forall2 evolves ref trade); auto using evolves_refl.
  - unfold close_trade.
    destruct (get_trade self trade_id) as [ref|]; [|exact Hsame].
    destruct (deref self ref) as [trade|] eqn:Hd; [|exact Hsame].
    destruct (TradeStatus_eqb (status trade) ACTIVE
              || TradeStatus_eqb (status trade) PENDING) eqn:Hs; [|exact Hsame].
    cbn [negb].
    assert (Hst : status trade = PENDING \/ status trade = ACTIVE).
    { apply orb_true_iff in Hs as [Hs|Hs]; apply status_eqb_eq in Hs; auto. }
    destruct (calculate_pnl_keeps
                (with_exit now (Py.round price 8) (with_status CLOSED trade)) None)
      as (Hplan & Hst' & _).
    assert (He : evolves trade
                   (snd (_calculate_pnl
                           (with_exit now (Py.round price 8)
                              (with_status CLOSED trade)) None))).
    { split; [exact Hplan|]. split.
      - rewrite Hst'. cbn. right.
        destruct Hst as [-> | ->]; [left|right]; auto.
      - rewrite (not_closed_of_status trade) by auto. discriminate. }
    destruct (_calculate_pnl _ None) as [[u|e] trade']; cbn in *;
      apply (store_Forall2 evolves ref trade); auto using evolves_refl.
Qed.

(** X5: a call never removes a trade and changes no trade beyond its
    allowed life: the ledger after a call is the ledger before, trade by
    trade, followed by at most one new trade; each old trade keeps its id,
    symbol, side, stop, target, quantity, risk percent, strategy and creation
    time; its status stays or moves PENDING -> ACTIVE, PENDING -> CLOSED or
    ACTIVE -> SL_HIT / TARGET_HIT / CLOSED; and a trade in a final status is
    never changed again. *)
Theorem trade_lifecycle (self : t) (call : Call) :
  exists updated created,
    trades (step self call) = updated ++ created
    /\ Forall2 evolves (trades self) updated
    /\ (List.length created <= 1)%nat
    /\ Forall (fun trade => status trade = PENDING) created.
Proof.
  destruct call as [balance|now sym side entry sl target qty risk strat ind
                   |now trade_id price|now trade_id price|now trade_id price].
  2: { cbn [step].
       destruct (create_trade_ledger self now sym side entry sl target qty risk strat ind)
         as [->|[trade Hc]].
       - exists (trades self), []. rewrite app_nil_r.
         split; [reflexivity|]. split; [apply Forall2_same, evolves_refl|].
         split; [cbn; lia|constructor].
       - exists (trades self), [trade].
         pose proof (create_trade_pending _ _ _ _ _ _ _ _ _ _ _ _ _ Hc) as Hp.
         apply create_trade_ok in Hc as (_ & Hl & _). rewrite Hl.
         split; [reflexivity|]. split; [apply Forall2_same, evolves_refl|].
         split; [cbn; lia|]. constructor; [exact Hp|constructor]. }
  all: eexists; exists []; rewrite app_nil_r; split; [reflexivity|];
    split; [apply update_evolves; exact I|split; [cbn; lia|constructor]].
Qed.

End Lifecycle.

(** ** The ledger and its list of active positions (trade_setup.py) *)

Section LedgerConsistency.

Import TradeSetup TradeLifecycle.

Lemma nth_error_store_same {A : Type} (n : nat) (v old : A) (l : list A) :
  nth_error l n = Some old -> nth_error (store n v l) n = Some v.
Proof.
  revert n. induction l as [|x l IH]; intros [|n] H; cbn in *;
    try discriminate; auto.
Qed.

Lemma nth_error_store_other {A : Type} (n m : nat) (v : A) (l : list A) :
  n <> m -> nth_error (store n v l) m = nth_error l m.
Proof.
  revert n m. induction l as [|x l IH]; intros [|n] [|m] H; cbn;
    try reflexivity; try contradiction.
  apply IH. congruence.
Qed.

Lemma store_length {A : Type} (n : nat) (v : A) (l : list A) :
  List.length (store n v l) = List.length l.
Proof.
  revert n. induction l as [|x l IH]; intros [|n]; cbn; auto.
Qed.

Lemma map_store {A B : Type} (f : A -> B) (n : nat) (v old : A) (l : list A) :
  nth_error l n = Some old -> f v = f old -> map f (store n v l) = map f l.
Proof.
  revert n. induction l as [|x l IH]; intros [|n] H E; cbn in *;
    try discriminate.
  - injection H as ->. rewrite E. reflexivity.
  - f_equal. apply IH; assumption.
Qed.

Lemma find_index_found {A : Type} (p : A -> bool) (l : list A) (k : nat) :
  find_index p l = Some k -> exists x, nth_error l k = Some x /\ p x = true.
Proof.
  revert k. induction l as [|y l IH]; intros k H; cbn in H; [discriminate|].
  destruct (p y) eqn:E.
  - injection H as <-. exists y. auto.
  - destruct (find_index p l) as [j|]; [|discriminate].
    injection H as <-. apply IH. reflexivity.
Qed.

Lemma id_eqb_eq (a b : TradeId) : TradeId_eqb a b = true <-> a = b.
Proof.
  unfold TradeId_eqb. destruct a as [ca sa], b as [cb sb]. cbn.
  rewrite andb_true_iff, Z.eqb_eq, Nat.eqb_eq. split.
  - intros [-> ->]. reflexivity.
  - intro H. injection H as -> ->. auto.
Qed.

Lemma numbered_at_from {A : Type} (f : A -> nat) (l : list A) (base k : nat) (x : A) :
  map f l = seq base (List.length l) -> nth_error l k = Some x -> f x = (base + k)%nat.
Proof.
  revert base k. induction l as [|y l IH]; intros base [|k] Hm Hn; cbn in *;
    try discriminate.
  - injection Hn as ->. injection Hm as -> _. lia.
  - injection Hm as _ Hm. rewrite (IH _ _ Hm Hn). lia.
Qed.

Lemma numbered_at (ledger : list Trade) (k : nat) (trade : Trade) :
  numbered ledger -> nth_error ledger k = Some trade -> id_seq (id trade) = k.
Proof. intros Hn Hk. apply (numbered_at_from _ _ 0 _ _ Hn Hk). Qed.

Lemma numbered_find (ledger : list Trade) (k : nat) (trade : Trade) :
  numbered ledger -> nth_error ledger k = Some trade ->
  find_index (fun x => TradeId_eqb (id x) (id trade)) ledger = Some k.
Proof.
  unfold numbered. generalize 0%nat as base. revert k.
  induction ledger as [|y l IH]; intros [|k] base Hm Hn; cbn in Hn;
    try discriminate; cbn [find_index].
  - injection Hn as ->. rewrite (proj2 (id_eqb_eq _ _) eq_refl). reflexivity.
  - assert (Hy : id_seq (id y) = base) by (cbn in Hm; injection Hm as -> _; reflexivity).
    assert (Ht : id_seq (id trade) = (S base + k)%nat).
    { cbn in Hm. injection Hm as _ Hm. apply (numbered_at_from _ _ _ _ _ Hm Hn). }
    destruct (TradeId_eqb (id y) (id trade)) eqn:E.
    + apply id_eqb_eq in E. rewrite E in Hy. lia.
    + cbn in Hm. injection Hm as _ Hm. rewrite (IH _ _ Hm Hn). reflexivity.
Qed.

Lemma evolves_ids (before after : list Trade) :
  Forall2 evolves before after -> map id after = map id before.
Proof.
  induction 1 as [|x y l l' [(Hid & _) _] _ IH]; cbn; [reflexivity|].
  rewrite Hid, IH. reflexivity.
Qed.

Lemma numbered_evolves (before after : list Trade) :
  Forall2 evolves before after -> numbered before -> numbered after.
Proof.
  intros HF Hn. unfold numbered in *.
  rewrite <- (Forall2_length HF).
  rewrite <- Hn, <- !(map_map id id_seq), (evolves_ids _ _ HF). reflexivity.
Qed.

Lemma numbered_append (ledger : list Trade) (trade : Trade) :
  numbered ledger -> id_seq (id trade) = List.length ledger ->
  numbered (ledger ++ [trade]).
Proof.
  unfold numbered. intros Hn Hid.
  rewrite map_app, length_app, Hn. cbn [map List.length].
  rewrite Hid, Nat.add_1_r, seq_S. reflexivity.
Qed.

(** The id of a created trade. *)
Lemma create_trade_id (self : t) (now : Z) (sym : string) (side : PositionType)
    (entry sl target : Q) (qty : option Q) (risk : Q) (strat : string)
    (ind : list (string * Q)) (trade : Trade) (ledger : t) :
  create_trade self now sym side entry sl target qty risk strat ind
    = (Py.Ok trade, ledger) ->
  id trade = mkId now (List.length (trades self)).
Proof.
  unfold create_trade.
  destruct (validate_prices side entry sl target) as [[]|e]; [|discriminate].
  cbn [Py.bind].
  destruct (if Py.ltb 0 _ then _ else _) as [rr|e]; [|discriminate].
  cbn [Py.bind].
  destruct (Py.div (sl - entry) entry) as [r1|e]; [|discriminate].
  cbn [Py.bind].
  destruct (Py.div (target - entry) entry) as [r2|e]; [|discriminate].
  cbn [Py.bind]. intro H. injection H as <- _. reflexivity.
Qed.

Lemma consistent_update (self : t) (ref : nat) (trade trade' : Trade)
    (listed : list nat) :
  consistent self ->
  deref self ref = Some trade ->
  id trade' = id trade ->
  status trade' <> PENDING ->
  NoDup listed ->
  (forall r, In r listed -> In r (active_positions self) \/ r = ref) ->
  (forall r, In r (active_positions self) -> r <> ref -> In r listed) ->
  (status trade' = ACTIVE -> In ref listed) ->
  consistent (mk (account_balance self) (store ref trade' (trades self)) listed).
Proof.
  intros [Hnum Hnd Hlisted Hactive] Hd Hid Hst Hnd' Hsub Hkeep Href.
  constructor; cbn [trades active_positions].
  - unfold numbered in *. rewrite store_length, <- Hnum.
    apply (map_store _ _ _ trade); [exact Hd|rewrite Hid; reflexivity].
  - exact Hnd'.
  - intros r Hr. unfold deref. cbn [trades].
    destruct (Nat.eq_dec ref r) as [<-|Hne].
    + exists trade'. split; [apply (nth_error_store_same _ _ trade), Hd|exact Hst].
    + rewrite (nth_error_store_other _ _ _ _ Hne).
      destruct (Hsub r Hr) as [Hin|E]; [apply Hlisted, Hin|congruence].
  - intros r tr Hr Hs. unfold deref in Hr. cbn [trades] in Hr.
    destruct (Nat.eq_dec ref r) as [<-|Hne].
    + apply Href. rewrite (nth_error_store_same _ _ trade _ Hd) in Hr.
      injection Hr as <-. exact Hs.
    + rewrite (nth_error_store_other _ _ _ _ Hne) in Hr.
      apply Hkeep; [apply (Hactive r tr Hr Hs)|congruence].
Qed.

Lemma get_trade_found (self : t) (trade_id : TradeId) (ref : nat) (trade : Trade) :
  get_trade self trade_id = Some ref -> deref self ref = Some trade ->
  id trade = trade_id.
Proof.
  intros Hg Hd. apply find_index_found in Hg as (x & Hx & Hp).
  unfold deref in Hd. rewrite Hd in Hx. injection Hx as <-.
  apply id_eqb_eq, Hp.
Qed.

(** The list of active positions after the trade at [ref] has been
    replaced and its id filtered out. *)
Lemma consistent_unlist (self : t) (trade_id : TradeId) (ref : nat)
    (trade trade' : Trade) :
  consistent self ->
  get_trade self trade_id = Some ref ->
  deref self ref = Some trade ->
  id trade' = id trade ->
  status trade' <> PENDING -> status trade' <> ACTIVE ->
  consistent (mk (account_balance self) (store ref trade' (trades self))
                (without_id (put self ref trade') trade_id)).
Proof.
  intros Hok Hg Hd Hid Hst Hna.
  pose proof (get_trade_found _ _ _ _ Hg Hd) as Htid.
  apply (consistent_update self ref trade trade');
    [exact Hok|exact Hd|exact Hid|exact Hst| | | |].
  - apply NoDup_filter, (ok_nodup _ Hok).
  - intros r Hr. left. unfold without_id in Hr. apply filter_In in Hr as [Hr _].
    exact Hr.
  - intros r Hr Hne. unfold without_id. apply filter_In. split; [exact Hr|].
    unfold deref, put. cbn [trades].
    rewrite (nth_error_store_other _ _ _ _ (not_eq_sym Hne)).
    destruct (ok_listed _ Hok r Hr) as (tr & Htr & _).
    unfold deref in Htr. rewrite Htr.
    destruct (TradeId_eqb (id tr) trade_id) eqn:E; [|reflexivity].
    apply id_eqb_eq in E.
    pose proof (numbered_at _ _ _ (ok_numbered _ Hok) Htr) as H1.
    pose proof (numbered_at _ _ _ (ok_numbered _ Hok) Hd) as H2.
    rewrite E, <- Htid, H2 in H1. congruence.
  - intro H. contradiction.
Qed.

Lemma consistent_put (self : t) (ref : nat) (trade trade' : Trade) :
  consistent self ->
  deref self ref = Some trade ->
  id trade' = id trade ->
  status trade' <> PENDING ->
  (status trade' = ACTIVE -> status trade = ACTIVE) ->
  consistent (put self ref trade').
Proof.
  intros Hok Hd Hid Hst Hact. unfold put.
  apply (consistent_update self ref trade trade');
    [exact Hok|exact Hd|exact Hid|exact Hst| | | |].
  - apply (ok_nodup _ Hok).
  - intros r Hr. left. exact Hr.
  - intros r Hr Hne. exact Hr.
  - intro H. apply (ok_active _ Hok ref trade Hd), Hact, H.
Qed.

Lemma consistent_hit (self : t) (now : Z) (trade_id : TradeId) (ref : nat)
    (trade : Trade) (new_status : TradeStatus) (price : Q) (answer : CheckResult) :
  consistent self ->
  get_trade self trade_id = Some ref ->
  deref self ref = Some trade ->
  new_status <> PENDING -> new_status <> ACTIVE ->
  consistent (snd (hit self now trade_id ref trade new_status price answer)).
Proof.
  intros Hok Hg Hd Hnp Hna. unfold hit.
  set (closing := with_exit now (Py.round price 8) (with_status new_status trade)).
  destruct (calculate_pnl_keeps closing None) as ((Hid & _) & Hst & _).
  change (id closing) with (id trade) in Hid.
  change (status closing) with new_status in Hst.
  destruct (_calculate_pnl closing None) as [[u|e] trade']; cbn [snd] in *.
  - apply (consistent_unlist self trade_id ref trade trade'); auto; congruence.
  - apply (consistent_put self ref trade trade'); auto; congruence.
Qed.

Lemma consistent_step (self : t) (call : Call) :
  consistent self -> consistent (step self call).
Proof.
  intro Hok.
  destruct call as [balance|now sym side entry sl target qty risk strat ind
                   |now trade_id price|now trade_id price|now trade_id price];
    cbn [step].
  - destruct Hok. constructor; assumption.
  - destruct (create_trade_ledger self now sym side entry sl target qty risk strat ind)
      as [->|[trade Hc]]; [exact Hok|].
    pose proof (create_trade_id _ _ _ _ _ _ _ _ _ _ _ _ _ Hc) as Hid.
    pose proof (create_trade_pending _ _ _ _ _ _ _ _ _ _ _ _ _ Hc) as Hp.
    apply create_trade_ok in Hc as (_ & Hl & _). rewrite Hl.
    destruct Hok as [Hnum Hnd Hlisted Hactive].
    constructor; cbn [trades active_positions].
    + apply numbered_append; [exact Hnum|rewrite Hid; reflexivity].
    + exact Hnd.
    + intros r Hr. destruct (Hlisted r Hr) as (tr & Htr & Hs).
      exists tr. split; [|exact Hs]. unfold deref in *. cbn [trades].
      rewrite nth_error_app1; [exact Htr|].
      apply nth_error_Some. congruence.
    + intros r tr Hr Hs. unfold deref in Hr. cbn [trades] in Hr.
      destruct (Nat.lt_ge_cases r (List.length (trades self))) as [Hlt|Hge].
      * rewrite nth_error_app1 in Hr by exact Hlt. apply (Hactive r tr Hr Hs).
      * rewrite nth_error_app2 in Hr by exact Hge.
        destruct (r - List.length (trades self))%nat as [|n]; cbn in Hr.
        -- injection Hr as <-. congruence.
        -- destruct n; discriminate Hr.
  - unfold activate_trade.
    destruct (get_trade self trade_id) as [ref|] eqn:Hg; [|exact Hok].
    destruct (deref self ref) as [trade|] eqn:Hd; [|exact Hok].
    destruct (TradeStatus_eqb (status trade) PENDING) eqn:Hs; [|exact Hok].
    apply status_eqb_eq in Hs. cbn [negb snd].
    apply (consistent_update self ref trade).
    + exact Hok.
    + exact Hd.
    + destruct (truthy price); reflexivity.
    + destruct (truthy price); discriminate.
    + apply NoDup_app; [apply (ok_nodup _ Hok)|repeat constructor; intros []|].
      intros r Hr [E|[]]. subst r.
      destruct (ok_listed _ Hok ref Hr) as (tr & Htr & Hnp). congruence.
    + intros r Hr. apply in_app_or in Hr as [Hr|[E|[]]]; auto.
    + intros r Hr _. apply in_or_app. left. exact Hr.
    + intros _. apply in_or_app. right. left. reflexivity.
  - unfold check_trade.
    destruct (get_trade self trade_id) as [ref|] eqn:Hg; [|exact Hok].
    destruct (deref self ref) as [trade|] eqn:Hd; [|exact Hok].
    destruct (TradeStatus_eqb (status trade) ACTIVE) eqn:Hs; [|exact Hok].
    apply status_eqb_eq in Hs. cbn [negb].
    destruct (match position_type trade with LONG => _ | SHORT => _ end)
      as [is_sl is_target].
    destruct is_sl; [apply consistent_hit; auto; discriminate|].
    destruct is_target; [apply consistent_hit; auto; discriminate|].
    destruct (calculate_pnl_keeps trade (Some price)) as ((Hid & _) & Hst & _).
    destruct (_calculate_pnl trade (Some price)) as [[u|e] trade']; cbn [snd] in *;
      apply (consistent_put self ref trade trade'); auto; congruence.
  - unfold close_trade.
    destruct (get_trade self trade_id) as [ref|] eqn:Hg; [|exact Hok].
    destruct (deref self ref) as [trade|] eqn:Hd; [|exact Hok].
    destruct (negb _); [exact Hok|].
    set (closing := with_exit now (Py.round price 8) (with_status CLOSED trade)).
    destruct (calculate_pnl_keeps closing None) as ((Hid & _) & Hst & _).
    change (id closing) with (id trade) in Hid.
    change (status closing) with CLOSED in Hst.
    destruct (_calculate_pnl closing None) as [[u|e] trade']; cbn [snd] in *.
    + apply (consistent_unlist self trade_id ref trade trade'); auto; congruence.
    + apply (consistent_put self ref trade trade'); auto; congruence.
Qed.

Lemma consistent_run (calls : list Call) : consistent (run calls).
Proof.
  unfold run.
  assert (H : consistent init).
  { constructor; cbn; [reflexivity|constructor|intros ? []|intros [|?] ? H; discriminate H]. }
  revert H. generalize init.
  induction calls as [|call calls IH]; intros self H; cbn [fold_left].
  - exact H.
  - apply IH, consistent_step, H.
Qed.

(** X6: in every ledger built by calls the k-th trade carries the sequence
    number k, so that no two trades share an id and [get_trade] with the id
    of a trade returns that very trade. *)
Theorem trade_ids_identify_trades (calls : list Call) (k : nat) (trade : Trade) :
  deref (run calls) k = Some trade ->
  id_seq (id trade) = k
  /\ get_trade (run calls) (id trade) = Some k
  /\ (forall k' trade',
        deref (run calls) k' = Some trade' -> id trade' = id trade -> k' = k).
Proof.
  intro Hd. pose proof (ok_numbered _ (consistent_run calls)) as Hn.
  split; [apply (numbered_at _ _ _ Hn Hd)|].
  split; [apply (numbered_find _ _ _ Hn Hd)|].
  intros k' trade' Hd' Hid.
  rewrite <- (numbered_at _ _ _ Hn Hd), <- (numbered_at _ _ _ Hn Hd'), Hid.
  reflexivity.
Qed.

(** [trade_ids_identify_trades] on the session of two trades: the second
    trade is found under its id at position 1. *)
Lemma trade_ids_identify_trades_witness :
  exists trade,
    deref (run one_closed_one_open) 1 = Some trade
    /\ get_trade (run one_closed_one_open) (id trade) = Some 1%nat.
Proof.
  destruct (deref (run one_closed_one_open) 1) as [trade|] eqn:E;
    [|vm_compute in E; discriminate E].
  exists trade. split; [reflexivity|].
  apply (trade_ids_identify_trades one_closed_one_open 1 trade E).
Defined.

Lemma positions_by_type (self : t) (listed : list nat) :
  (forall ref, In ref listed -> exists trade, deref self ref = Some trade) ->
  (List.length
     (filter (fun ref => match deref self ref with
                         | Some trade => PositionType_eqb (position_type trade) LONG
                         | None => false
                         end) listed)
   + List.length
       (filter (fun ref => match deref self ref with
                           | Some trade => PositionType_eqb (position_type trade) SHORT
                           | None => false
                           end) listed))%nat
  = List.length listed.
Proof.
  induction listed as [|r listed IH]; intro Hvalid; [reflexivity|].
  cbn [filter]. destruct (Hvalid r (or_introl eq_refl)) as [trade ->].
  assert (IH' := IH (fun ref H => Hvalid ref (or_intror H))).
  destruct (position_type trade); cbn [PositionType_eqb List.length]; lia.
Qed.

Lemma filter_by_position {A : Type} (p : A -> bool) (l : list A) (base : nat) :
  List.length (filter p l)
  = List.length
      (filter (fun k => match nth_error l (k - base) with
                        | Some x => p x
                        | None => false
                        end) (seq base (List.length l))).
Proof.
  revert base. induction l as [|x l IH]; intro base; [reflexivity|].
  cbn [List.length seq filter]. rewrite Nat.sub_diag. cbn [nth_error].
  assert (E : filter (fun k => match nth_error (x :: l) (k - base) with
                               | Some y => p y
                               | None => false
                               end) (seq (S base) (List.length l))
              = filter (fun k => match nth_error l (k - S base) with
                                 | Some y => p y
                                 | None => false
                                 end) (seq (S base) (List.length l))).
  { apply filter_ext_in. intros k Hk. apply in_seq in Hk.
    replace (k - base)%nat with (S (k - S base)) by lia. reflexivity. }
  destruct (p x); cbn [List.length]; rewrite E, <- (IH (S base)); reflexivity.
Qed.

(** X7: in every ledger built by calls, the list of active positions names
    no trade twice, names only trades that exist and have left PENDING, and
    names every ACTIVE trade; so the long and the short positions together
    are exactly the listed ones, and [get_trade_summary] never reports more
    active trades than long plus short positions. *)
Theorem active_positions_consistent (calls : list Call) :
  let ledger := run calls in
  NoDup (active_positions ledger)
  /\ (forall ref, In ref (active_positions ledger) ->
        exists trade, deref ledger ref = Some trade /\ status trade <> PENDING)
  /\ (forall ref trade, deref ledger ref = Some trade -> status trade = ACTIVE ->
        In ref (active_positions ledger))
  /\ (List.length (get_long_positions ledger)
      + List.length (get_short_positions ledger))%nat
     = List.length (active_positions ledger)
  /\ (active_trades (get_trade_summary ledger)
      <= long_positions (get_trade_summary ledger)
         + short_positions (get_trade_summary ledger))%nat.
Proof.
  cbv zeta. destruct (consistent_run calls) as [Hnum Hnd Hlisted Hactive].
  assert (Hsum : (List.length (get_long_positions (run calls))
                  + List.length (get_short_positions (run calls)))%nat
                 = List.length (active_positions (run calls))).
  { apply positions_by_type. intros ref Hr.
    destruct (Hlisted ref Hr) as (trade & Ht & _). exists trade. exact Ht. }
  split; [exact Hnd|]. split; [exact Hlisted|]. split; [exact Hactive|].
  split; [exact Hsum|].
  cbn [get_trade_summary active_trades long_positions short_positions].
  rewrite Hsum. unfold get_active_trades.
  rewrite (filter_by_position _ _ 0).
  apply NoDup_incl_length.
  - apply NoDup_filter, seq_NoDup.
  - intros k Hk. apply filter_In in Hk as [_ Hk]. rewrite Nat.sub_0_r in Hk.
    destruct (nth_error (trades (run calls)) k) as [trade|] eqn:E; [|discriminate].
    apply (Hactive k trade E). apply status_eqb_eq, Hk.
Qed.

Lemma find_index_none {A : Type} (p : A -> bool) (l : list A) :
  Forall (fun x => p x = false) l -> find_index p l = None.
Proof.
  induction 1 as [|x l Hx _ IH]; cbn; [reflexivity|]. rewrite Hx, IH. reflexivity.
Qed.

(** X8: a trade id the ledger does not know is an error for
    [activate_trade] and [close_trade], which raise a [ValueError] and leave
    the ledger as it is, but not for [check_trade], which answers
    'not_active' and changes nothing. *)
Theorem unknown_trade_id (self : t) (now : Z) (trade_id : TradeId)
    (price : Q) (actual : option Q) :
  Forall (fun trade => id trade <> trade_id) (trades self) ->
  (exists msg,
     activate_trade self now trade_id actual = (Py.Raise (Py.ValueError msg), self))
  /\ (exists msg,
        close_trade self now trade_id price = (Py.Raise (Py.ValueError msg), self))
  /\ check_trade self now trade_id price = (Py.Ok not_active, self).
Proof.
  intro Hnone.
  assert (Hg : get_trade self trade_id = None).
  { apply find_index_none. eapply Forall_impl; [|exact Hnone].
    intros trade Hne. cbn in *.
    destruct (TradeId_eqb (id trade) trade_id) eqn:E; [|reflexivity].
    apply id_eqb_eq in E. contradiction. }
  unfold activate_trade, close_trade, check_trade. rewrite Hg.
  split; [eexists; reflexivity|]. split; [eexists; reflexivity|reflexivity].
Qed.

(** [unknown_trade_id] on a ledger with one trade, asked for another id. *)
Lemma unknown_trade_id_witness :
  check_trade (run [call_create_trade 0 "BTCUSDT" LONG 100 95 110 (Some 1) 1 "Manual" []])
    5 (mkId 9 9) 100
  = (Py.Ok not_active,
     run [call_create_trade 0 "BTCUSDT" LONG 100 95 110 (Some 1) 1 "Manual" []]).
Proof.
  apply (unknown_trade_id
           (run [call_create_trade 0 "BTCUSDT" LONG 100 95 110 (Some 1) 1 "Manual" []])
           5 (mkId 9 9) 100 None).
  repeat constructor. intro H. discriminate H.
Defined.

Lemma calculate_pnl_zero_exposure (trade : Trade) (price : option Q) (current : Q) :
  match price with Some p => Some p | None => exit_price trade end = Some current ->
  entry_price trade * quantity trade == 0 ->
  fst (_calculate_pnl trade price) = Py.Raise Py.ZeroDivisionError.
Proof.
  intros Hc Hz. unfold _calculate_pnl. rewrite Hc.
  unfold Py.div, Py.eqb. apply Qeq_bool_iff in Hz. rewrite Hz. reflexivity.
Qed.

(** X9: a trade whose entry price times quantity is 0 (every SHORT trade
    sized by the ledger is one) cannot be settled: [check_trade] on it, once
    ACTIVE, raises [ZeroDivisionError] at any price and it stays in the list
    of active positions; [close_trade] raises as well, after the trade has
    been marked CLOSED. *)
Theorem zero_exposure_trade_raises (self : t) (now : Z) (trade_id : TradeId)
    (ref : nat) (trade : Trade) (price : Q) :
  get_trade self trade_id = Some ref ->
  deref self ref = Some trade ->
  entry_price trade * quantity trade == 0 ->
  (status trade = ACTIVE ->
   fst (check_trade self now trade_id price) = Py.Raise Py.ZeroDivisionError
   /\ active_positions (snd (check_trade self now trade_id price))
      = active_positions self)
  /\ (status trade = ACTIVE \/ status trade = PENDING ->
      fst (close_trade self now trade_id price) = Py.Raise Py.ZeroDivisionError
      /\ active_positions (snd (close_trade self now trade_id price))
         = active_positions self
      /\ exists closed,
           deref (snd (close_trade self now trade_id price)) ref = Some closed
           /\ status closed = CLOSED).
Proof.
  intros Hg Hd Hz. split.
  - intro Hs. unfold check_trade. rewrite Hg, Hd, Hs. cbn [TradeStatus_eqb negb].
    assert (Hhit : forall new_status answer,
              fst (hit self now trade_id ref trade new_status price answer)
                = Py.Raise Py.ZeroDivisionError
              /\ active_positions
                   (snd (hit self now trade_id ref trade new_status price answer))
                 = active_positions self).
    { intros new_status answer. unfold hit.
      pose proof (calculate_pnl_zero_exposure
                    (with_exit now (Py.round price 8) (with_status new_status trade))
                    None (Py.round price 8) eq_refl Hz) as Hr.
      destruct (_calculate_pnl _ None) as [[u|e] trade']; cbn [fst] in Hr;
        [discriminate Hr|]. injection Hr as ->. split; reflexivity. }
    destruct (match position_type trade with LONG => _ | SHORT => _ end)
      as [is_sl is_target].
    destruct is_sl; [apply Hhit|]. destruct is_target; [apply Hhit|].
    pose proof (calculate_pnl_zero_exposure trade (Some price) price eq_refl Hz) as Hr.
    destruct (_calculate_pnl trade (Some price)) as [[u|e] trade']; cbn [fst] in Hr;
      [discriminate Hr|]. injection Hr as ->. split; reflexivity.
  - intro Hs. unfold close_trade. rewrite Hg, Hd.
    assert (E : negb (TradeStatus_eqb (status trade) ACTIVE
                      || TradeStatus_eqb (status trade) PENDING) = false)
      by (destruct Hs as [-> | ->]; reflexivity).
    rewrite E.
    set (closing := with_exit now (Py.round price 8) (with_status CLOSED trade)).
    pose proof (calculate_pnl_zero_exposure closing None (Py.round price 8) eq_refl Hz)
      as Hr.
    destruct (calculate_pnl_keeps closing None) as (_ & Hst & _).
    change (status closing) with CLOSED in Hst.
    destruct (_calculate_pnl closing None) as [[u|e] trade']; cbn [fst snd] in *;
      [discriminate Hr|]. injection Hr as ->.
    split; [reflexivity|]. split; [reflexivity|].
    exists trade'. split; [|exact Hst].
    unfold deref, put. cbn [trades]. apply (nth_error_store_same _ _ trade), Hd.
Qed.

(** [zero_exposure_trade_raises] on a SHORT trade sized by the ledger and
    then activated: checking it at any price raises. *)
Lemma zero_exposure_trade_raises_witness :
  fst (check_trade (run short_session) 2 (mkId 0 0) 99)
  = Py.Raise Py.ZeroDivisionError.
Proof.
  destruct (deref (run short_session) 0) as [trade|] eqn:E;
    [|vm_compute in E; discriminate E].
  assert (Hz : entry_price trade * quantity trade == 0)
    by (vm_compute in E; injection E as <-; vm_compute; reflexivity).
  assert (Hs : status trade = ACTIVE)
    by (vm_compute in E; injection E as <-; reflexivity).
  apply (proj1 (zero_exposure_trade_raises (run short_session) 2 (mkId 0 0) 0 trade 99
                  eq_refl E Hz) Hs).
Defined.

Lemma calculate_pnl_ok (trade trade' : Trade) (current : Q) (u : unit) :
  exit_price trade = Some current ->
  _calculate_pnl trade None = (Py.Ok u, trade') ->
  status trade' = status trade
  /\ exit_price trade' = Some current
  /\ pnl trade'
     = Py.round (match position_type trade with
                 | LONG => (current - entry_price trade) * quantity trade
                 | SHORT => (entry_price trade - current) * quantity trade
                 end) 2.
Proof.
  intros He. unfold _calculate_pnl. rewrite He.
  destruct (Py.div _ _) as [ratio|e]; [|discriminate].
  intro H. injection H as _ <-. cbn. rewrite He. repeat split.
Qed.

(** X10: for a trade whose prices are weakly ordered, whose entry price
    lies on the grid of 8 decimals and whose quantity is not negative, a
    [check_trade] that reports 'target_hit' books a P&L that is not negative,
    and one that reports 'sl_hit' books a P&L that is not positive; the trade
    is left in the matching final status with the rounded price as its exit
    price. *)
Theorem exit_books_expected_sign (self : t) (now : Z) (trade_id : TradeId)
    (ref : nat) (trade : Trade) (price : Q) :
  get_trade self trade_id = Some ref ->
  deref self ref = Some trade ->
  weakly_ordered trade ->
  on_grid (entry_price trade) ->
  0 <= quantity trade ->
  forall answer ledger,
    check_trade self now trade_id price = (Py.Ok answer, ledger) ->
    (forall r, answer = target_hit r ->
       r = ref
       /\ exists settled,
            deref ledger ref = Some settled /\ status settled = TARGET_HIT
            /\ exit_price settled = Some (Py.round price 8)
            /\ 0 <= pnl settled)
    /\ (forall r, answer = sl_hit r ->
          r = ref
          /\ exists settled,
               deref ledger ref = Some settled /\ status settled = SL_HIT
               /\ exit_price settled = Some (Py.round price 8)
               /\ pnl settled <= 0).
Proof.
  intros Hg Hd Hord Hgrid Hq answer ledger. unfold check_trade. rewrite Hg, Hd.
  destruct (negb _); [intro H; injection H as <- _; split; intros r E; discriminate E|].
  assert (Hhit : forall new_status result,
            hit self now trade_id ref trade new_status price result
              = (Py.Ok answer, ledger) ->
            answer = result
            /\ exists settled,
                 deref ledger ref = Some settled /\ status settled = new_status
                 /\ exit_price settled = Some (Py.round price 8)
                 /\ pnl settled
                    = Py.round (match position_type trade with
                                | LONG => (Py.round price 8 - entry_price trade)
                                          * quantity trade
                                | SHORT => (entry_price trade - Py.round price 8)
                                           * quantity trade
                                end) 2).
  { intros new_status result. unfold hit.
    set (closing := with_exit now (Py.round price 8) (with_status new_status trade)).
    destruct (_calculate_pnl closing None) as [[u|e] trade'] eqn:E;
      [|discriminate].
    intro H. injection H as <- <-. split; [reflexivity|].
    destruct (calculate_pnl_ok closing trade' (Py.round price 8) u eq_refl E)
      as (Hs & He & Hp).
    exists trade'. split; [|split; [exact Hs|split; [exact He|exact Hp]]].
    unfold deref, put. cbn [trades]. apply (nth_error_store_same _ _ trade), Hd. }
  unfold on_grid in Hgrid. unfold weakly_ordered in Hord.
  destruct (position_type trade) eqn:Hside.
  - destruct (Py.leb price (sl_price trade)) eqn:Hsl.
    + intro H. apply Hhit in H as (-> & settled & Hs & Hst & He & Hp).
      split; intros r E; [discriminate E|]. injection E as <-.
      split; [reflexivity|]. exists settled. repeat split; try assumption.
      rewrite Hp. apply round_nonpos. apply leb_spec in Hsl.
      assert (Py.round price 8 <= entry_price trade).
      { rewrite <- Hgrid. apply round_mono. lra. }
      nra.
    + destruct (Py.leb (target_price trade) price) eqn:Htg.
      * intro H. apply Hhit in H as (-> & settled & Hs & Hst & He & Hp).
        split; intros r E; [|discriminate E]. injection E as <-.
        split; [reflexivity|]. exists settled. repeat split; try assumption.
        rewrite Hp. apply round_nonneg. apply leb_spec in Htg.
        assert (entry_price trade <= Py.round price 8).
        { rewrite <- Hgrid. apply round_mono. lra. }
        nra.
      * destruct (_calculate_pnl trade (Some price)) as [[u|e] trade'];
          intro H; [|discriminate H].
        injection H as <- _. split; intros r E; discriminate E.
  - destruct (Py.leb (sl_price trade) price) eqn:Hsl.
    + intro H. apply Hhit in H as (-> & settled & Hs & Hst & He & Hp).
      split; intros r E; [discriminate E|]. injection E as <-.
      split; [reflexivity|]. exists settled. repeat split; try assumption.
      rewrite Hp. apply round_nonpos. apply leb_spec in Hsl.
      assert (entry_price trade <= Py.round price 8).
      { rewrite <- Hgrid. apply round_mono. lra. }
      nra.
    + destruct (Py.leb price (target_price trade)) eqn:Htg.
      * intro H. apply Hhit in H as (-> & settled & Hs & Hst & He & Hp).
        split; intros r E; [|discriminate E]. injection E as <-.
        split; [reflexivity|]. exists settled. repeat split; try assumption.
        rewrite Hp. apply round_nonneg. apply leb_spec in Htg.
        assert (Py.round price 8 <= entry_price trade).
        { rewrite <- Hgrid. apply round_mono. lra. }
        nra.
      * destruct (_calculate_pnl trade (Some price)) as [[u|e] trade'];
          intro H; [|discriminate H].
        injection H as <- _. split; intros r E; discriminate E.
Qed.

(** [exit_books_expected_sign] on the LONG trade of [long_session], checked
    at 111: the target is hit and the booked P&L is not negative. *)
Lemma exit_books_expected_sign_witness :
  exists settled ledger,
    check_trade (run long_session) 2 (mkId 0 0) 111 = (Py.Ok (target_hit 0), ledger)
    /\ deref ledger 0 = Some settled
    /\ 0 <= pnl settled.
Proof.
  destruct (deref (run long_session) 0) as [trade|] eqn:E;
    [|vm_compute in E; discriminate E].
  assert (Htrade : Some trade = deref (run long_session) 0) by (symmetry; exact E).
  vm_compute in Htrade. injection Htrade as Htrade.
  assert (Hord : weakly_ordered trade)
    by (rewrite Htrade; split; apply Qle_bool_iff; reflexivity).
  assert (Hgrid : on_grid (entry_price trade))
    by (rewrite Htrade; vm_compute; reflexivity).
  assert (Hq : 0 <= quantity trade)
    by (rewrite Htrade; apply Qle_bool_iff; reflexivity).
  destruct (check_trade (run long_session) 2 (mkId 0 0) 111)
    as [[answer|e] ledger] eqn:C; [|vm_compute in C; discriminate C].
  assert (Ha : answer = target_hit 0)
    by (vm_compute in C; injection C as <- _; reflexivity).
  destruct (proj1 (exit_books_expected_sign (run long_session) 2 (mkId 0 0) 0 trade 111
                     eq_refl E Hord Hgrid Hq answer ledger C) 0%nat Ha)
    as (_ & settled & Hd & _ & _ & Hp).
  exists settled, ledger. rewrite Ha. split; [reflexivity|]. split; assumption.
Defined.

End LedgerConsistency.

(** ** Creating and executing trades (trade_setup.py, trade_manager.py) *)

Section TradeCreation.

Import TradeSetup TradeLifecycle.

Lemma create_trade_succeeds (self : t) (now : Z) (sym : string) (side : PositionType)
    (entry sl target : Q) (qty : option Q) (risk : Q) (strat : string)
    (ind : list (string * Q)) :
  validate_prices side entry sl target = Py.Ok tt ->
  ~ entry == 0 ->
  exists trade,
    create_trade self now sym side entry sl target qty risk strat ind
    = (Py.Ok trade,
       mk (account_balance self) (trades self ++ [trade]) (active_positions self)).
Proof.
  intros Hv Hne. unfold create_trade. rewrite Hv. cbn [Py.bind].
  set (quantity := match qty with
                   | Some q => q
                   | None => calculate_position_size self entry sl risk
                   end).
  assert (Hrr : exists rr,
            (if Py.ltb 0 (Qabs (entry - sl) * quantity)
             then Py.div (Qabs (target - entry) * quantity) (Qabs (entry - sl) * quantity)
             else Py.Ok 0) = Py.Ok rr).
  { destruct (Py.ltb 0 _) eqn:E; [|eexists; reflexivity].
    apply ltb_spec in E. rewrite div_ok by lra. eexists. reflexivity. }
  destruct Hrr as [rr ->]. cbn [Py.bind].
  rewrite !div_ok by exact Hne. cbn [Py.bind].
  eexists. reflexivity.
Qed.

(** X11: [create_trade] with correctly ordered prices records a PENDING
    trade at the end of the ledger, numbered with the ledger's length,
    unless the entry price is 0: then it raises [ZeroDivisionError] and the
    ledger is left as it was. *)
Theorem create_trade_outcomes (self : t) (now : Z) (sym : string)
    (side : PositionType) (entry sl target : Q) (qty : option Q) (risk : Q)
    (strat : string) (ind : list (string * Q)) :
  match side with
  | LONG => sl < entry /\ entry < target
  | SHORT => target < entry /\ entry < sl
  end ->
  (~ entry == 0 ->
   exists trade,
     create_trade self now sym side entry sl target qty risk strat ind
     = (Py.Ok trade,
        mk (account_balance self) (trades self ++ [trade]) (active_positions self))
     /\ status trade = PENDING
     /\ id trade = mkId now (List.length (trades self)))
  /\ (entry == 0 ->
      create_trade self now sym side entry sl target qty risk strat ind
      = (Py.Raise Py.ZeroDivisionError, self)).
Proof.
  intro Hord. apply validate_prices_ok in Hord. split.
  - intro Hne.
    destruct (create_trade_succeeds self now sym side entry sl target qty risk strat ind
                Hord Hne) as [trade Hc].
    exists trade. split; [exact Hc|].
    split; [apply (create_trade_pending _ _ _ _ _ _ _ _ _ _ _ _ _ Hc)
           |apply (create_trade_id _ _ _ _ _ _ _ _ _ _ _ _ _ Hc)].
  - intro Hz. unfold create_trade. rewrite Hord. cbn [Py.bind].
    set (quantity := match qty with
                     | Some q => q
                     | None => calculate_position_size self entry sl risk
                     end).
    assert (Hrr : exists rr,
              (if Py.ltb 0 (Qabs (entry - sl) * quantity)
               then Py.div (Qabs (target - entry) * quantity)
                      (Qabs (entry - sl) * quantity)
               else Py.Ok 0) = Py.Ok rr).
    { destruct (Py.ltb 0 _) eqn:E; [|eexists; reflexivity].
      apply ltb_spec in E. rewrite div_ok by lra. eexists. reflexivity. }
    destruct Hrr as [rr ->]. cbn [Py.bind].
    unfold Py.div at 1, Py.eqb. apply Qeq_bool_iff in Hz. rewrite Hz. reflexivity.
Qed.

(** [create_trade_outcomes] at work: a LONG at 100 is recorded as the first
    trade, and a LONG "entered" at 0 with a negative stop raises. *)
Lemma create_trade_outcomes_witness :
  (exists trade,
     create_trade init 7 "BTCUSDT" LONG 100 95 110 (Some 1) 1 "Manual" []
     = (Py.Ok trade, mk 0 [trade] [])
     /\ status trade = PENDING /\ id trade = mkId 7 0)
  /\ create_trade init 7 "BTCUSDT" LONG 0 (-1) 1 (Some 1) 1 "Manual" []
     = (Py.Raise Py.ZeroDivisionError, init).
Proof.
  split.
  - apply (proj1 (create_trade_outcomes init 7 "BTCUSDT" LONG 100 95 110 (Some 1) 1
                    "Manual" [] (conj eq_refl eq_refl))).
    intro H. discriminate H.
  - apply (proj2 (create_trade_outcomes init 7 "BTCUSDT" LONG 0 (-1) 1 (Some 1) 1
                    "Manual" [] (conj eq_refl eq_refl))).
    reflexivity.
Defined.

End TradeCreation.

Section StrategyTrade64.

Import Floats TradeSetup64 StrategyBasedTradeSetup64.

(** X12: [create_trade_from_strategy] on binary64 numbers.  It raises a
    [ValueError] on fewer than two rows.  On two rows or more it raises a
    [TypeError] when the side is to be read off the indicators and [rsi] holds
    [None], and when [atr] holds [None]; a LONG request whose ATR is positive
    but so small that price - 2 * ATR is the price again raises the
    [ValueError] of a stop that is not below the entry.  In all these cases
    the ledger is left alone.  When it returns, it has appended a PENDING trade
    on the side given or read off the indicators, with the last close rounded
    to 8 decimals as its entry, a stop and a target that passed the validation
    of [create_trade], and the quantity of the ledger's sizing helper. *)
Theorem create_trade_from_strategy_outcomes
    (self : t) (now : Z) (symbol strategy_name : string) (earlier : list float)
    (previous price : float) (indicators : Indicators)
    (given_side : option TradeSetup.PositionType) :
  let closes := (earlier ++ [previous; price])%list in
  let create := create_trade_from_strategy self now symbol closes strategy_name
                  indicators given_side in
  (forall few, (List.length few < 2)%nat ->
     exists msg,
       create_trade_from_strategy self now symbol few strategy_name indicators
         given_side = (Py.Raise (Py.ValueError msg), self))
  /\ (given_side = None -> rsi indicators = IsNone ->
      create = (Py.Raise Py.TypeError, self))
  /\ (forall side, side_for indicators given_side = Py.Ok side ->
      atr indicators = IsNone ->
      create = (Py.Raise Py.TypeError, self))
  /\ (forall a,
        side_for indicators given_side = Py.Ok TradeSetup.LONG ->
        atr indicators = Number a -> (0 <? a)%float = true ->
        truthy (support indicators) = None ->
        (price - a * 2)%float = price ->
        Float64.round price 8 = price ->
        (price <=? price)%float = true ->
        exists msg, create = (Py.Raise (Py.ValueError msg), self))
  /\ (forall trade ledger,
        create = (Py.Ok trade, ledger) ->
        exists side sl target,
          side_for indicators given_side = Py.Ok side
          /\ levels indicators side price = Py.Ok (sl, target)
          /\ validate_prices side price (Float64.round sl 8) (Float64.round target 8)
             = Py.Ok tt
          /\ ledger = mk (account_balance self) (trades self ++ [trade])
                        (active_positions self)
          /\ status trade = TradeSetup.PENDING
          /\ position_type trade = side
          /\ entry_price trade = Float64.round price 8
          /\ quantity trade
             = Float64.round
                 (calculate_position_size self price (Float64.round sl 8) 1) 8).
Proof.
  cbv zeta.
  assert (Hlong : Nat.ltb (List.length (earlier ++ [previous; price])) 2 = false).
  { apply Nat.ltb_ge. rewrite length_app. cbn. lia. }
  assert (Hrev : rev (earlier ++ [previous; price]) = price :: previous :: rev earlier).
  { rewrite rev_app_distr. reflexivity. }
  unfold create_trade_from_strategy at 2 3 4 5. rewrite Hlong, Hrev.
  split; [|split; [|split; [|split]]].
  - intros few Hfew. unfold create_trade_from_strategy.
    apply Nat.ltb_lt in Hfew. rewrite Hfew. eexists. reflexivity.
  - intros -> Hrsi. unfold side_for. rewrite Hrsi. reflexivity.
  - intros side Hside Hatr. rewrite Hside. unfold levels. rewrite Hatr. reflexivity.
  - intros a Hside Hatr Hpos Hsupport Habsorbed Hgrid Hnumber.
    rewrite Hside. unfold levels. rewrite Hatr. cbn [get compare Py.bind].
    rewrite Hpos, Hsupport, Habsorbed, Hgrid.
    unfold create_trade, validate_prices. rewrite Hnumber. cbn [Py.bind].
    eexists. reflexivity.
  - intros trade ledger H.
    destruct (side_for indicators given_side) as [side|e] eqn:Es; [|discriminate].
    destruct (levels indicators side price) as [[sl target]|e] eqn:El; [|discriminate].
    apply create_trade64_ok in H. cbv beta iota zeta in H.
    destruct H as (Hv & _ & Hl & Hst & Hside & He & _ & _ & Hq & _).
    exists side, sl, target. repeat split; try reflexivity; assumption.
Qed.

(** [create_trade_from_strategy_outcomes] at work: one row raises; two rows
    with an RSI of 25 record a LONG trade; a [None] under [atr] raises a
    [TypeError]; and a price of 1000000000 with an ATR of 0.00000001 raises a
    [ValueError], the stop being the price itself. *)
Lemma create_trade_from_strategy_outcomes_witness :
  (exists msg,
     create_trade_from_strategy (mk 100000 [] []) 0 "BTCUSDT" [100%float]
       "Mean Reversion" (mkIndicators (Number 25) Absent Absent Absent Absent) None
     = (Py.Raise (Py.ValueError msg), mk 100000 [] []))
  /\ (exists trade,
        create_trade_from_strategy (mk 100000 [] []) 0 "BTCUSDT" [99; 100]%float
          "Mean Reversion" (mkIndicators (Number 25) Absent Absent Absent Absent) None
        = (Py.Ok trade, mk 100000 [trade] [])
        /\ position_type trade = TradeSetup.LONG)
  /\ create_trade_from_strategy (mk 100000 [] []) 0 "BTCUSDT" [99; 100]%float
       "Mean Reversion" (mkIndicators (Number 25) Absent IsNone Absent Absent) None
     = (Py.Raise Py.TypeError, mk 100000 [] [])
  /\ (exists msg,
        create_trade_from_strategy (mk 100000 [] []) 0 "BTCUSDT"
          [1000000000; 1000000000]%float "Mean Reversion"
          (mkIndicators (Number 25) Absent (Number (1 / 100000000)%float) Absent Absent)
          None
        = (Py.Raise (Py.ValueError msg), mk 100000 [] [])).
Proof.
  split; [|split; [|split]].
  - apply (proj1 (create_trade_from_strategy_outcomes (mk 100000 [] []) 0 "BTCUSDT"
                    "Mean Reversion" [] 99 100
                    (mkIndicators (Number 25) Absent Absent Absent Absent) None)).
    cbn. lia.
  - destruct (create_trade_from_strategy (mk 100000 [] []) 0 "BTCUSDT" [99; 100]%float
                "Mean Reversion" (mkIndicators (Number 25) Absent Absent Absent Absent)
                None) as [[trade|e] ledger] eqn:E.
    + destruct (create_trade_from_strategy_outcomes (mk 100000 [] []) 0 "BTCUSDT"
                  "Mean Reversion" [] 99 100
                  (mkIndicators (Number 25) Absent Absent Absent Absent) None)
        as (_ & _ & _ & _ & Hok).
      destruct (Hok trade ledger E) as (side & sl & target & Hs & _ & _ & -> & _ & Hp & _).
      exists trade. split; [reflexivity|].
      rewrite Hp. vm_compute in Hs. injection Hs as <-. reflexivity.
    + vm_compute in E. discriminate E.
  - apply (proj1 (proj2 (proj2 (create_trade_from_strategy_outcomes
                    (mk 100000 [] []) 0 "BTCUSDT" "Mean Reversion" [] 99 100
                    (mkIndicators (Number 25) Absent IsNone Absent Absent) None)))
             TradeSetup.LONG); reflexivity.
  - apply (proj1 (proj2 (proj2 (proj2 (create_trade_from_strategy_outcomes
                    (mk 100000 [] []) 0 "BTCUSDT" "Mean Reversion" [] 1000000000
                    1000000000
                    (mkIndicators (Number 25) Absent (Number (1 / 100000000)%float)
                       Absent Absent) None))))
             (1 / 100000000)%float); vm_compute; reflexivity.
Defined.

End StrategyTrade64.

Section TradeExecution.

Import TradeSetup TradeLifecycle TradeManager.

Lemma calculate_pnl_entry_on_grid (trade : Trade) (price : option Q) :
  on_grid (entry_price trade) ->
  on_grid (entry_price (snd (_calculate_pnl trade price))).
Proof.
  intro H. destruct (calculate_pnl_keeps trade price) as (_ & _ & He & _).
  rewrite He. exact H.
Qed.

Lemma step_entries_on_grid (self : t) (call : Call) :
  Forall (fun trade => on_grid (entry_price trade)) (trades self) ->
  Forall (fun trade => on_grid (entry_price trade)) (trades (step self call)).
Proof.
  intro HF.
  assert (Hhit : forall now trade_id ref trade new_status price answer,
            on_grid (entry_price trade) ->
            Forall (fun trade => on_grid (entry_price trade))
              (trades (snd (hit self now trade_id ref trade new_status price answer)))).
  { intros now trade_id ref trade new_status price answer Ht. unfold hit.
    pose proof (calculate_pnl_entry_on_grid
                  (with_exit now (Py.round price 8) (with_status new_status trade))
                  None Ht) as Hp.
    destruct (_calculate_pnl _ None) as [[u|e] trade']; cbn in *;
      apply store_Forall; assumption. }
  destruct call as [balance|now sym side entry sl target qty risk strat ind
                   |now trade_id price|now trade_id price|now trade_id price];
    cbn [step].
  - exact HF.
  - destruct (create_trade_ledger self now sym side entry sl target qty risk strat ind)
      as [->|[trade Hc]]; [exact HF|].
    apply create_trade_ok in Hc as (_ & Hl & _ & He & _).
    rewrite Hl. cbn [trades]. apply Forall_app. split; [exact HF|].
    constructor; [|constructor]. unfold on_grid. rewrite He. apply round_idempotent.
  - unfold activate_trade.
    destruct (get_trade self trade_id) as [ref|]; [|exact HF].
    destruct (deref self ref) as [trade|] eqn:Hd; [|exact HF].
    destruct (negb _); [exact HF|].
    cbn [snd trades]. apply store_Forall; [|exact HF].
    destruct (truthy price) as [p|]; cbn.
    + apply round_idempotent.
    + exact (deref_Forall _ _ _ _ HF Hd).
  - unfold check_trade.
    destruct (get_trade self trade_id) as [ref|]; [|exact HF].
    destruct (deref self ref) as [trade|] eqn:Hd; [|exact HF].
    pose proof (deref_Forall _ _ _ _ HF Hd) as Ht. cbn beta in Ht.
    destruct (negb _); [exact HF|].
    destruct (match position_type trade with LONG => _ | SHORT => _ end)
      as [is_sl is_target].
    destruct is_sl; [apply Hhit; exact Ht|].
    destruct is_target; [apply Hhit; exact Ht|].
    pose proof (calculate_pnl_entry_on_grid trade (Some price) Ht) as Hp.
    destruct (_calculate_pnl trade (Some price)) as [[u|e] trade']; cbn in *;
      apply store_Forall; assumption.
  - unfold close_trade.
    destruct (get_trade self trade_id) as [ref|]; [|exact HF].
    destruct (deref self ref) as [trade|] eqn:Hd; [|exact HF].
    pose proof (deref_Forall _ _ _ _ HF Hd) as Ht. cbn beta in Ht.
    destruct (negb _); [exact HF|].
    pose proof (calculate_pnl_entry_on_grid
                  (with_exit now (Py.round price 8) (with_status CLOSED trade))
                  None Ht) as Hp.
    destruct (_calculate_pnl _ None) as [[u|e] trade']; cbn in *;
      apply store_Forall; assumption.
Qed.

Lemma run_entries_on_grid (calls : list Call) :
  Forall (fun trade => on_grid (entry_price trade)) (trades (run calls)).
Proof.
  unfold run.
  assert (H : Forall (fun trade => on_grid (entry_price trade)) (trades init))
    by constructor.
  revert H. generalize init.
  induction calls as [|call calls IH]; intros self H; cbn [fold_left].
  - exact H.
  - apply IH, step_entries_on_grid, H.
Qed.

Lemma step_in_range_weakly_ordered (self : t) (call : Call) :
  fill_in_range self call ->
  Forall weakly_ordered (trades self) ->
  Forall weakly_ordered (trades (step self call)).
Proof.
  intros Hfill HF.
  destruct call as [balance|now sym side entry sl target qty risk strat ind
                   |now trade_id actual|now trade_id price|now trade_id price];
    try (apply step_weakly_ordered; [exact I|exact HF]).
  cbn [step]. unfold activate_trade.
  destruct (get_trade self trade_id) as [ref|] eqn:Hg; [|exact HF].
  destruct (deref self ref) as [trade|] eqn:Hd; [|exact HF].
  destruct (TradeStatus_eqb (status trade) PENDING) eqn:Hs; [|exact HF].
  apply status_eqb_eq in Hs. cbn [negb snd trades].
  apply store_Forall; [|exact HF].
  pose proof (deref_Forall _ _ _ _ HF Hd) as Ht.
  destruct (truthy actual) as [price|] eqn:Hp; [|exact Ht].
  exact (Hfill ref trade price Hg Hd Hs Hp).
Qed.

Lemma fold_in_range_weakly_ordered (calls : list Call) (self : t) :
  fills_in_range self calls ->
  Forall weakly_ordered (trades self) ->
  Forall weakly_ordered (trades (fold_left step calls self)).
Proof.
  revert self. induction calls as [|call calls IH]; intros self Hfills HF;
    cbn [fold_left].
  - exact HF.
  - destruct Hfills as [Hcall Hrest].
    apply IH; [exact Hrest|]. apply step_in_range_weakly_ordered; assumption.
Qed.

Lemma fills_in_range_app (first second : list Call) (self : t) :
  fills_in_range self (first ++ second)
  <-> fills_in_range self first
      /\ fills_in_range (fold_left step first self) second.
Proof.
  revert self. induction first as [|call first IH]; intro self;
    cbn [app fills_in_range fold_left].
  - tauto.
  - rewrite IH. tauto.
Qed.

Lemma keeps_entry_price_in_range (calls : list Call) (self : t) :
  Forall keeps_entry_price calls -> fills_in_range self calls.
Proof.
  intro Hk. revert self.
  induction Hk as [|call calls Hcall _ IH]; intro self; cbn [fills_in_range].
  - exact I.
  - split; [|apply IH].
    destruct call; cbn in *; try exact I.
    intros ref trade price _ _ _ Hp. congruence.
Qed.

(** The call [execute_trade] makes qualifies on every ledger whose trades
    are weakly ordered with their entries on the grid of 8 decimals. *)
Lemma stored_price_in_range (self : t) (now : Z) (trade_id : TradeId)
    (ref : nat) (trade : Trade) :
  Forall weakly_ordered (trades self) ->
  Forall (fun trade => on_grid (entry_price trade)) (trades self) ->
  get_trade self trade_id = Some ref ->
  deref self ref = Some trade ->
  fill_in_range self (call_activate_trade now trade_id (Some (entry_price trade))).
Proof.
  intros Hord Hgrid Hg Hd ref' trade' price Hg' Hd' _ Hp.
  rewrite Hg in Hg'. injection Hg' as <-.
  rewrite Hd in Hd'. injection Hd' as <-.
  pose proof (deref_Forall _ _ _ _ Hord Hd) as Ht.
  pose proof (deref_Forall _ _ _ _ Hgrid Hd) as Hon. cbn beta in Hon.
  unfold truthy in Hp.
  destruct (Py.eqb (entry_price trade) 0); [discriminate|].
  injection Hp as <-. unfold on_grid in Hon.
  unfold between, weakly_ordered in *.
  destruct (position_type trade); destruct Ht; split; lra.
Qed.

(** X13: [TradeManager.execute_trade] activates a trade at the entry price
    the ledger already stores for it.  On every ledger built by calls whose
    actual entry prices round to a price between stop and target, it keeps
    every trade weakly ordered; when the call returns, the trade has gone
    from PENDING to ACTIVE with its entry price, stop and target unchanged;
    and the ledger it leaves is again built by such calls, so that all this
    holds as well after any number of executions. *)
Theorem execute_trade_keeps_prices (calls : list Call) (now : Z)
    (trade_id : TradeId) (order : Py.result unit) :
  fills_in_range init calls ->
  let ledger := run calls in
  Forall weakly_ordered (trades (snd (execute_trade ledger now trade_id order)))
  /\ (forall ref,
        fst (execute_trade ledger now trade_id order) = Py.Ok ref ->
        exists planned started,
          deref ledger ref = Some planned
          /\ deref (snd (execute_trade ledger now trade_id order)) ref = Some started
          /\ status planned = PENDING /\ status started = ACTIVE
          /\ entry_price started == entry_price planned
          /\ sl_price started = sl_price planned
          /\ target_price started = target_price planned)
  /\ (exists calls',
        snd (execute_trade ledger now trade_id order) = run calls'
        /\ fills_in_range init calls').
Proof.
  intros Hk. cbv zeta.
  pose proof (fold_in_range_weakly_ordered calls init Hk (Forall_nil _)) as Hord.
  fold (run calls) in Hord.
  pose proof (run_entries_on_grid calls) as Hgrid.
  assert (Hsame : exists calls', run calls = run calls' /\ fills_in_range init calls')
    by (exists calls; split; [reflexivity|exact Hk]).
  set (ledger := run calls) in *.
  unfold execute_trade.
  destruct (get_trade ledger trade_id) as [ref|] eqn:Hg;
    [|split; [exact Hord|split; [discriminate|exact Hsame]]].
  destruct (deref ledger ref) as [trade|] eqn:Hd;
    [|split; [exact Hord|split; [discriminate|exact Hsame]]].
  destruct order as [[]|e]; [|split; [exact Hord|split; [discriminate|exact Hsame]]].
  pose proof (stored_price_in_range ledger now trade_id ref trade Hord Hgrid Hg Hd)
    as Hcall.
  assert (Hnext : exists calls',
            snd (activate_trade ledger now trade_id (Some (entry_price trade)))
            = run calls' /\ fills_in_range init calls').
  { exists (calls ++ [call_activate_trade now trade_id (Some (entry_price trade))]).
    split.
    - unfold run. rewrite fold_left_app. reflexivity.
    - apply fills_in_range_app. split; [exact Hk|]. split; [exact Hcall|exact I]. }
  split; [|split; [|exact Hnext]].
  - exact (step_in_range_weakly_ordered ledger
             (call_activate_trade now trade_id (Some (entry_price trade))) Hcall Hord).
  - unfold activate_trade. rewrite Hg, Hd.
    destruct (TradeStatus_eqb (status trade) PENDING) eqn:Hs; [|discriminate].
    apply status_eqb_eq in Hs. cbn [negb fst snd trades].
    pose proof (deref_Forall _ _ _ _ Hgrid Hd) as Hon. cbn beta in Hon.
    unfold on_grid in Hon.
    set (started :=
           match truthy (Some (entry_price trade)) with
           | Some price =>
               with_reward_amount _
                 (with_risk_amount _
                    (with_entry_price (Py.round price 8)
                       (with_entry_time (Some now) (with_status ACTIVE trade))))
           | None => with_entry_time (Some now) (with_status ACTIVE trade)
           end).
    assert (Hfacts : status started = ACTIVE
                     /\ entry_price started == entry_price trade
                     /\ sl_price started = sl_price trade
                     /\ target_price started = target_price trade).
    { unfold started, truthy.
      destruct (Py.eqb (entry_price trade) 0); cbn; repeat split;
        try reflexivity; exact Hon. }
    destruct Hfacts as (Hst & He & Hsl & Htg).
    intros r Hr. injection Hr as <-.
    exists trade, started. split; [exact Hd|].
    split; [apply (nth_error_store_same _ _ trade), Hd|].
    repeat split; assumption.
Qed.

(** [execute_trade_keeps_prices] on a ledger with one planned LONG trade
    and one that was executed before: executing the planned one leaves a
    weakly ordered ledger. *)
Lemma execute_trade_keeps_prices_witness :
  Forall weakly_ordered
    (trades (snd (execute_trade
                    (run [call_create_trade 0 "BTCUSDT" LONG 100 95 110 (Some 1) 1
                            "Manual" [];
                          call_activate_trade 1 (mkId 0 0) (Some 100);
                          call_create_trade 2 "BTCUSDT" LONG 100 95 110 (Some 1) 1
                            "Manual" []])
                    3 (mkId 2 1) (Py.Ok tt)))).
Proof.
  apply (execute_trade_keeps_prices
           [call_create_trade 0 "BTCUSDT" LONG 100 95 110 (Some 1) 1 "Manual" [];
            call_activate_trade 1 (mkId 0 0) (Some 100);
            call_create_trade 2 "BTCUSDT" LONG 100 95 110 (Some 1) 1 "Manual" []]
           3 (mkId 2 1) (Py.Ok tt)).
  cbn [fills_in_range fill_in_range]. split; [exact I|]. split; [|split; exact I].
  intros ref trade price Hg Hd _ Hp.
  vm_compute in Hg. injection Hg as <-.
  vm_compute in Hd. injection Hd as <-.
  vm_compute in Hp. injection Hp as <-.
  split; apply Qle_bool_iff; vm_compute; reflexivity.
Defined.

End TradeExecution.

(** ** The price ordering of the ledger (trade_setup.py) *)

Section LedgerOrdering.

Import TradeSetup TradeLifecycle.

(** The ledger does not keep the strict ordering of C1.  An actual entry
    price handed to [activate_trade] replaces the validated one unchecked: a
    LONG trade planned at 100 with stop 95 and activated at 90 sits in the
    ledger with its entry below its stop.  And the stored prices are rounded
    to 8 decimals: a LONG trade entered at 100.000000001 with stop 100 is
    stored with entry and stop both 100. *)
Lemma ledger_ordering_broken :
  (exists trade,
     In trade (trades (run [call_create_trade 0 "BTCUSDT" LONG 100 95 110 (Some 1)
                              1 "Manual" [];
                            call_activate_trade 1 (mkId 0 0) (Some 90)]))
     /\ position_type trade = LONG
     /\ entry_price trade < sl_price trade
     /\ ~ ordered trade)
  /\ (exists trade,
        In trade (trades (run [call_create_trade 0 "BTCUSDT" LONG
                                 (100000000001 # 1000000000) 100 110 (Some 1)
                                 1 "Manual" []]))
        /\ position_type trade = LONG
        /\ entry_price trade == sl_price trade
        /\ ~ ordered trade).
Proof.
  split.
  - eexists. split; [left; reflexivity|].
    split; [reflexivity|]. split; [reflexivity|].
    unfold ordered. cbn [position_type]. intros [H _].
    apply Qlt_alt in H. vm_compute in H. discriminate H.
  - eexists. split; [left; reflexivity|].
    split; [reflexivity|]. split; [vm_compute; reflexivity|].
    unfold ordered. cbn [position_type]. intros [H _].
    apply Qlt_alt in H. vm_compute in H. discriminate H.
Qed.

(** C1 (amended): [create_trade] raises a [ValueError] and leaves the ledger
    untouched unless sl < entry < target for LONG, target < entry < sl for
    SHORT; [create_trade('BTCUSDT', LONG, entry=100, sl=105, target=110)]
    raises; a trade it appends was requested with strictly ordered prices and
    is stored, prices rounded to 8 decimals, with sl <= entry <= target (LONG)
    or target <= entry <= sl (SHORT); every trade of a ledger keeps that weak
    ordering as long as each actual entry price that [activate_trade] stores
    rounds to a price between the stop and the target of its trade; an
    activation that stores a price outside them leaves its trade out of
    order; and calls that hand [activate_trade] no actual entry price are
    among the calls that keep the ordering. *)
Theorem create_trade_price_ordering :
  (forall self now sym side entry sl target qty risk strat ind,
     ~ match side with
       | LONG => sl < entry /\ entry < target
       | SHORT => target < entry /\ entry < sl
       end ->
     exists msg,
       create_trade self now sym side entry sl target qty risk strat ind
         = (Py.Raise (Py.ValueError msg), self))
  /\ (forall self now qty risk strat ind,
        exists msg,
          create_trade self now "BTCUSDT" LONG 100 105 110 qty risk strat ind
            = (Py.Raise (Py.ValueError msg), self))
  /\ (forall self now sym side entry sl target qty risk strat ind trade ledger,
        create_trade self now sym side entry sl target qty risk strat ind
          = (Py.Ok trade, ledger) ->
        match side with
        | LONG => sl < entry /\ entry < target
        | SHORT => target < entry /\ entry < sl
        end
        /\ trades ledger = trades self ++ [trade]
        /\ position_type trade = side
        /\ weakly_ordered trade)
  /\ (forall calls,
        fills_in_range init calls ->
        Forall weakly_ordered (trades (run calls)))
  /\ (forall self now trade_id actual_entry_price ref trade price,
        get_trade self trade_id = Some ref ->
        deref self ref = Some trade ->
        status trade = PENDING ->
        truthy actual_entry_price = Some price ->
        ~ between trade (Py.round price 8) ->
        exists started,
          deref (snd (activate_trade self now trade_id actual_entry_price)) ref
            = Some started
          /\ status started = ACTIVE
          /\ ~ weakly_ordered started)
  /\ (forall calls,
        Forall keeps_entry_price calls -> fills_in_range init calls).
Proof.
  assert (Raises : forall self now sym side entry sl target qty risk strat ind,
     ~ match side with
       | LONG => sl < entry /\ entry < target
       | SHORT => target < entry /\ entry < sl
       end ->
     exists msg,
       create_trade self now sym side entry sl target qty risk strat ind
         = (Py.Raise (Py.ValueError msg), self)).
  { intros self now sym side entry sl target qty risk strat ind H.
    destruct (validate_prices_raises side entry sl target H) as [msg Hm].
    exists msg. apply create_trade_raises, Hm. }
  split; [exact Raises|]. split; [|split; [|split; [|split]]].
  - intros self now qty risk strat ind. apply Raises.
    intros [H _]. apply Qlt_alt in H. vm_compute in H. discriminate H.
  - intros self now sym side entry sl target qty risk strat ind trade ledger Hc.
    apply create_trade_ok in Hc as (Hv & Hl & Hs & He & Hsl & Ht).
    apply validate_prices_ok in Hv.
    split; [exact Hv|]. split; [rewrite Hl; reflexivity|]. split; [exact Hs|].
    unfold weakly_ordered. rewrite Hs, He, Hsl, Ht.
    destruct side; destruct Hv; split; apply round_mono; lra.
  - intros calls Hk. apply fold_in_range_weakly_ordered; [exact Hk|constructor].
  - intros self now trade_id actual ref trade price Hg Hd Hs Hp Hout.
    unfold activate_trade. rewrite Hg, Hd, Hs, Hp. cbn [TradeStatus_eqb negb snd].
    eexists. split; [apply (nth_error_store_same _ _ trade), Hd|].
    split; [reflexivity|].
    intro Hw. apply Hout. exact Hw.
  - intros calls Hk. apply keeps_entry_price_in_range, Hk.
Qed.

(** [create_trade_price_ordering] at work: a SHORT request with its stop
    below the entry raises; a valid LONG request is appended, weakly ordered;
    the ledger built by a create, an activation at 101 of the trade planned
    at 100 with stop 95 and target 110, and a close holds only weakly
    ordered trades; and the same trade activated at 90 is stored out of
    order. *)
Lemma create_trade_price_ordering_witness :
  (exists msg,
     create_trade init 0 "BTCUSDT" SHORT 100 95 90 None 1 "Manual" []
       = (Py.Raise (Py.ValueError msg), init))
  /\ (exists trade ledger,
        create_trade init 0 "BTCUSDT" LONG 100 95 110 (Some 1) 1 "Manual" []
          = (Py.Ok trade, ledger)
        /\ trades ledger = [trade]
        /\ weakly_ordered trade)
  /\ Forall weakly_ordered
       (trades (run [call_create_trade 0 "BTCUSDT" LONG 100 95 110 (Some 1)
                       1 "Manual" [];
                     call_activate_trade 1 (mkId 0 0) (Some 101);
                     call_close_trade 2 (mkId 0 0) 105]))
  /\ (exists started,
        deref (snd (activate_trade
                      (run [call_create_trade 0 "BTCUSDT" LONG 100 95 110 (Some 1)
                              1 "Manual" []])
                      1 (mkId 0 0) (Some 90))) 0
          = Some started
        /\ status started = ACTIVE
        /\ ~ weakly_ordered started).
Proof.
  split; [|split; [|split]].
  - apply (proj1 create_trade_price_ordering).
    intros [_ H]. apply Qlt_alt in H. vm_compute in H. discriminate H.
  - destruct (create_trade init 0 "BTCUSDT" LONG 100 95 110 (Some 1) 1 "Manual" [])
      as [[trade|e] ledger] eqn:E; [|vm_compute in E; discriminate E].
    exists trade, ledger. split; [reflexivity|].
    destruct (proj1 (proj2 (proj2 create_trade_price_ordering))
                init 0%Z "BTCUSDT"%string LONG 100 95 110 (Some 1) 1 "Manual"%string []
                trade ledger E) as (_ & Ht & _ & Hw).
    split; [exact Ht|exact Hw].
  - apply (proj1 (proj2 (proj2 (proj2 create_trade_price_ordering)))).
    cbn [fills_in_range fill_in_range]. split; [exact I|]. split; [|split; exact I].
    intros ref trade price Hg Hd _ Hp.
    vm_compute in Hg. injection Hg as <-.
    vm_compute in Hd. injection Hd as <-.
    vm_compute in Hp. injection Hp as <-.
    split; apply Qle_bool_iff; vm_compute; reflexivity.
  - eapply (proj1 (proj2 (proj2 (proj2 (proj2 create_trade_price_ordering))))
              (run [call_create_trade 0 "BTCUSDT" LONG 100 95 110 (Some 1)
                      1 "Manual" []])
              1%Z (mkId 0 0) (Some 90) 0%nat).
    + vm_compute. reflexivity.
    + vm_compute. reflexivity.
    + reflexivity.
    + vm_compute. reflexivity.
    + intros [H _]. apply Qle_bool_iff in H. vm_compute in H. discriminate H.
Defined.

End LedgerOrdering.

(** ** The books of a backtest (backtesting.py) *)

Section Books.

Import Backtesting BacktestBooks.

Variable self : Backtesting.t.
Variable strategy : Strategy.

Lemma sum_snoc (l : list Q) (x : Q) : Py.sum (l ++ [x]) = Py.sum l + x.
Proof. unfold Py.sum. rewrite fold_left_app. reflexivity. Qed.

Lemma close_position_books (position : Position.t) (reason : string) (price : Q)
    (time : Z) (st st' : State) :
  close_position self strategy position reason price time st = Py.Ok st' ->
  exists trade,
    closes self position price reason trade
    /\ local_trades st' = local_trades st ++ [trade]
    /\ result_trades st' = result_trades st ++ [trade]
    /\ capital st' = capital st + Trade.pnl trade
    /\ curve st' = curve st
    /\ positions st' = positions st.
Proof.
  unfold close_position.
  destruct (Py.div _ _) as [ratio|e]; [|discriminate].
  cbn [Py.bind]. intro H. injection H as <-.
  eexists. refine (conj _ (conj eq_refl _)); [unfold closes|]; cbn; repeat split.
Qed.

Lemma pop_length {A : Type} (i : nat) (l rest : list A) (x : A) :
  pop i l = Some (x, rest) -> List.length l = S (List.length rest).
Proof.
  revert i x rest. induction l as [|y l IH]; intros [|i] x rest H; cbn in H;
    try discriminate.
  - injection H as <- <-. reflexivity.
  - destruct (pop i l) as [[z l']|] eqn:E; [|discriminate].
    injection H as <- <-. cbn. rewrite (IH _ _ _ E). reflexivity.
Qed.

Lemma exit_reason_of_not_end (position : Position.t) (price : Q) (reason : string) :
  exit_reason_of strategy position price = Py.Ok (Some reason) ->
  reason <> "end_of_data"%string.
Proof.
  unfold exit_reason_of.
  destruct (Py.ltb 0 _ && _); [intro H; injection H as <-; discriminate|].
  destruct (Py.ltb 0 _ && _); [intro H; injection H as <-; discriminate|].
  destruct (should_exit strategy position price) as [[|]|e]; cbn;
    intro H; [injection H as <-| |]; discriminate.
Qed.

Lemma positions_to_close_reasons (price : Q) (open_positions : list Position.t)
    (idx : nat) (found : list (nat * string * Q)) :
  positions_to_close strategy price open_positions idx = Py.Ok found ->
  Forall (fun item => snd (fst item) <> "end_of_data"%string) found.
Proof.
  revert idx found. induction open_positions as [|p ps IH]; intros idx found H;
    cbn [positions_to_close] in H.
  - injection H as <-. constructor.
  - destruct (exit_reason_of strategy p price) as [reason|e] eqn:E; [|discriminate].
    cbn [Py.bind] in H.
    destruct (positions_to_close strategy price ps (S idx)) as [others|e] eqn:E2;
      [|discriminate].
    cbn [Py.bind] in H. injection H as <-.
    specialize (IH _ _ E2).
    destruct reason as [reason|]; [|exact IH].
    constructor; [|exact IH]. cbn. apply (exit_reason_of_not_end _ _ _ E).
Qed.

Lemma close_positions_books (initial : Q) (time : Z)
    (to_close : list (nat * string * Q)) (st st' : State) :
  Forall (fun item => snd (fst item) <> "end_of_data"%string) to_close ->
  (List.length (positions st) <= 1)%nat ->
  capital st == initial + Py.sum (map Trade.pnl (local_trades st)) ->
  Forall (fun trade => ~ end_of_data trade) (local_trades st) ->
  result_trades st = local_trades st ->
  close_positions self strategy time to_close st = Py.Ok st' ->
  (List.length (positions st') <= 1)%nat
  /\ capital st' == initial + Py.sum (map Trade.pnl (local_trades st'))
  /\ Forall (fun trade => ~ end_of_data trade) (local_trades st')
  /\ result_trades st' = local_trades st'
  /\ curve st' = curve st.
Proof.
  intro Hreasons. revert st.
  induction Hreasons as [|[[idx reason] price] others Hr _ IH];
    intros st Hone Hcap Hloop Hsame Hc; cbn [close_positions] in Hc.
  - injection Hc as <-. auto.
  - destruct (pop idx (positions st)) as [[position remaining]|] eqn:Hpop;
      [|discriminate].
    apply pop_length in Hpop.
    destruct (close_position self strategy position reason price time _)
      as [st1|e] eqn:E; [|discriminate].
    cbn [Py.bind] in Hc.
    apply close_position_books in E
      as (trade & Hreason & Hl & Hrt & Hcap1 & Hcurve & Hpos).
    cbn in Hl, Hrt, Hcap1, Hcurve, Hpos.
    destruct (IH st1) as (H1 & H2 & H3 & H4 & H5); try assumption.
    + rewrite Hpos. lia.
    + rewrite Hcap1, Hl, map_app. cbn [map]. rewrite sum_snoc, Hcap. ring.
    + rewrite Hl. apply Forall_app. split; [exact Hloop|].
      constructor; [|constructor]. unfold end_of_data.
      rewrite (proj1 Hreason). exact Hr.
    + rewrite Hrt, Hl, Hsame. reflexivity.
    + repeat split; try assumption. rewrite H5. exact Hcurve.
Qed.

Lemma open_position_books (pct : Q) (data : list Bar) (time : Z) (price : Q)
    (signal : Signal.t) (st st' : State) :
  open_position pct data time price signal st = Py.Ok st' ->
  capital st' = capital st /\ curve st' = curve st
  /\ local_trades st' = local_trades st /\ result_trades st' = result_trades st
  /\ (positions st' = positions st
      \/ (positions st = [] /\ exists position, positions st' = [position])).
Proof.
  unfold open_position.
  destruct (tradable (Signal.action signal)) as [side|];
    [|intro H; injection H as <-; repeat split; left; reflexivity].
  destruct (positions st) eqn:Hpos;
    [|intro H; injection H as <-; repeat split; left; exact Hpos].
  destruct (Py.div _ _) as [quantity|e]; [|discriminate].
  cbn [Py.bind]. intro H. injection H as <-. cbn. repeat split.
  right. split; [reflexivity|]. eexists. reflexivity.
Qed.

Lemma unrealized_flat (price : Q) : unrealized price [] = 0.
Proof. reflexivity. Qed.

(** Each bar adds one equity point, the capital plus what the open
    positions would bring at the close of the bar. *)
Lemma bar_step_point (df : list Bar) (pct : Q) (st st' : State) (i : nat) :
  bar_step self strategy df pct st i = Py.Ok st' ->
  exists bar points,
    nth_error df i = Some bar
    /\ List.length points = List.length (curve st)
    /\ curve st' = points ++ [capital st' + unrealized (close bar) (positions st')].
Proof.
  unfold bar_step.
  destruct (nth_error df i) as [bar|]; [|discriminate].
  destruct (positions_to_close _ _ _ _) as [to_close|e] eqn:E0; [|discriminate].
  cbn [Py.bind].
  destruct (close_positions _ _ _ _ _) as [st1|e] eqn:E1; [|discriminate].
  cbn [Py.bind].
  destruct (open_position _ _ _ _ _ _) as [st2|e] eqn:E2; [|discriminate].
  cbn [Py.bind]. intro H. injection H as <-.
  exists bar, (curve st2). split; [reflexivity|]. split; [|reflexivity].
  apply open_position_books in E2 as (_ & -> & _).
  clear E0. revert st E1. generalize (rev to_close). intro l.
  induction l as [|[[idx reason] price] others IH]; intros st Hc;
    cbn [close_positions] in Hc.
  - injection Hc as <-. reflexivity.
  - destruct (pop idx (positions st)) as [[position remaining]|]; [|discriminate].
    destruct (close_position self strategy position reason price _ _)
      as [st3|e] eqn:E; [|discriminate].
    cbn [Py.bind] in Hc.
    apply close_position_books in E as (_ & _ & _ & _ & _ & Hcurve & _).
    rewrite (IH _ Hc), Hcurve. reflexivity.
Qed.

Lemma bar_step_books (initial : Q) (df : list Bar) (pct : Q) (st st' : State) (i : nat) :
  balanced initial st ->
  bar_step self strategy df pct st i = Py.Ok st' ->
  balanced initial st'.
Proof.
  intros [Hone Hcap Hloop Hsame Hflat] Hb. unfold bar_step in Hb.
  destruct (nth_error df i) as [bar|]; [|discriminate].
  destruct (positions_to_close _ _ _ _) as [to_close|e] eqn:E0; [|discriminate].
  cbn [Py.bind] in Hb.
  destruct (close_positions _ _ _ _ _) as [st1|e] eqn:E1; [|discriminate].
  cbn [Py.bind] in Hb.
  destruct (open_position _ _ _ _ _ _) as [st2|e] eqn:E2; [|discriminate].
  cbn [Py.bind] in Hb. injection Hb as <-.
  apply positions_to_close_reasons in E0.
  apply (close_positions_books initial) in E1 as (H1 & H2 & H3 & H4 & H5);
    try assumption; [|apply Forall_rev, E0].
  apply open_position_books in E2 as (G1 & G2 & G3 & G4 & G5).
  constructor; cbn.
  - destruct G5 as [-> |(_ & position & ->)]; [exact H1|cbn; lia].
  - rewrite G1, G3. exact H2.
  - rewrite G3. exact H3.
  - rewrite G4, G3. exact H4.
  - intro Hnone. exists (curve st2). eexists. split; [reflexivity|].
    rewrite Hnone, unrealized_flat. ring.
Qed.

Lemma for_each_app {A S : Type} (body : S -> A -> Py.result S) (l1 l2 : list A)
    (s : S) :
  for_each body (l1 ++ l2) s
  = Py.bind (for_each body l1 s) (for_each body l2).
Proof.
  revert s. induction l1 as [|a l1 IH]; intro s; cbn [for_each app Py.bind].
  - reflexivity.
  - destruct (body s a) as [s'|e]; cbn [Py.bind]; [apply IH|reflexivity].
Qed.

Lemma loop_books (initial : Q) (df : list Bar) (pct : Q) (bars : list nat)
    (st st' : State) :
  balanced initial st ->
  for_each (bar_step self strategy df pct) bars st = Py.Ok st' ->
  balanced initial st'
  /\ List.length (curve st') = (List.length (curve st) + List.length bars)%nat.
Proof.
  revert st. induction bars as [|i bars IH]; intros st Hb Hf; cbn [for_each] in Hf.
  - injection Hf as <-. split; [exact Hb|cbn; lia].
  - destruct (bar_step self strategy df pct st i) as [st1|e] eqn:E; [|discriminate].
    cbn [Py.bind] in Hf.
    pose proof (bar_step_point _ _ _ _ _ E) as (bar & points & _ & Hpoints & Hcurve).
    apply (bar_step_books initial) in E; [|exact Hb].
    destruct (IH _ E Hf) as [Hb' Hlen']. split; [exact Hb'|].
    rewrite Hlen', Hcurve, length_app, Hpoints. cbn. lia.
Qed.

(** After the loop the last equity point values the open positions at the
    close of the last bar. *)
Lemma loop_last_point (df : list Bar) (pct : Q) (start count : nat)
    (st st' : State) :
  positions st = [] ->
  for_each (bar_step self strategy df pct) (seq start count) st = Py.Ok st' ->
  positions st' <> [] ->
  (0 < count)%nat
  /\ exists bar points,
       nth_error df (start + count - 1) = Some bar
       /\ curve st' = points ++ [capital st' + unrealized (close bar) (positions st')].
Proof.
  intros Hnone Hf Hopen. destruct count as [|count].
  - cbn in Hf. injection Hf as <-. contradiction.
  - rewrite seq_S, for_each_app in Hf.
    destruct (for_each _ (seq start count) st) as [st1|e]; [|discriminate].
    cbn [Py.bind for_each] in Hf.
    destruct (bar_step self strategy df pct st1 (start + count)) as [st2|e] eqn:E;
      [|discriminate].
    cbn [Py.bind] in Hf. injection Hf as <-.
    apply bar_step_point in E as (bar & points & Hbar & _ & Hcurve).
    split; [lia|]. exists bar, points. split; [|exact Hcurve].
    replace (start + S count - 1)%nat with (start + count)%nat by lia. exact Hbar.
Qed.

Lemma close_all_at_end (price : Q) (time : Z) (open_positions : list Position.t)
    (st st' : State) :
  for_each (fun st position =>
              close_position self strategy position "end_of_data" price time st)
    open_positions st = Py.Ok st' ->
  exists final,
    local_trades st' = local_trades st ++ final
    /\ result_trades st' = result_trades st ++ final
    /\ Forall2 (fun position trade =>
                  closes self position price "end_of_data" trade)
         open_positions final
    /\ curve st' = curve st.
Proof.
  revert st. induction open_positions as [|p ps IH]; intros st Hf; cbn [for_each] in Hf.
  - injection Hf as <-. exists []. rewrite !app_nil_r. repeat split. constructor.
  - destruct (close_position _ _ _ _ _ _ _) as [st1|e] eqn:E; [|discriminate].
    cbn [Py.bind] in Hf.
    apply close_position_books in E as (trade & Hr & Hl & Hrt & _ & Hc & _).
    destruct (IH _ Hf) as (final & Hl' & Hrt' & Hall & Hc').
    exists (trade :: final).
    rewrite Hl', Hl, Hrt', Hrt, <- !app_assoc. cbn [app].
    repeat split; [constructor; assumption|congruence].
Qed.

Lemma last_row_is_head_of_rev {A : Type} (l : list A) (x : A) (others : list A) :
  rev l = x :: others -> nth_error l (List.length l - 1) = Some x.
Proof.
  intro H. apply (f_equal (@rev A)) in H. rewrite rev_involutive in H. subst l.
  cbn [rev]. rewrite length_app, nth_error_app2 by (cbn; lia).
  replace (List.length (rev others) + List.length [x] - 1 - List.length (rev others))%nat
    with 0%nat by (cbn; lia).
  reflexivity.
Qed.

(** What a completed run of [run_backtest] on 50 rows or more leaves: the
    state [st] of the loop after the last bar and the trades [final] made
    by closing what was still open. *)
Lemma run_backtest_books (df : list Bar) (initial : option Q) (pct : Q)
    (result : BacktestResult) :
  (50 <= List.length df)%nat ->
  run_backtest self strategy df initial pct = Py.Ok result ->
  exists st final last_bar others,
    balanced (or_default initial (initial_capital self)) st
    /\ rev df = last_bar :: others
    /\ trades result = local_trades st ++ final
    /\ Forall2 (fun position trade =>
                  closes self position (close last_bar) "end_of_data" trade)
         (positions st) final
    /\ equity_curve result = curve st
    /\ List.length (curve st) = S (List.length df - min_period strategy)
    /\ total_pnl result == Py.sum (map Trade.pnl (trades result))
    /\ (positions st <> [] ->
        exists points,
          curve st
          = points ++ [capital st + unrealized (close last_bar) (positions st)]).
Proof.
  intros Hlen. unfold run_backtest.
  assert (E : Nat.ltb (List.length df) 50 = false) by (apply Nat.ltb_ge; exact Hlen).
  rewrite E.
  set (capital0 := or_default initial (initial_capital self)).
  destruct (for_each _ _ _) as [st1|e] eqn:E1; [|discriminate].
  cbn [Py.bind].
  pose proof (fun H => loop_last_point _ _ _ _ _ _ H E1) as Hlast.
  specialize (Hlast eq_refl).
  apply (loop_books capital0) in E1 as [Hb Hcurve].
  2: { constructor; cbn; try reflexivity; try constructor; try lia.
       - unfold Py.sum. cbn. ring.
       - intros _. exists [], capital0. split; reflexivity. }
  cbn [curve List.length] in Hcurve. rewrite length_seq in Hcurve.
  destruct (close_remaining self strategy df st1) as [st2|e] eqn:E2; [|discriminate].
  cbn [Py.bind]. intro H. injection H as <-.
  cbn [trades equity_curve total_pnl].
  destruct (rev df) as [|last_bar others] eqn:Hrev.
  { apply (f_equal (@List.length Bar)) in Hrev. rewrite length_rev in Hrev.
    cbn in Hrev. lia. }
  assert (Hend : exists final,
            local_trades st2 = local_trades st1 ++ final
            /\ result_trades st2 = result_trades st1 ++ final
            /\ Forall2 (fun position trade =>
                          closes self position (close last_bar) "end_of_data" trade)
                 (positions st1) final
            /\ curve st2 = curve st1).
  { unfold close_remaining in E2. rewrite Hrev in E2.
    destruct (positions st1) as [|p ps] eqn:Hpos.
    - injection E2 as <-. exists []. rewrite !app_nil_r. repeat split. constructor.
    - exact (close_all_at_end _ _ _ _ _ E2). }
  destruct Hend as (final & Hl & Hrt & Hall & Hc).
  exists st1, final, last_bar, others.
  split; [exact Hb|]. split; [reflexivity|].
  split; [rewrite Hrt, (same_trades _ _ Hb); reflexivity|].
  split; [exact Hall|]. split; [exact Hc|].
  split; [exact Hcurve|].
  split.
  - rewrite Hrt, (same_trades _ _ Hb), <- Hl.
    destruct (Nat.ltb 0 (List.length (local_trades st2))) eqn:En; [reflexivity|].
    apply Nat.ltb_ge in En. destruct (local_trades st2); [reflexivity|cbn in En; lia].
  - intro Hopen. destruct (Hlast Hopen) as (Hm & bar & points & Hbar & Hpoints).
    exists points. rewrite Hpoints.
    assert (Hsame : bar = last_bar).
    { apply last_row_is_head_of_rev in Hrev.
      replace (min_period strategy + (List.length df - min_period strategy) - 1)%nat
        with (List.length df - 1)%nat in Hbar by lia.
      congruence. }
    rewrite Hsame. reflexivity.
Qed.

End Books.

Section BacktestAccounts.

Import Backtesting BacktestBooks.

Variable self : Backtesting.t.
Variable strategy : Strategy.

(** X14: a completed backtest on 50 rows or more returns an equity curve
    with the starting capital followed by one point for each bar from the
    warm-up period on; closing what is still open after the last bar adds
    no point. *)
Theorem equity_curve_length (df : list Bar) (initial : option Q) (pct : Q)
    (result : BacktestResult) :
  (50 <= List.length df)%nat ->
  run_backtest self strategy df initial pct = Py.Ok result ->
  List.length (equity_curve result) = S (List.length df - min_period strategy).
Proof.
  intros Hlen Hrun.
  destruct (run_backtest_books self strategy _ _ _ _ Hlen Hrun)
    as (st & final & last_bar & others & _ & _ & _ & _ & -> & Hcurve & _).
  exact Hcurve.
Qed.

(** X15: the backtester holds one position at a time, so at most one trade
    of a completed backtest is closed for lack of data, and it is the last
    trade of the list. *)
Theorem end_of_data_trade_is_last (df : list Bar) (initial : option Q) (pct : Q)
    (result : BacktestResult) :
  (50 <= List.length df)%nat ->
  run_backtest self strategy df initial pct = Py.Ok result ->
  exists earlier final,
    trades result = earlier ++ final
    /\ Forall (fun trade => ~ end_of_data trade) earlier
    /\ Forall end_of_data final
    /\ (List.length final <= 1)%nat.
Proof.
  intros Hlen Hrun.
  destruct (run_backtest_books self strategy _ _ _ _ Hlen Hrun)
    as (st & final & last_bar & others & Hb & _ & Htrades & Hfinal & _).
  exists (local_trades st), final.
  split; [exact Htrades|]. split; [exact (closed_in_loop _ _ Hb)|]. split.
  - clear Htrades. induction Hfinal as [|position trade ps ts Hc _ IH];
      constructor; [exact (proj1 Hc)|exact IH].
  - rewrite <- (Forall2_length Hfinal). exact (one_position _ _ Hb).
Qed.

Lemma sum_app (l1 l2 : list Q) : Py.sum (l1 ++ l2) == Py.sum l1 + Py.sum l2.
Proof.
  induction l2 as [|x l2 IH] using rev_ind.
  - rewrite app_nil_r. unfold Py.sum at 3. cbn. ring.
  - rewrite app_assoc, !sum_snoc, IH. ring.
Qed.

Lemma compounded_sum (initial : Q) (closed : list Trade.t) :
  compounded initial closed == initial + Py.sum (map Trade.pnl closed).
Proof.
  unfold compounded. revert initial.
  induction closed as [|trade closed IH] using rev_ind; intro initial.
  - unfold Py.sum. cbn [fold_left map]. lra.
  - rewrite fold_left_app, map_app, sum_app. cbn [fold_left map].
    rewrite IH. unfold Py.sum. cbn [fold_left]. lra.
Qed.

(** X16: when no trade of a completed backtest was closed for lack of
    data, the last point of the equity curve is the capital as the loop has
    built it: the starting capital with the P&L of each trade added in the
    order of the trades. *)
Theorem final_equity_is_compounded_capital (df : list Bar) (initial : option Q)
    (pct : Q) (result : BacktestResult) :
  (50 <= List.length df)%nat ->
  run_backtest self strategy df initial pct = Py.Ok result ->
  Forall (fun trade => ~ end_of_data trade) (trades result) ->
  exists points last,
    equity_curve result = points ++ [last]
    /\ last == compounded (or_default initial (initial_capital self)) (trades result).
Proof.
  intros Hlen Hrun Hnone.
  destruct (run_backtest_books self strategy _ _ _ _ Hlen Hrun)
    as (st & final & last_bar & others & Hb & _ & Htrades & Hfinal & Hcurve
        & _ & Hpnl & _).
  rewrite Htrades in Hnone. apply Forall_app in Hnone as [_ Hnone].
  destruct (positions st) as [|position ps] eqn:Hpos.
  - inversion Hfinal as [Hempty|]. subst final.
    destruct (flat_equity _ _ Hb Hpos) as (points & last & Hpoints & Hlast).
    exists points, last. split; [congruence|].
    rewrite Hlast, compounded_sum, Htrades, app_nil_r.
    exact (capital_is_sum _ _ Hb).
  - inversion Hfinal as [|? trade ? ts Hc Hrest]. subst final.
    inversion Hnone as [|? ? Hnot _]. destruct (Hnot (proj1 Hc)).
Qed.

Lemma unrealized_one (price : Q) (position : Position.t) :
  unrealized price [position]
  == if String.eqb (Position.side position) "BUY"
     then (price - Position.entry_price position) * Position.quantity position
     else (Position.entry_price position - price) * Position.quantity position.
Proof.
  unfold unrealized. cbn [fold_left].
  destruct (String.eqb (Position.side position) "BUY"); ring.
Qed.

(** X17: when the last trade of a completed backtest was closed for lack
    of data, the last point of the equity curve values that trade before
    commission: it is the capital built from the earlier trades plus the
    trade's gross P&L, whereas the trade is booked at its gross P&L minus the
    commission of both legs; the forced close adds no equity point, so the
    curve never shows that commission. *)
Theorem final_equity_omits_last_commission (df : list Bar) (initial : option Q)
    (pct : Q) (result : BacktestResult) (earlier : list Trade.t) (trade : Trade.t) :
  (50 <= List.length df)%nat ->
  run_backtest self strategy df initial pct = Py.Ok result ->
  trades result = earlier ++ [trade] ->
  end_of_data trade ->
  exists points last,
    equity_curve result = points ++ [last]
    /\ last == compounded (or_default initial (initial_capital self)) earlier
               + gross trade
    /\ Trade.pnl trade == gross trade - commission_paid self trade.
Proof.
  intros Hlen Hrun Hlast Hend.
  destruct (run_backtest_books self strategy _ _ _ _ Hlen Hrun)
    as (st & final & last_bar & others & Hb & _ & Htrades & Hfinal & Hcurve
        & _ & Hpnl & Hpoint).
  pose proof (one_position _ _ Hb) as Hone.
  destruct (positions st) as [|position ps] eqn:Hpos.
  - exfalso. inversion Hfinal as [Hempty|]. subst final.
    rewrite app_nil_r in Htrades. rewrite Htrades in Hlast.
    pose proof (closed_in_loop _ _ Hb) as Hloop. rewrite Hlast in Hloop.
    apply Forall_app in Hloop as [_ Hloop].
    inversion Hloop as [|? ? Hnot _]. exact (Hnot Hend).
  - destruct ps as [|? ?]; [|cbn in Hone; lia].
    inversion Hfinal as [|? closing ? ts Hc Hrest]. subst final.
    inversion Hrest. subst ts.
    rewrite Htrades in Hlast. apply app_inj_tail in Hlast as [<- ->].
    destruct Hpoint as [points Hpoints]; [discriminate|].
    exists points. eexists. split; [rewrite Hcurve; exact Hpoints|].
    destruct Hc as (_ & Hside & Hentry & Hexit & Hquantity & Hnet).
    assert (Hgross : unrealized (close last_bar) [position] == gross trade).
    { rewrite unrealized_one. unfold gross.
      rewrite Hside, Hentry, Hexit, Hquantity. reflexivity. }
    split.
    + rewrite Hgross, compounded_sum, (capital_is_sum _ _ Hb). reflexivity.
    + rewrite Hnet. unfold net_pnl, gross, commission_paid.
      rewrite Hside, Hentry, Hexit, Hquantity.
      destruct (String.eqb (Position.side position) "BUY"); ring.
Qed.

End BacktestAccounts.

Section BacktestAccountsExamples.

Import Backtesting BacktestBooks.

Lemma equity_curve_length_witness :
  exists result,
    run_backtest (mk 10000 (1 # 1000)) buy_once sample_frame None (1 # 10)
      = Py.Ok result
    /\ List.length (equity_curve result) = 3%nat.
Proof.
  destruct (run_backtest (mk 10000 (1 # 1000)) buy_once sample_frame None (1 # 10))
    as [result|e] eqn:E.
  - exists result. split; [reflexivity|].
    apply (equity_curve_length (mk 10000 (1 # 1000)) buy_once sample_frame None
             (1 # 10) result); [vm_compute; lia|exact E].
  - vm_compute in E. discriminate E.
Defined.

Lemma end_of_data_trade_is_last_witness :
  exists result earlier final,
    run_backtest (mk 10000 (1 # 1000)) buy_late sample_frame None (1 # 10)
      = Py.Ok result
    /\ trades result = earlier ++ final
    /\ Forall (fun trade => ~ end_of_data trade) earlier
    /\ Forall end_of_data final
    /\ (List.length final <= 1)%nat.
Proof.
  destruct (run_backtest (mk 10000 (1 # 1000)) buy_late sample_frame None (1 # 10))
    as [result|e] eqn:E.
  - destruct (end_of_data_trade_is_last (mk 10000 (1 # 1000)) buy_late sample_frame
                None (1 # 10) result) as (earlier & final & H);
      [vm_compute; lia|exact E|].
    exists result, earlier, final. split; [reflexivity|exact H].
  - vm_compute in E. discriminate E.
Defined.

Lemma final_equity_is_compounded_capital_witness :
  exists result points last,
    run_backtest (mk 10000 (1 # 1000)) buy_once sample_frame None (1 # 10)
      = Py.Ok result
    /\ equity_curve result = points ++ [last]
    /\ last == compounded 10000 (trades result).
Proof.
  destruct (run_backtest (mk 10000 (1 # 1000)) buy_once sample_frame None (1 # 10))
    as [result|e] eqn:E.
  - destruct (final_equity_is_compounded_capital (mk 10000 (1 # 1000)) buy_once
                sample_frame None (1 # 10) result) as (points & last & H);
      [vm_compute; lia|exact E| |].
    + vm_compute in E. injection E as <-.
      constructor; [discriminate|constructor].
    + exists result, points, last. split; [reflexivity|exact H].
  - vm_compute in E. discriminate E.
Defined.

Lemma final_equity_omits_last_commission_witness :
  exists result trade points last,
    run_backtest (mk 10000 (1 # 1000)) buy_late sample_frame None (1 # 10)
      = Py.Ok result
    /\ trades result = [trade]
    /\ equity_curve result = points ++ [last]
    /\ last == compounded 10000 [] + gross trade
    /\ Trade.pnl trade == gross trade - commission_paid (mk 10000 (1 # 1000)) trade.
Proof.
  destruct (run_backtest (mk 10000 (1 # 1000)) buy_late sample_frame None (1 # 10))
    as [result|e] eqn:E.
  - destruct (trades result) as [|trade [|]] eqn:Htrades;
      [vm_compute in E; injection E as <-; discriminate Htrades
      | |vm_compute in E; injection E as <-; discriminate Htrades].
    destruct (final_equity_omits_last_commission (mk 10000 (1 # 1000)) buy_late
                sample_frame None (1 # 10) result [] trade) as (points & last & H);
      [vm_compute; lia|exact E|exact Htrades| |].
    + vm_compute in E. injection E as <-. injection Htrades as <-. reflexivity.
    + exists result, trade, points, last.
      split; [reflexivity|]. split; [exact Htrades|exact H].
  - vm_compute in E. discriminate E.
Defined.

End BacktestAccountsExamples.

(** ** Strategies that never trade (backtesting.py, chart_patterns.py) *)

Section IdleBacktest.

Import Backtesting BacktestBooks.

Variable self : Backtesting.t.

Lemma hold_is_not_tradable (price : Q) :
  tradable
    (Signal.action (Signal.mk (Some "HOLD"%string) (Some 0) (Some price) None None))
  = None.
Proof. reflexivity. Qed.






End IdleBacktest.

Section IdleBacktestExamples.

Import Backtesting BacktestBooks.


End IdleBacktestExamples.

(** ** The exit rules of the strategies and the P&L of the backtester *)

Section ExitRules.

Import Backtesting.

Variable commission : Q.
Variable position : Position.t.
Variable current_price : Q.

Hypothesis bought_at_a_price : 0 < Position.entry_price position.
Hypothesis holds_something : 0 < Position.quantity position.
Hypothesis price_not_negative : 0 <= current_price.

Lemma loss_below_entry :
  0 <= commission ->
  (if String.eqb (Position.side position) "BUY"
   then current_price < Position.entry_price position
   else Position.entry_price position < current_price) ->
  net_pnl commission (Position.side position) (Position.entry_price position)
    current_price (Position.quantity position) < 0.
Proof.
  intros Hc. unfold net_pnl.
  set (e := Position.entry_price position) in *.
  set (q := Position.quantity position) in *.
  assert (Hvalue : 0 <= (e + current_price) * q) by nra.
  assert (Hcost : 0 <= (e + current_price) * q * commission) by nra.
  destruct (String.eqb (Position.side position) "BUY"); intro Hside.
  - assert (H : (current_price - e) * q < 0) by nra. lra.
  - assert (H : (e - current_price) * q < 0) by nra. lra.
Qed.

(** X20: when the exit rule of [MovingAverageStrategy] or of
    [ChartPatternStrategy] tells the backtester to leave a position bought
    or sold at a positive price, the trade it records is a loss: these
    rules only cut losses, they never take a profit. *)
Theorem strategy_exit_is_a_loss :
  0 <= commission ->
  MovingAverageStrategy.should_exit position current_price = true
  \/ ChartPatternStrategy.should_exit position current_price = true ->
  net_pnl commission (Position.side position) (Position.entry_price position)
    current_price (Position.quantity position) < 0.
Proof.
  intros Hc Hexit. apply loss_below_entry; [exact Hc|].
  unfold MovingAverageStrategy.should_exit, ChartPatternStrategy.should_exit in Hexit.
  destruct (Py.eqb (Position.entry_price position) 0);
    [destruct Hexit; discriminate|].
  destruct (String.eqb (Position.side position) "BUY");
    destruct Hexit as [H|H]; apply ltb_spec in H; lra.
Qed.

(** X21: when the exit rule of [BollingerBandsStrategy] tells the
    backtester to leave a position, the trade it records is a gain after
    commission, for every commission rate up to 1/101, the default 0.001
    included. *)
Theorem bollinger_exit_is_a_gain :
  0 <= commission <= 1 # 101 ->
  BollingerBandsStrategy.should_exit position current_price = true ->
  0 < net_pnl commission (Position.side position) (Position.entry_price position)
        current_price (Position.quantity position).
Proof.
  intros Hc Hexit. unfold BollingerBandsStrategy.should_exit in Hexit.
  destruct (Py.eqb (Position.entry_price position) 0); [discriminate|].
  unfold net_pnl.
  set (e := Position.entry_price position) in *.
  set (q := Position.quantity position) in *.
  destruct (String.eqb (Position.side position) "BUY"); apply ltb_spec in Hexit.
  - assert (H : 0 < (current_price - e) - (e + current_price) * commission) by nra.
    assert (G : 0 < ((current_price - e) - (e + current_price) * commission) * q) by nra.
    nra.
  - assert (H : 0 < (e - current_price) - (e + current_price) * commission) by nra.
    assert (G : 0 < ((e - current_price) - (e + current_price) * commission) * q) by nra.
    nra.
Qed.

End ExitRules.

Section ExitRulesExamples.

Import Backtesting.

Lemma strategy_exit_is_a_loss_witness :
  net_pnl (1 # 1000) "BUY" 100 95 10 < 0.
Proof.
  apply (strategy_exit_is_a_loss (1 # 1000)
           (Position.mk 0 100 10 "BUY" "X" 0 0 0) 95);
    [reflexivity|reflexivity|discriminate|discriminate|left; reflexivity].
Defined.

Lemma bollinger_exit_is_a_gain_witness :
  0 < net_pnl (1 # 1000) "SELL" 100 95 10.
Proof.
  apply (bollinger_exit_is_a_gain (1 # 1000)
           (Position.mk 0 100 10 "SELL" "X" 0 0 0) 95);
    [reflexivity|reflexivity|discriminate|split; discriminate|reflexivity].
Defined.

End ExitRulesExamples.

(** ** The pattern detector (chart_patterns.py) *)

Section PatternDetector.

Import Backtesting ChartPatterns.

Lemma fold_max_ge (l : list Q) (acc : Q) :
  acc <= fold_left Qmax l acc
  /\ forall x, In x l -> x <= fold_left Qmax l acc.
Proof.
  revert acc. induction l as [|a l IH]; intro acc; cbn [fold_left].
  - split; [apply Qle_refl|intros x []].
  - destruct (IH (Qmax acc a)) as [Hacc Hin]. split.
    + eapply Qle_trans; [apply Q.le_max_l|exact Hacc].
    + intros x [<-|Hx]; [|exact (Hin x Hx)].
      eapply Qle_trans; [apply Q.le_max_r|exact Hacc].
Qed.

Lemma fold_min_le (l : list Q) (acc : Q) :
  fold_left Qmin l acc <= acc
  /\ forall x, In x l -> fold_left Qmin l acc <= x.
Proof.
  revert acc. induction l as [|a l IH]; intro acc; cbn [fold_left].
  - split; [apply Qle_refl|intros x []].
  - destruct (IH (Qmin acc a)) as [Hacc Hin]. split.
    + eapply Qle_trans; [exact Hacc|apply Q.le_min_l].
    + intros x [<-|Hx]; [|exact (Hin x Hx)].
      eapply Qle_trans; [exact Hacc|apply Q.le_min_r].
Qed.

Lemma series_max_ge (l : list Q) (x : Q) : In x l -> x <= series_max l.
Proof.
  destruct l as [|y l]; [intros []|]. cbn [series_max].
  intros [<-|Hx];
    [exact (proj1 (fold_max_ge l y))|exact (proj2 (fold_max_ge l y) x Hx)].
Qed.

Lemma series_min_le (l : list Q) (x : Q) : In x l -> series_min l <= x.
Proof.
  destruct l as [|y l]; [intros []|]. cbn [series_min].
  intros [<-|Hx];
    [exact (proj1 (fold_min_le l y))|exact (proj2 (fold_min_le l y) x Hx)].
Qed.

(** The last row of a tail that is not empty is the last row of the
    series, and it belongs to every tail that is not empty. *)
Lemma last_row_of_tail (volume_column volume_column' : bool) (l : list Bar)
    (n : nat) (bar : Bar) :
  last_row (mkFrame volume_column (tail n l)) = Py.Ok bar ->
  last_row (mkFrame volume_column' l) = Py.Ok bar /\ n <> 0%nat.
Proof.
  unfold last_row, tail. cbn [rows]. intro H.
  destruct (rev (skipn (List.length l - n) l)) as [|first others] eqn:E;
    [discriminate|].
  injection H as ->.
  rewrite <- (firstn_skipn (List.length l - n) l) at 1.
  rewrite rev_app_distr, E. cbn [app]. split; [reflexivity|].
  intros ->. rewrite Nat.sub_0_r, skipn_all in E. discriminate E.
Qed.

Lemma last_row_in_tail (volume_column : bool) (l : list Bar) (n : nat) (bar : Bar) :
  last_row (mkFrame volume_column l) = Py.Ok bar ->
  n <> 0%nat ->
  In bar (tail n l).
Proof.
  unfold last_row, tail. cbn [rows]. intros H Hn.
  destruct (rev l) as [|first others] eqn:E; [discriminate|].
  injection H as ->.
  apply (f_equal (@rev Bar)) in E. rewrite rev_involutive in E. subst l.
  cbn [rev]. rewrite length_app, skipn_app. apply in_or_app. right.
  cbn [List.length].
  replace (List.length (rev others) + 1 - n - List.length (rev others))%nat
    with 0%nat by lia.
  left. reflexivity.
Qed.

(** X22: [detect_flag] reports no pattern on a frame whose last bar closes
    between its low and its high: the breakout tests compare the last
    close with the highest high and the lowest low of a flag that contains
    the last bar itself, so neither a Bull Flag nor a Bear Flag is ever
    found on well-formed price bars. *)
Theorem detect_flag_finds_nothing (data : DataFrame) (lookback : nat)
    (pattern : Pattern.t) :
  (forall bar, last_row data = Py.Ok bar -> low bar <= close bar <= high bar) ->
  detect_flag data lookback <> Py.Ok (Some pattern).
Proof.
  intro Hbar. unfold detect_flag.
  destruct (Nat.ltb (List.length (rows data)) lookback); [discriminate|].
  destruct (last_row (mkFrame (has_volume data) (head _ _))) as [flagpole_last|e];
    [|discriminate].
  cbn [Py.bind rows].
  destruct (last_row (mkFrame (has_volume data) (tail lookback (rows data))))
    as [current|e] eqn:Hcurrent; [|discriminate].
  cbn [Py.bind].
  pose proof Hcurrent as Hlast.
  apply (last_row_of_tail _ (has_volume data)) in Hlast as [Hlast Hlookback].
  assert (Hdata : last_row data = Py.Ok current) by (destruct data; exact Hlast).
  specialize (Hbar _ Hdata).
  assert (Hflag : In current
                    (tail (lookback - Nat.div lookback 3)
                       (tail lookback (rows data)))).
  { apply (last_row_in_tail _ _ _ _ Hcurrent).
    pose proof (Nat.Div0.div_lt_upper_bound lookback 3 lookback) as Hdiv.
    assert (Nat.div lookback 3 < lookback)%nat by (apply Hdiv; lia). lia. }
  assert (Hhigh : Py.ltb
                    (series_max
                       (map high (tail (lookback - Nat.div lookback 3)
                                    (tail lookback (rows data)))))
                    (close current) = false).
  { apply ltb_false. eapply Qle_trans; [exact (proj2 Hbar)|].
    apply series_max_ge, in_map, Hflag. }
  assert (Hlow : Py.ltb (close current)
                   (series_min
                      (map low (tail (lookback - Nat.div lookback 3)
                                  (tail lookback (rows data)))))
                 = false).
  { apply ltb_false. eapply Qle_trans; [|exact (proj1 Hbar)].
    apply series_min_le, in_map, Hflag. }
  rewrite Hhigh, Hlow.
  repeat match goal with
         | |- context [if ?b then _ else _] => destruct b
         end; discriminate.
Qed.

Lemma last_row_nonempty (data : DataFrame) :
  rows data <> [] -> exists bar, last_row data = Py.Ok bar.
Proof.
  intro H. unfold last_row.
  destruct (rev (rows data)) as [|bar others] eqn:E.
  - apply (f_equal (@rev Bar)) in E. rewrite rev_involutive in E. contradiction.
  - exists bar. reflexivity.
Qed.

Lemma last_row_empty (data : DataFrame) :
  rows data = [] -> last_row data = Py.Raise Py.IndexError.
Proof. intro H. unfold last_row. rewrite H. reflexivity. Qed.

(** The strength is a sum of 0.5 and increments that are not negative,
    capped at 1. *)
Ltac capped_strength :=
  match goal with
  | |- _ <= Py.min2 ?x 1 <= _ /\ _ =>
      let Hx := fresh "Hx" in
      let Hmin := fresh "Hmin" in
      assert (Hx : 5 # 10 <= x)
        by (repeat match goal with
                   | |- context [if ?b then _ else _] => destruct b
                   | |- context [match ?v with Some _ => _ | None => _ end] =>
                       destruct v
                   end; lra);
      assert (Hmin : 5 # 10 <= Py.min2 x 1)
        by (rewrite min2_spec; apply Q.min_glb; [exact Hx|lra]);
      split; [split; [exact Hmin|apply min2_le_r]|];
      split; [reflexivity|apply ltb_false, Hmin]
  end.

(** X23: [calculate_pattern_strength] returns on every frame that has a
    row; on an empty frame it raises [IndexError] when the frame has a volume
    column or the pattern carries a breakout, and returns otherwise.  The
    strength it returns lies between 0.5 and 1, so it is never below the
    detector's minimum pattern strength of 0.5. *)
Theorem pattern_strength_range (pattern_data : Pattern.t) (data : DataFrame) :
  (forall strength,
     calculate_pattern_strength pattern_data data = Py.Ok strength ->
     5 # 10 <= strength <= 1
     /\ number_attribute ChartPatternDetector_init "min_pattern_strength"
        = Py.Ok (5 # 10)
     /\ Py.ltb strength (5 # 10) = false)
  /\ (rows data <> [] ->
      exists strength, calculate_pattern_strength pattern_data data = Py.Ok strength)
  /\ (rows data = [] ->
      if has_volume data || or_default (Pattern.breakout pattern_data) false
      then calculate_pattern_strength pattern_data data = Py.Raise Py.IndexError
      else exists strength,
             calculate_pattern_strength pattern_data data = Py.Ok strength).
Proof.
  split; [|split].
  - intros strength. unfold calculate_pattern_strength.
    destruct (last_row data) as [current|e];
      destruct (has_volume data); cbn [Py.bind];
      destruct (or_default (Pattern.breakout pattern_data) false); cbn [Py.bind];
      intro H; try discriminate H; injection H as <-; capped_strength.
  - intro Hrows. destruct (last_row_nonempty data Hrows) as [bar Hlast].
    unfold calculate_pattern_strength. rewrite Hlast.
    destruct (has_volume data); cbn [Py.bind];
      destruct (or_default (Pattern.breakout pattern_data) false); cbn [Py.bind];
      eexists; reflexivity.
  - intro Hrows. pose proof (last_row_empty data Hrows) as Hlast.
    unfold calculate_pattern_strength. rewrite Hlast.
    destruct (has_volume data); cbn [orb Py.bind]; [reflexivity|].
    destruct (or_default (Pattern.breakout pattern_data) false); cbn [Py.bind];
      [reflexivity|eexists; reflexivity].
Qed.

Lemma leb_opp (a b : Q) : Py.leb (- a) (- b) = Py.leb b a.
Proof.
  destruct (Py.leb b a) eqn:E.
  - apply leb_spec in E. apply leb_spec. lra.
  - apply leb_false in E. apply leb_false. lra.
Qed.

Lemma iloc_opp (data : list Q) (i : nat) :
  iloc (map Qopp data) i = - iloc data i.
Proof. unfold iloc. exact (map_nth Qopp data 0 i). Qed.

Lemma forallb_same {A : Type} (f g : A -> bool) (l : list A) :
  (forall x, f x = g x) -> forallb f l = forallb g l.
Proof.
  intro H. induction l as [|x l IH]; [reflexivity|].
  cbn [forallb]. rewrite H, IH. reflexivity.
Qed.

(** X24: troughs are the peaks of the mirrored series: [find_troughs]
    returns on a series what [find_peaks] returns on its negation, and the
    other way round. *)
Theorem troughs_are_mirrored_peaks (data : list Q) (window : nat) :
  find_troughs data window = find_peaks (map Qopp data) window
  /\ find_peaks data window = find_troughs (map Qopp data) window.
Proof.
  unfold find_troughs, find_peaks. rewrite length_map.
  split; apply filter_ext; intro i; rewrite !iloc_opp;
    f_equal; apply forallb_same; intro j; rewrite iloc_opp, leb_opp; reflexivity.
Qed.

Lemma filter_none {A : Type} (f : A -> bool) (l : list A) :
  (forall x, In x l -> f x = false) -> filter f l = [].
Proof.
  induction l as [|x l IH]; intro H; [reflexivity|].
  cbn [filter]. rewrite (H x (or_introl eq_refl)).
  apply IH. intros y Hy. apply H. right. exact Hy.
Qed.

(** X25: a series that rises at every step, or falls at every step, has
    neither a peak nor a trough for any window of at least 1: [find_peaks]
    and [find_troughs] both return the empty list, so that the detectors built
    on them find nothing in a steady trend. *)
Theorem steady_series_has_no_extremum (data : list Q) (window : nat) :
  (1 <= window)%nat ->
  (forall i, (S i < List.length data)%nat -> iloc data i < iloc data (S i))
  \/ (forall i, (S i < List.length data)%nat -> iloc data (S i) < iloc data i) ->
  find_peaks data window = [] /\ find_troughs data window = [].
Proof.
  intros Hw Hsteady. unfold find_peaks, find_troughs.
  split; apply filter_none; intros i Hi; apply in_seq in Hi;
    apply andb_false_iff.
  - destruct Hsteady as [Hup|Hdown].
    + right. apply not_true_is_false. intro Hall.
      rewrite forallb_forall in Hall.
      assert (H1 : In 1%nat (seq 1 window)) by (apply in_seq; lia).
      apply Hall, leb_spec in H1.
      specialize (Hup i). replace (i + 1)%nat with (S i) in H1 by lia.
      assert (Hlt : iloc data i < iloc data (S i)) by (apply Hup; lia). lra.
    + left. apply not_true_is_false. intro Hall.
      rewrite forallb_forall in Hall.
      assert (H1 : In 1%nat (seq 1 window)) by (apply in_seq; lia).
      apply Hall, leb_spec in H1.
      specialize (Hdown (i - 1)%nat).
      replace (S (i - 1)) with i in Hdown by lia.
      assert (Hlt : iloc data i < iloc data (i - 1)) by (apply Hdown; lia). lra.
  - destruct Hsteady as [Hup|Hdown].
    + left. apply not_true_is_false. intro Hall.
      rewrite forallb_forall in Hall.
      assert (H1 : In 1%nat (seq 1 window)) by (apply in_seq; lia).
      apply Hall, leb_spec in H1.
      specialize (Hup (i - 1)%nat).
      replace (S (i - 1)) with i in Hup by lia.
      assert (Hlt : iloc data (i - 1) < iloc data i) by (apply Hup; lia). lra.
    + right. apply not_true_is_false. intro Hall.
      rewrite forallb_forall in Hall.
      assert (H1 : In 1%nat (seq 1 window)) by (apply in_seq; lia).
      apply Hall, leb_spec in H1.
      specialize (Hdown i). replace (i + 1)%nat with (S i) in H1 by lia.
      assert (Hlt : iloc data (S i) < iloc data i) by (apply Hdown; lia). lra.
Qed.

End PatternDetector.

Section PatternDetectorExamples.

Import Backtesting ChartPatterns.

Lemma detect_flag_finds_nothing_witness :
  detect_flag flat_then_drop 30
  <> Py.Ok (Some (plain_pattern "Bear Flag" "Bearish" None (Some 90) 80 (7 # 10))).
Proof.
  apply (detect_flag_finds_nothing flat_then_drop 30).
  intros bar H. vm_compute in H. injection H as <-. split; discriminate.
Defined.

Lemma pattern_strength_range_witness :
  (exists strength,
     calculate_pattern_strength
       (plain_pattern "Bear Flag" "Bearish" None (Some 100) 80 (8 # 10))
       flat_then_drop = Py.Ok strength
     /\ 5 # 10 <= strength <= 1)
  /\ calculate_pattern_strength
       (plain_pattern "Bear Flag" "Bearish" None (Some 100) 80 (8 # 10))
       (mkFrame true []) = Py.Raise Py.IndexError.
Proof.
  split.
  - destruct (proj1 (proj2 (pattern_strength_range
                (plain_pattern "Bear Flag" "Bearish" None (Some 100) 80 (8 # 10))
                flat_then_drop))) as [strength E]; [discriminate|].
    exists strength. split; [exact E|].
    exact (proj1 (proj1 (pattern_strength_range _ _) strength E)).
  - apply (proj2 (proj2 (pattern_strength_range
                (plain_pattern "Bear Flag" "Bearish" None (Some 100) 80 (8 # 10))
                (mkFrame true [])))).
    reflexivity.
Defined.

(** [steady_series_has_no_extremum] on the series 1, 2, ..., 10 with the
    window of the triangle detector. *)
Lemma steady_series_has_no_extremum_witness :
  find_peaks (map of_nat (seq 1 10)) 2 = []
  /\ find_troughs (map of_nat (seq 1 10)) 2 = [].
Proof.
  apply (steady_series_has_no_extremum (map of_nat (seq 1 10)) 2); [lia|].
  left. intros i Hi. cbn in Hi.
  do 9 (destruct i as [|i]; [reflexivity|]). lia.
Defined.

End PatternDetectorExamples.

(** ** More on the sentiment scorer (data_ingestion.py) *)

Section SentimentRange.

Import NewsDataIngestion.

Lemma lower_char_idempotent (c : ascii) : lower_char (lower_char c) = lower_char c.
Proof. destruct c as [[] [] [] [] [] [] [] []]; reflexivity. Qed.

Lemma lower_idempotent (text : string) : lower (lower text) = lower text.
Proof.
  induction text as [|c text IH]; [reflexivity|].
  cbn [lower]. rewrite lower_char_idempotent, IH. reflexivity.
Qed.

Lemma lower_empty (text : string) :
  String.eqb (lower text) "" = String.eqb text "".
Proof. destruct text; reflexivity. Qed.

Lemma score_sign_and_range (p n : nat) :
  (p <= 9)%nat -> (n <= 9)%nat ->
  let score := inject_Z (Z.of_nat p - Z.of_nat n)
               / inject_Z (Z.of_nat p + Z.of_nat n + 1) in
  (- (9 # 10) <= score <= 9 # 10)
  /\ (0 < score <-> (n < p)%nat)
  /\ (score < 0 <-> (p < n)%nat).
Proof.
  intros Hp Hn. cbv zeta.
  set (a := (Z.of_nat p - Z.of_nat n)%Z).
  set (d := (Z.of_nat p + Z.of_nat n + 1)%Z).
  assert (Hup : inject_Z a <= (9 # 10) * inject_Z d).
  { unfold Qle, Qmult, inject_Z. cbn [Qnum Qden].
    change (Z.pos (10 * 1)) with 10%Z. subst a d. lia. }
  assert (Hdown : - (9 # 10) * inject_Z d <= inject_Z a).
  { unfold Qle, Qmult, Qopp, inject_Z. cbn [Qnum Qden].
    change (Z.pos (10 * 1)) with 10%Z. subst a d. lia. }
  assert (Hd : 0 < inject_Z d).
  { replace 0 with (inject_Z 0) by reflexivity. rewrite <- Zlt_Qlt.
    subst d. lia. }
  assert (Hinv : 0 < / inject_Z d) by (apply Qinv_lt_0_compat, Hd).
  split; [split|split].
  - apply Qle_shift_div_l; [exact Hd|exact Hdown].
  - apply Qle_shift_div_r; [exact Hd|exact Hup].
  - unfold Qdiv. split; intro H.
    + assert (Ha : 0 < inject_Z a) by nra.
      replace 0 with (inject_Z 0) in Ha by reflexivity.
      rewrite <- Zlt_Qlt in Ha. lia.
    + assert (Ha : 0 < inject_Z a).
      { replace 0 with (inject_Z 0) by reflexivity. rewrite <- Zlt_Qlt. lia. }
      nra.
  - unfold Qdiv. split; intro H.
    + assert (Ha : inject_Z a < 0) by nra.
      replace 0 with (inject_Z 0) in Ha by reflexivity.
      rewrite <- Zlt_Qlt in Ha. lia.
    + assert (Ha : inject_Z a < 0).
      { replace 0 with (inject_Z 0) by reflexivity. rewrite <- Zlt_Qlt. lia. }
      nra.
Qed.

(** X26: the sentiment score never leaves [-0.9, 0.9]: the range -1 to +1
    of the docstring is not reached and the final clipping never acts; the
    score is positive exactly when more positive than negative words are
    present and negative in the opposite case; and it does not depend on the
    case of the letters. *)
Theorem sentiment_range_and_sign (text : string) :
  let pos := count_present positive_words (lower text) in
  let neg := count_present negative_words (lower text) in
  (- (9 # 10) <= _analyze_sentiment text <= 9 # 10)
  /\ (0 < _analyze_sentiment text <-> (neg < pos)%nat)
  /\ (_analyze_sentiment text < 0 <-> (pos < neg)%nat)
  /\ _analyze_sentiment (lower text) = _analyze_sentiment text.
Proof.
  cbv zeta.
  assert (Hcase : _analyze_sentiment (lower text) = _analyze_sentiment text).
  { unfold _analyze_sentiment. rewrite lower_empty, lower_idempotent. reflexivity. }
  destruct (string_dec text "") as [->|Hne].
  - cbn. repeat split; try discriminate; intro H; try lia; inversion H.
  - pose proof (score_sign_and_range
                  (count_present positive_words (lower text))
                  (count_present negative_words (lower text))
                  (count_present_bound _ _) (count_present_bound _ _)) as Hscore.
    cbv zeta in Hscore.
    pose proof (analyze_sentiment_unfold text Hne) as Hs. cbv zeta in Hs.
    destruct Hscore as (Hrange & Hpos & Hneg).
    split; [rewrite Hs; exact Hrange|].
    split; [rewrite Hs; exact Hpos|].
    split; [rewrite Hs; exact Hneg|exact Hcase].
Qed.

End SentimentRange.
